(** * Multimodal RAG backend: rate-limit retry, summarization pipeline,
      parent/child index and retrieval

    A shallow embedding of the Python backend under [backend/app]:

    - [utils/rate_limit.py]: [extract_wait_seconds_from_error],
      [is_rate_limit_error], [with_rate_limit_retry];
    - [services/summary_service.py]: [_summarize_one_internal],
      [_summarize_one], [summarize_texts_and_tables], [summarize_images],
      [build_summaries];
    - [services/vector_service.py]: [index_multivector],
      [retrieve_with_sources], [delete_vectors_for_document];
    - [services/rag_service.py]: [build_prompt], [_chat_via_gemini],
      [answer_question];
    - [api/v1/upload.py]: [process_upload_background];
    - [api/v1/chat.py]: [event_generator] of [chat_stream],
      [_load_conversation_history];
    - [api/v1/documents.py]: [get_documents], [remove_document];
    - [repositories/message_repo.py]: [get_messages_by_session];
      [repositories/session_repo.py]: [delete_session];
      [repositories/document_repo.py]: [delete_document].

    Conventions of the embedding.

    - Python [str] is [string]; texts are taken to be ASCII, so that
      [lower], [strip], [\s] and [\d] have their ASCII meaning.
    - Python [int] is [Z]; list lengths and loop indices are [nat].
    - Durations, scores and rates, which Python holds in binary64 floats,
      are exact rationals ([Q]): what is proved about them are order facts
      that rounding does not disturb.  The one computation whose result
      depends on binary64 rounding, the progress percentage
      [int(start + (idx + 1) * progress_per_chunk)], is modelled on the
      primitive binary64 floats.
    - The provider, the random generator, the uuid generator and the vector
      store are oracles indexed by the number of calls made so far; every
      function that uses them threads an explicit [world].  The world also
      holds the files of the parents index and the [documents] and
      [messages] tables; the messages are listed in the order of their
      creation.
    - A function that can raise returns an [outcome].  Writing a row,
      creating a message and calling the progress callback are taken not to
      raise; logging is left out. *)

From Stdlib Require Import ZArith QArith Qround Qpower List String Ascii Lia Lqa Bool.
From Stdlib Require Import Floats.
From Stdlib Require Sorting.Sorted.
From stdpp Require Import base option gmap list strings pretty.

Set Warnings "-register-all,-inexact-float,-abstract-large-number".

Local Open Scope string_scope.
Local Open Scope Z_scope.

(** ** Python strings *)

Module PyStr.

(** [c.lower()] on an ASCII character. *)
Definition lower_ascii (c : ascii) : ascii :=
  let n := nat_of_ascii c in
  if (65 <=? n)%nat && (n <=? 90)%nat then ascii_of_nat (n + 32) else c.

(** [s.lower()] *)
Fixpoint lower (s : string) : string :=
  match s with
  | EmptyString => EmptyString
  | String c s' => String (lower_ascii c) (lower s')
  end.

(** [s.startswith(p)] *)
Fixpoint startswith (s p : string) : bool :=
  match p, s with
  | EmptyString, _ => true
  | String a p', String b s' => if Ascii.eqb a b then startswith s' p' else false
  | String _ _, EmptyString => false
  end.

(** [sub in s] *)
Fixpoint contains (sub s : string) : bool :=
  if startswith s sub then true
  else match s with
       | EmptyString => false
       | String _ s' => contains sub s'
       end.

(** [s[:n]] *)
Fixpoint slice_to (n : nat) (s : string) : string :=
  match n, s with
  | O, _ => EmptyString
  | S _, EmptyString => EmptyString
  | S n', String c s' => String c (slice_to n' s')
  end.

(** [s[n:]] *)
Fixpoint slice_from (n : nat) (s : string) : string :=
  match n, s with
  | O, _ => s
  | S _, EmptyString => EmptyString
  | S n', String _ s' => slice_from n' s'
  end.

(** [str.isspace] on ASCII: tab, LF, VT, FF, CR, FS, GS, RS, US, space. *)
Definition is_space (c : ascii) : bool :=
  let n := nat_of_ascii c in
  ((9 <=? n)%nat && (n <=? 13)%nat) || ((28 <=? n)%nat && (n <=? 32)%nat).

Definition is_digit (c : ascii) : bool :=
  let n := nat_of_ascii c in (48 <=? n)%nat && (n <=? 57)%nat.

(** [s.lstrip()] *)
Fixpoint lstrip (s : string) : string :=
  match s with
  | EmptyString => EmptyString
  | String c s' => if is_space c then lstrip s' else s
  end.

(** [s.rstrip()]: a character is dropped when it is a space and all that
    follows it is dropped too. *)
Fixpoint rstrip (s : string) : string :=
  match s with
  | EmptyString => EmptyString
  | String c s' =>
      match rstrip s' with
      | EmptyString => if is_space c then EmptyString else String c EmptyString
      | r => String c r
      end
  end.

(** [s.strip()] *)
Definition strip (s : string) : string := rstrip (lstrip s).

(** [" ".join(l)] *)
Fixpoint join (sep : string) (l : list string) : string :=
  match l with
  | [] => EmptyString
  | [x] => x
  | x :: rest => x ++ sep ++ join sep rest
  end.

(** [not s]: the empty string is falsy. *)
Definition is_empty (s : string) : bool :=
  match s with EmptyString => true | _ => false end.

End PyStr.

(** ** The fragment of Python's [re] used by the backend

    Every pattern of [rate_limit.py] is a sequence of literals, character
    classes, greedy [*] / [+] on a single character class, greedy [?], one
    capturing group and the negative lookahead [(?!...)] on a literal; all
    searches are made with [re.IGNORECASE].  The matcher is the usual
    backtracking one: [re_match] tries the alternatives in Python's order
    and [search] returns the leftmost match. *)

Module Regex.

Inductive cls : Type :=
| CChar (c : ascii)        (* a literal, compared case-insensitively *)
| CSpace                   (* \s *)
| CDigit                   (* \d *)
| CNotDigit                (* [^\d] *)
| CNot (c : ascii)         (* [^c] *)
| CDot.                    (* . without DOTALL: anything but a newline *)

Inductive re : Type :=
| Eps
| Cls (c : cls)
| Seq (r1 r2 : re)
| Star (c : cls)
| Plus (c : cls)
| Opt (r : re)
| Grp (r : re)
| NotAhead (lit : string).

Definition cls_match (c : cls) (a : ascii) : bool :=
  match c with
  | CChar x => Ascii.eqb (PyStr.lower_ascii x) (PyStr.lower_ascii a)
  | CSpace => PyStr.is_space a
  | CDigit => PyStr.is_digit a
  | CNotDigit => negb (PyStr.is_digit a)
  | CNot x => negb (Ascii.eqb x a)
  | CDot => negb (Ascii.eqb a "010"%char)
  end.

(** A literal word as a sequence of case-insensitive characters. *)
Fixpoint lit (s : string) : re :=
  match s with
  | EmptyString => Eps
  | String c s' => Seq (Cls (CChar c)) (lit s')
  end.

Fixpoint seqs (l : list re) : re :=
  match l with
  | [] => Eps
  | r :: l' => Seq r (seqs l')
  end.

(** Group 1 while a match is built: not entered yet, being read (the
    characters taken so far, latest first), or read. *)
Inductive capture : Type :=
| NoGroup
| Reading (taken : string)
| Group (text : string).

Definition push (a : ascii) (cap : capture) : capture :=
  match cap with
  | Reading taken => Reading (String a taken)
  | _ => cap
  end.

Fixpoint rev_onto (s acc : string) : string :=
  match s with
  | EmptyString => acc
  | String c s' => rev_onto s' (String c acc)
  end.

Definition close (cap : capture) : capture :=
  match cap with
  | Reading taken => Group (rev_onto taken EmptyString)
  | _ => cap
  end.

(** Greedy repetition of a character class, with backtracking: the
    longest run is tried first, then shorter ones. *)
Fixpoint star {R : Type} (c : cls) (s : string) (cap : capture)
         (k : string -> capture -> option R) : option R :=
  match s with
  | String a s' =>
      if cls_match c a then
        match star c s' (push a cap) k with
        | Some r => Some r
        | None => k s cap
        end
      else k s cap
  | EmptyString => k s cap
  end.

(** [re_match r s cap k]: match [r] at the head of [s], then continue with
    [k] on the rest; [cap] is the state of group 1. *)
Fixpoint re_match {R : Type} (r : re) (s : string) (cap : capture)
         (k : string -> capture -> option R) : option R :=
  match r with
  | Eps => k s cap
  | Cls c =>
      match s with
      | String a s' => if cls_match c a then k s' (push a cap) else None
      | EmptyString => None
      end
  | Seq r1 r2 => re_match r1 s cap (fun s' cap' => re_match r2 s' cap' k)
  | Star c => star c s cap k
  | Plus c =>
      match s with
      | String a s' => if cls_match c a then star c s' (push a cap) k else None
      | EmptyString => None
      end
  | Opt r1 =>
      match re_match r1 s cap k with
      | Some x => Some x
      | None => k s cap
      end
  | Grp r1 => re_match r1 s (Reading EmptyString) (fun s' cap' => k s' (close cap'))
  | NotAhead l =>
      if PyStr.startswith (PyStr.lower s) (PyStr.lower l) then None else k s cap
  end.

(** A match anchored at the head of [s]; the result is group 1. *)
Definition match_here (r : re) (s : string) : option (option string) :=
  re_match r s NoGroup
           (fun _ cap => Some (match cap with Group g => Some g | _ => None end)).

(** [re.search(r, s, re.IGNORECASE)]: the leftmost position that matches. *)
Fixpoint search (r : re) (s : string) : option (option string) :=
  match match_here r s with
  | Some cap => Some cap
  | None =>
      match s with
      | String _ s' => search r s'
      | EmptyString => None
      end
  end.

(** [match.group(1)] of a search, when there is a match and the group took part. *)
Definition search_group (r : re) (s : string) : option string :=
  match search r s with
  | Some (Some g) => Some g
  | _ => None
  end.

(** Building blocks shared by the patterns. *)
Definition ws : re := Star CSpace.          (* \s* *)
Definition ws1 : re := Plus CSpace.         (* \s+ *)
Definition number : re :=                   (* (\d+(?:\.\d+)?) *)
  Grp (Seq (Plus CDigit) (Opt (Seq (Cls (CChar "."%char)) (Plus CDigit)))).
Definition integer : re := Grp (Plus CDigit).   (* (\d+) *)
Definition seconds_opt : re :=              (* seconds? *)
  Seq (lit "second") (Opt (Cls (CChar "s"%char))).
Definition s_not_econds : re :=             (* s(?!econds) *)
  Seq (Cls (CChar "s"%char)) (NotAhead "econds").

End Regex.

(** ** Exceptions and results *)

(** The value of an attribute such as [err.code]. *)
Inductive pyattr : Type :=
| AInt (z : Z)
| AStr (s : string).

(** A raised exception, with what the backend reads from it:
    [type(e).__module__] and [type(e).__name__], [str(e)], [e.__cause__],
    [e.__context__], the exceptions among [e.args], and the optional
    attributes [retry_after] (as [float(e.retry_after)], absent when the
    attribute is missing or does not convert), [details] (as
    [str(e.details)]), [status_code] and [code]. *)
Inductive exn : Type :=
  Exn {
    exn_module : string;
    exn_name : string;
    exn_str : string;
    exn_cause : option exn;
    exn_context : option exn;
    exn_args : list exn;
    exn_retry_after : option Q;
    exn_details : option string;
    exn_status_code : option Z;
    exn_code : option pyattr
  }.

(** An exception with a message and nothing else. *)
Definition plain_exn (name msg : string) : exn :=
  Exn "builtins" name msg None None [] None None None None.

(** [str(type(e))] *)
Definition type_repr (e : exn) : string :=
  "<class '" ++
  (if String.eqb (exn_module e) "builtins" then exn_name e
   else exn_module e ++ "." ++ exn_name e) ++ "'>".

(** A call either returns or raises. *)
Inductive outcome (T : Type) : Type :=
| Ok (v : T)
| Raise (e : exn).
Arguments Ok {T} v.
Arguments Raise {T} e.

(** ** [utils/rate_limit.py] *)

Module RateLimit.
Import Regex.

(** [float(s)] for the decimal numerals the patterns capture:
    digits, optionally followed by a point and digits. *)
Fixpoint digits_value (s : string) (acc : Z) : option Z :=
  match s with
  | EmptyString => Some acc
  | String c s' =>
      if PyStr.is_digit c
      then digits_value s' (10 * acc + (Z.of_nat (nat_of_ascii c) - 48))
      else None
  end.

Fixpoint split_point (s : string) : string * option string :=
  match s with
  | EmptyString => (EmptyString, None)
  | String c s' =>
      if Ascii.eqb c "."%char then (EmptyString, Some s')
      else let '(a, b) := split_point s' in (String c a, b)
  end.

Definition float_of_string (s : string) : option Q :=
  let '(ip, fp) := split_point s in
  match ip, digits_value ip 0 with
  | EmptyString, _ => None
  | _, None => None
  | _, Some i =>
      match fp with
      | None => Some (i # 1)
      | Some EmptyString => None
      | Some f =>
          match digits_value f 0 with
          | None => None
          | Some fv =>
              let d := Pos.pow 10 (Pos.of_nat (String.length f)) in
              Some (Qred ((i * Zpos d + fv) # d))
          end
      end
  end.

(** please\s+retry\s+in\s+(\d+(?:\.\d+)?)\s*s *)
Definition please_retry_pattern : re :=
  seqs [lit "please"; ws1; lit "retry"; ws1; lit "in"; ws1; number; ws; lit "s"].

(** The list [patterns], in source order. *)
Definition patterns : list re :=
  [ please_retry_pattern;
    (* retry\s+in\s+(\d+(?:\.\d+)?)\s*s(?!econds) *)
    seqs [lit "retry"; ws1; lit "in"; ws1; number; ws; s_not_econds];
    (* retry\s+in\s+(\d+(?:\.\d+)?)\s*seconds? *)
    seqs [lit "retry"; ws1; lit "in"; ws1; number; ws; seconds_opt];
    (* retry\s+after\s+(\d+(?:\.\d+)?)\s*seconds? *)
    seqs [lit "retry"; ws1; lit "after"; ws1; number; ws; seconds_opt];
    (* retry\s+after\s+(\d+(?:\.\d+)?)\s*s(?!econds) *)
    seqs [lit "retry"; ws1; lit "after"; ws1; number; ws; s_not_econds];
    (* wait\s+(\d+(?:\.\d+)?)\s*seconds? *)
    seqs [lit "wait"; ws1; number; ws; seconds_opt];
    (* (\d+(?:\.\d+)?)\s*seconds?\s*to\s*retry *)
    seqs [number; ws; seconds_opt; ws; lit "to"; ws; lit "retry"];
    (* (\d+(?:\.\d+)?)\s*s(?!econds)\s*[^\d] *)
    seqs [number; ws; s_not_econds; ws; Cls CNotDigit];
    (* retry_delay\s*\{\s*seconds:\s*(\d+) *)
    seqs [lit "retry_delay"; ws; lit "{"; ws; lit "seconds:"; ws; integer];
    (* seconds:\s*(\d+) *)
    seqs [lit "seconds:"; ws; integer] ].

(** retry_delay\s*\{[^}]*seconds:\s*(\d+) *)
Definition retry_delay_pattern : re :=
  seqs [lit "retry_delay"; ws; lit "{"; Star (CNot "}"%char); lit "seconds:"; ws; integer].

(** [errors_to_check]: the error, its cause, its context, and the
    exceptions among its arguments (one level, as in the source). *)
Definition errors_to_check (error : exn) : list exn :=
  (error :: option_list (exn_cause error) ++ option_list (exn_context error)
         ++ exn_args error)%list.

(** The value captured by [r] in [text] when it lies in [[lo, 3600]]. *)
Definition in_range (lo : Q) (w : Q) : bool := Qle_bool lo w && Qle_bool w 3600.

Definition try_pattern (lo : Q) (r : re) (text : string) : option Q :=
  match search_group r text with
  | Some g =>
      match float_of_string g with
      | Some w => if in_range lo w then Some w else None
      | None => None
      end
  | None => None
  end.

(** The inner [for pattern in patterns] loop: the first pattern whose
    match is in range wins; a match out of range falls through to the next
    pattern. *)
Fixpoint try_patterns (lo : Q) (ps : list re) (text : string) : option Q :=
  match ps with
  | [] => None
  | r :: ps' =>
      match try_pattern lo r text with
      | Some w => Some w
      | None => try_patterns lo ps' text
      end
  end.

(** One round of the loop over [errors_to_check]. *)
Definition check_one (err : exn) : option Q :=
  let error_str := exn_str err in
  match try_pattern (1 # 10) retry_delay_pattern error_str with
  | Some w => Some w
  | None => try_patterns (1 # 10) patterns error_str
  end.

Fixpoint check_all (errs : list exn) : option Q :=
  match errs with
  | [] => None
  | err :: rest =>
      match check_one err with
      | Some w => Some w
      | None => check_all rest
      end
  end.

Definition extract_wait_seconds_from_error (error : exn) : option Q :=
  match check_all (errors_to_check error) with
  | Some w => Some w
  | None =>
      let from_attr :=
        match exn_retry_after error with
        | Some w => if in_range 1 w then Some w else None
        | None => None
        end in
      match from_attr with
      | Some w => Some w
      | None =>
          match exn_details error with
          | Some d => try_patterns 1 patterns (PyStr.lower d)
          | None => None
          end
      end
  end.

(** [rate_limit_indicators]: each is used both as a substring of the type
    names and as a regular expression on the messages. *)
Definition rate_limit_indicators : list (string * re) :=
  [ ("ratelimiterror", lit "ratelimiterror");
    ("rate_limit", lit "rate_limit");
    ("resource_exhausted", lit "resource_exhausted");
    ("quota_exceeded", lit "quota_exceeded");
    ("429", lit "429");
    ("too_many_requests", lit "too_many_requests");
    ("exceeded.*quota", seqs [lit "exceeded"; Star CDot; lit "quota"]);
    ("quota.*limit", seqs [lit "quota"; Star CDot; lit "limit"]) ].

Definition quota_patterns : list re :=
  [ seqs [lit "exceeded"; Star CDot; lit "quota"];
    seqs [lit "quota"; Star CDot; lit "exceeded"];
    seqs [lit "429"; Star CDot; lit "quota"];
    seqs [lit "rate"; Star CDot; lit "limit"; Star CDot; lit "exceeded"] ].

Definition matches (r : re) (text : string) : bool :=
  match search r text with Some _ => true | None => false end.

(** [str(err.code).lower()] is only searched for a word, which the
    decimal form of an integer never contains. *)
Definition code_is_rate_limit (c : pyattr) : bool :=
  match c with
  | AInt z => z =? 429
  | AStr s => PyStr.contains "resource_exhausted" (PyStr.lower s)
  end.

Definition is_rate_limit_error (error : exn) : bool :=
  let chain := (error :: option_list (exn_cause error)
                      ++ option_list (exn_context error))%list in
  let all_text := PyStr.join " " (map (fun e => PyStr.lower (exn_str e)) chain) in
  let all_types := PyStr.join " " (map (fun e => PyStr.lower (exn_name e)) chain) in
  if PyStr.contains "resourceexhausted" all_types
     || PyStr.contains "ResourceExhausted" (type_repr error) then true
  else if existsb (fun '(word, r) => PyStr.contains word all_types || matches r all_text)
                  rate_limit_indicators then true
  else if existsb (fun e => match exn_status_code e with
                            | Some c => c =? 429
                            | None => false
                            end) chain then true
  else if existsb (fun e => match exn_code e with
                            | Some c => code_is_rate_limit c
                            | None => false
                            end) chain then true
  else existsb (fun r => matches r all_text) quota_patterns.

(** What the wrapper does, in order. *)
Inductive event : Type :=
| EvCall (attempt : nat)
| EvSleep (seconds : Q).

Definition is_call (ev : event) : bool :=
  match ev with EvCall _ => true | EvSleep _ => false end.

Definition sleeps (tr : list event) : list Q :=
  omap (fun ev => match ev with EvSleep s => Some s | EvCall _ => None end) tr.

(** [default_wait * (backoff_multiplier ** attempt)] *)
Definition backoff (default_wait backoff_multiplier : Q) (attempt : nat) : Q :=
  default_wait * backoff_multiplier ^ Z.of_nat attempt.

(** The wait computed in the handler: the extracted hint when it is
    truthy, the exponential backoff otherwise. *)
Definition computed_wait (default_wait backoff_multiplier : Q) (attempt : nat) (e : exn) : Q :=
  match extract_wait_seconds_from_error e with
  | Some w => if Qeq_bool w 0 then backoff default_wait backoff_multiplier attempt else w
  | None => backoff default_wait backoff_multiplier attempt
  end.

Section Wrapper.
Context {T : Type}.
(** The wrapped callable: the outcome of its [n]-th invocation. *)
Variable func : nat -> outcome T.
Variables (max_retries : Z) (default_wait backoff_multiplier : Q).

(** The body of [for attempt in range(max_retries + 1)], with [n]
    iterations left. *)
Fixpoint retry_loop (n attempt : nat) (last_error : option exn)
  : outcome T * list event :=
  match n with
  | O =>
      (match last_error with
       | Some e => Raise e
       | None => Raise (plain_exn "RuntimeError" "Unexpected error in rate limit retry logic")
       end, [])
  | S n' =>
      match func attempt with
      | Ok v => (Ok v, [EvCall attempt])
      | Raise e =>
          if is_rate_limit_error e then
            let wait_time := computed_wait default_wait backoff_multiplier attempt e in
            if Z.of_nat attempt <? max_retries then
              let '(r, tr) := retry_loop n' (S attempt) (Some e) in
              (r, EvCall attempt :: EvSleep wait_time :: tr)
            else (Raise e, [EvCall attempt])
          else (Raise e, [EvCall attempt])
      end
  end.

Definition with_rate_limit_retry : outcome T * list event :=
  retry_loop (Z.to_nat (max_retries + 1)) 0 None.
End Wrapper.

End RateLimit.

(** ** Python values, the world and the oracles *)

(** The values held by the parent dictionaries that [pdf_service]
    produces: [None], integers (page numbers) and strings. *)
Inductive pyval : Type :=
| PNone
| PInt (z : Z)
| PStr (s : string).

(** A Python [dict] with string keys; JSON files hold such dictionaries,
    and [json.dump] / [json.load] give back an equal one. *)
Abbreviation pydict := (gmap string pyval).

Module Py.

(** Truth value of [v] in a condition. *)
Definition truthy (v : pyval) : bool :=
  match v with
  | PNone => false
  | PInt z => negb (z =? 0)
  | PStr s => negb (PyStr.is_empty s)
  end.

(** [d.get(k)] *)
Definition get (d : pydict) (k : string) : pyval := default PNone (d !! k).

(** [a or b] *)
Definition or_ (a b : pyval) : pyval := if truthy a then a else b.

(** [v == s] for a string literal [s]. *)
Definition eq_str (v : pyval) (s : string) : bool :=
  match v with PStr x => String.eqb x s | _ => false end.

(** [v == z] for an integer literal [z]. *)
Definition eq_int (v : pyval) (z : Z) : bool :=
  match v with PInt x => x =? z | _ => false end.

End Py.

(** A child document of the vector store: the summary and the metadata
    written by [index_multivector]. *)
Record child_doc : Type := ChildDoc {
  page_content : string;
  md_doc_id : pyval;
  md_parent_id : pyval;
  md_type : pyval;
  md_page_number : pyval;
  md_source : pyval
}.

(** The normalized elements of a document, [{texts, tables, images}]. *)
Record parents : Type := Parents {
  texts : list pydict;
  tables : list pydict;
  images : list pydict
}.

(** [{text_table_summaries, image_summaries}] *)
Record summaries : Type := Summaries {
  text_table_summaries : list string;
  image_summaries : list string
}.

(** A row of the [documents] table.  [status] and [progress] are read
    with [getattr(d, name, default)], which tells a missing attribute from
    one that holds [None]. *)
Inductive field (A : Type) : Type :=
| Missing
| Null
| Value (a : A).
Arguments Missing {A}.
Arguments Null {A}.
Arguments Value {A} a.

Record document : Type := Document {
  doc_id : string;
  doc_name : string;
  doc_pages : Z;
  doc_status : field string;
  doc_progress : field Z;
  doc_created_at : string
}.

(** A row of the [messages] table. *)
Record message : Type := Message {
  msg_session_id : string;
  msg_role : string;
  msg_content : string
}.

(** What the functions change. *)
Record world : Type := World {
  w_text_calls : nat;        (* invocations of the text/table chain *)
  w_image_calls : nat;       (* invocations of the vision model *)
  w_chat_calls : nat;        (* streams opened on the chat model *)
  w_draws : nat;             (* calls of [random.uniform] *)
  w_uuids : nat;             (* calls of [uuid.uuid4] *)
  w_slept : list Q;          (* arguments of the sleeps, latest first *)
  w_files : gmap string (gmap string pydict);   (* parents-index files, by path *)
  w_vectors : list child_doc;                   (* the records of the vector store *)
  w_documents : gmap string document;           (* the [documents] table, by id *)
  w_messages : list message                     (* the [messages] table, oldest first *)
}.

(** What the functions are given: the settings and the external services,
    each service as the outcome of its [n]-th call. *)
Record env : Type := Env {
  use_ollama_embeddings : bool;
  data_dir : string;
  text_llm_ready : option exn;   (* [get_text_summarizer_llm()] raising *)
  text_llm : nat -> string -> bool -> outcome string;
  image_llm_ready : option exn;  (* [get_image_summarizer_llm()] raising *)
  image_llm : nat -> pyval -> outcome string;
  chat_astream : nat -> list string * option exn;
      (* the [n]-th stream: the contents of its chunks, then its end or an error *)
  process_pdf : outcome parents;           (* the parsing step *)
  persist_summaries_error : option exn;    (* [persist_summaries] raising *)
  random_unit : nat -> Q;        (* the [n]-th draw of the generator, in [0, 1] *)
  uuid4 : nat -> string;
  vectorstore_ready : option exn;    (* [_get_vectorstore()] raising *)
  add_documents_error : option exn;  (* [vectorstore.add_documents] raising *)
  similarity_search_with_score : string -> Z -> list (child_doc * Q)
}.

(** State passing over the world, with stdpp's monad notations
    [x ← m; k] and [m;; k]. *)
Definition M (A : Type) : Type := world -> A * world.

#[global] Instance M_ret : MRet M := fun A (a : A) (w : world) => (a, w).
#[global] Instance M_bind : MBind M :=
  fun A B (f : A -> M B) (m : M A) (w : world) => let '(a, w') := m w in f a w'.

Definition ret {A : Type} (a : A) : M A := mret a.

Module Effects.

(** [time.sleep(d)] and [asyncio.sleep(d)] *)
Definition sleep (d : Q) : M unit :=
  fun w => (tt, World (w_text_calls w) (w_image_calls w) (w_chat_calls w) (w_draws w) (w_uuids w)
                      (d :: w_slept w) (w_files w) (w_vectors w)
                      (w_documents w) (w_messages w)).

(** [random.uniform(a, b)] *)
Definition uniform (E : env) (a b : Q) : M Q :=
  fun w => ((a + (b - a) * random_unit E (w_draws w))%Q,
            World (w_text_calls w) (w_image_calls w) (w_chat_calls w) (S (w_draws w)) (w_uuids w)
                  (w_slept w) (w_files w) (w_vectors w)
                  (w_documents w) (w_messages w)).

(** One invocation of the text/table chain. *)
Definition invoke_text (E : env) (element : string) (is_title_page : bool) : M (outcome string) :=
  fun w => (text_llm E (w_text_calls w) element is_title_page,
            World (S (w_text_calls w)) (w_image_calls w) (w_chat_calls w) (w_draws w) (w_uuids w)
                  (w_slept w) (w_files w) (w_vectors w)
                  (w_documents w) (w_messages w)).

(** One invocation of the vision model. *)
Definition invoke_image (E : env) (b64 : pyval) : M (outcome string) :=
  fun w => (image_llm E (w_image_calls w) b64,
            World (w_text_calls w) (S (w_image_calls w)) (w_chat_calls w) (w_draws w) (w_uuids w)
                  (w_slept w) (w_files w) (w_vectors w)
                  (w_documents w) (w_messages w)).

(** One stream opened on the chat model. *)
Definition open_stream (E : env) : M (list string * option exn) :=
  fun w => (chat_astream E (w_chat_calls w),
            World (w_text_calls w) (w_image_calls w) (S (w_chat_calls w)) (w_draws w) (w_uuids w)
                  (w_slept w) (w_files w) (w_vectors w)
                  (w_documents w) (w_messages w)).

(** [str(uuid.uuid4())] *)
Definition new_uuid (E : env) : M string :=
  fun w => (uuid4 E (w_uuids w),
            World (w_text_calls w) (w_image_calls w) (w_chat_calls w) (w_draws w) (S (w_uuids w))
                  (w_slept w) (w_files w) (w_vectors w)
                  (w_documents w) (w_messages w)).

Definition read_file (path : string) : M (option (gmap string pydict)) :=
  fun w => (w_files w !! path, w).

Definition write_file (path : string) (content : gmap string pydict) : M unit :=
  fun w => (tt, World (w_text_calls w) (w_image_calls w) (w_chat_calls w) (w_draws w) (w_uuids w)
                      (w_slept w) (<[path := content]> (w_files w)) (w_vectors w)
                      (w_documents w) (w_messages w)).

Definition add_vectors (docs : list child_doc) : M unit :=
  fun w => (tt, World (w_text_calls w) (w_image_calls w) (w_chat_calls w) (w_draws w) (w_uuids w)
                      (w_slept w) (w_files w) ((w_vectors w ++ docs)%list)
                      (w_documents w) (w_messages w)).

(** [update_document_status(db, id=, status=, progress=)]: nothing is
    written when the row does not exist. *)
Definition update_document_status (id status : string) (progress : Z) : M bool :=
  fun w =>
    match w_documents w !! id with
    | None => (false, w)
    | Some d =>
        let d' := Document (doc_id d) (doc_name d) (doc_pages d) (Value status)
                           (Value progress) (doc_created_at d) in
        (true, World (w_text_calls w) (w_image_calls w) (w_chat_calls w) (w_draws w) (w_uuids w)
                     (w_slept w) (w_files w) (w_vectors w)
                     (<[id := d']> (w_documents w)) (w_messages w))
    end.

(** [create_message(db, session_id=, role=, content=)] *)
Definition create_message (session_id role content : string) : M unit :=
  fun w => (tt, World (w_text_calls w) (w_image_calls w) (w_chat_calls w) (w_draws w) (w_uuids w)
                      (w_slept w) (w_files w) (w_vectors w)
                      (w_documents w)
                      ((w_messages w ++ [Message session_id role content])%list)).

Definition initial_world : world := World 0 0 0 0 0 [] ∅ [] ∅ [].

End Effects.

(** ** Binary64 arithmetic of the progress percentage *)

Module Progress.

(** [float(z)], exact for [|z| < 2^53]. *)
Definition of_int (z : Z) : float :=
  if z <? 0 then PrimFloat.opp (PrimFloat.of_uint63 (Uint63.of_Z (- z)))
  else PrimFloat.of_uint63 (Uint63.of_Z z).

(** [int(f)]: truncation toward zero (of a finite float). *)
Definition to_int (f : float) : Z :=
  match Prim2SF f with
  | S754_finite s m e =>
      let v := if 0 <=? e then Z.pos m * 2 ^ e else Z.pos m / 2 ^ (- e) in
      if s then - v else v
  | _ => 0
  end.

(** [progress_range / total_chunks if total_chunks > 0 else 0] *)
Definition progress_per_chunk (start_progress end_progress : Z) (total_chunks : nat) : float :=
  if (0 <? total_chunks)%nat
  then PrimFloat.div (of_int (end_progress - start_progress)) (of_int (Z.of_nat total_chunks))
  else of_int 0.

(** [min(int(start_progress + (idx + 1) * progress_per_chunk), end_progress)] *)
Definition reported (start_progress end_progress : Z) (ppc : float) (idx : nat) : Z :=
  Z.min (to_int (PrimFloat.add (of_int start_progress)
                               (PrimFloat.mul (of_int (Z.of_nat idx + 1)) ppc)))
        end_progress.

End Progress.

(** ** [services/summary_service.py] *)

Module Summary.
Import Effects.

Section WithEnv.
Variable E : env.

(** The handler of a rate-limited attempt in [_summarize_one_internal]
    and [_summ_img_internal]: sleep for the extracted wait, or for
    [60 * 2^attempt] when there is none, plus a jitter of 10 to 20 percent;
    [_summ_img_internal] adds a buffer of 10 percent to an extracted
    wait. *)
Definition rate_limit_wait (with_buffer : bool) (attempt : nat) (e : exn) : M unit :=
  let hint :=
    match RateLimit.extract_wait_seconds_from_error e with
    | Some w => if Qeq_bool w 0 then None else Some w
    | None => None
    end in
  match hint with
  | Some wait_time =>
      jitter_percent ← uniform E (1 # 10) (2 # 10);
      let jitter := (wait_time * jitter_percent)%Q in
      if with_buffer
      then sleep (wait_time + jitter + wait_time * (1 # 10))%Q
      else sleep (wait_time + jitter)%Q
  | None =>
      let base_wait := (60 * 2 ^ Z.of_nat attempt)%Q in
      jitter_percent ← uniform E (1 # 10) (2 # 10);
      sleep (base_wait + base_wait * jitter_percent)%Q
  end.

(** The loop [for attempt in range(max_retries)] of
    [_summarize_one_internal], with [n] iterations left. *)
Fixpoint text_attempts (element_truncated : string) (is_title_page : bool)
         (n attempt : nat) (last_error : option exn) : M (outcome string) :=
  match n with
  | O =>
      ret (match last_error with
           | None => Raise (plain_exn "RuntimeError"
                              "Retry loop completed without error - this should not happen")
           | Some e => Raise e
           end)
  | S n' =>
      r ← invoke_text E element_truncated is_title_page;
      match r with
      | Ok result => ret (Ok (PyStr.strip result))
      | Raise e =>
          if RateLimit.is_rate_limit_error e then
            rate_limit_wait false attempt e;;
            text_attempts element_truncated is_title_page n' (S attempt) (Some e)
          else ret (Raise e)
      end
  end.

Definition _summarize_one_internal (element_truncated : string) (is_title_page : bool)
  : M (outcome string) :=
  match text_llm_ready E with
  | Some e => ret (Raise e)
  | None => text_attempts element_truncated is_title_page 3 0 None
  end.

(** [element[:200] + "..." if len(element) > 200 else element] *)
Definition fallback_text (element : string) : string :=
  if (200 <? String.length element)%nat
  then PyStr.slice_to 200 element ++ "..."
  else element.

Definition prefixes_to_remove : list string :=
  [ "Here's a concise summary:"; "Summary:"; "Here's a summary:"; "The summary is:" ].

Definition remove_prefixes (result : string) : string :=
  fold_left (fun r prefix =>
               if PyStr.startswith r prefix
               then PyStr.strip (PyStr.slice_from (String.length prefix) r)
               else r)
            prefixes_to_remove result.

(** The classification made by the handlers of [_summarize_one] and
    [_summ_img]. *)
Definition is_api_key_error (e : exn) : bool :=
  let error_lower := PyStr.lower (exn_str e) in
  PyStr.contains "api key" error_lower
  || PyStr.contains "api_key_invalid" error_lower
  || PyStr.contains "invalid argument provided to gemini" error_lower
  || PyStr.contains "api key not valid" error_lower
  || String.eqb (exn_name e) "ChatGoogleGenerativeAIError".

Definition is_rate_limit (e : exn) : bool :=
  let error_lower := PyStr.lower (exn_str e) in
  PyStr.contains "rate limit" error_lower
  || PyStr.contains "quota" error_lower
  || PyStr.contains "resource exhausted" error_lower
  || PyStr.contains "429" (exn_str e)
  || PyStr.contains "too many requests" error_lower.

Definition attribute_error : exn :=
  plain_exn "AttributeError" "'int' object has no attribute 'strip'".

(** [element[:max_input_length] if len(element) > max_input_length else element] *)
Definition element_truncated (element : string) : string :=
  let max_input_length := 2000%nat in
  if (max_input_length <? String.length element)%nat
  then PyStr.slice_to max_input_length element else element.

(** The test for a title page. *)
Definition is_title_page (element : string) (page_number : pyval) : bool :=
  let low := PyStr.lower element in
  Py.eq_int page_number 1
  || (PyStr.contains "attention" low && PyStr.contains "all you need" low)
  || (PyStr.contains "abstract" low && (String.length element <? 3000)%nat).

(** [not element or not element.strip()] *)
Definition is_blank (element : string) : bool :=
  PyStr.is_empty element || PyStr.is_empty (PyStr.strip element).

(** [_summarize_one(element, page_number)].  It raises only when
    [element] is not a string. *)
Definition _summarize_one (element : pyval) (page_number : pyval) : M (outcome string) :=
  match element with
  | PNone => ret (Ok "")
  | PInt z => if z =? 0 then ret (Ok "") else ret (Raise attribute_error)
  | PStr element =>
      if is_blank element then ret (Ok "")
      else
        r ← _summarize_one_internal (element_truncated element)
                                    (is_title_page element page_number);
        match r with
        | Ok result =>
            let result := remove_prefixes (PyStr.strip result) in
            ret (Ok (if PyStr.is_empty result || (String.length result <? 10)%nat
                     then fallback_text element else result))
        | Raise e =>
            if is_api_key_error e then ret (Ok "")
            else if is_rate_limit e then ret (Ok (fallback_text element))
            else ret (Ok (fallback_text element))
        end
  end.

(** The [(text_content, page_num)] computed for a normalized item. *)
Definition text_input (it : pydict) : pyval * pyval :=
  let page_num := Py.get it "page_number" in
  let text_content :=
    if Py.eq_str (Py.get it "type") "table"
    then Py.or_ (Py.get it "table_html") (Py.or_ (Py.get it "text") (PStr ""))
    else Py.or_ (Py.get it "text") (PStr "") in
  (text_content, page_num).

(** The loop of [summarize_texts_and_tables] from index [idx] on.  The
    result is the list of summaries and the list of the values passed
    to [progress_callback]. *)
Fixpoint text_batch (start_progress end_progress : Z) (ppc : float)
         (inputs : list (pyval * pyval)) (idx : nat) : M (list string * list Z) :=
  match inputs with
  | [] => ret ([], [])
  | (txt, page_num) :: rest =>
      (if (0 <? idx)%nat
       then delay ← uniform E (1 # 2) (3 # 2); sleep delay
       else ret tt);;
      r ← _summarize_one txt page_num;
      let summary := match r with Ok s => s | Raise _ => "" end in
      let p := Progress.reported start_progress end_progress ppc idx in
      '(results, reports) ← text_batch start_progress end_progress ppc rest (S idx);
      ret (summary :: results, p :: reports)
  end.

Definition summarize_texts_and_tables (items : list pydict)
           (start_progress end_progress : Z) : M (list string * list Z) :=
  let inputs := map text_input items in
  let ppc := Progress.progress_per_chunk start_progress end_progress (length inputs) in
  text_batch start_progress end_progress ppc inputs 0.

(** The loop of [_summ_img_internal]. *)
Fixpoint image_attempts (b64 : pyval) (n attempt : nat) (last_error : option exn)
  : M (outcome string) :=
  match n with
  | O =>
      ret (match last_error with
           | None => Raise (plain_exn "RuntimeError"
                              "Retry loop completed without error - this should not happen")
           | Some e => Raise e
           end)
  | S n' =>
      r ← invoke_image E b64;
      match r with
      | Ok result => ret (Ok (PyStr.strip result))
      | Raise e =>
          if RateLimit.is_rate_limit_error e then
            rate_limit_wait true attempt e;;
            image_attempts b64 n' (S attempt) (Some e)
          else ret (Raise e)
      end
  end.

Definition _summ_img_internal (b64 : pyval) : M (outcome string) :=
  match image_llm_ready E with
  | Some e => ret (Raise e)
  | None => image_attempts b64 3 0 None
  end.

Definition _summ_img (b64 : pyval) : M string :=
  r ← _summ_img_internal b64;
  match r with
  | Ok s => ret s
  | Raise e =>
      if is_api_key_error e then ret "[ERROR] API key invalid"
      else if is_rate_limit e then ret "[ERROR] Rate limit exceeded"
      else ret "[ERROR] image summarization failed"
  end.

Fixpoint image_batch (start_progress end_progress : Z) (ppc : float)
         (images_b64 : list pyval) (idx : nat) : M (list string * list Z) :=
  match images_b64 with
  | [] => ret ([], [])
  | b64 :: rest =>
      (if (0 <? idx)%nat
       then delay ← uniform E (1 # 2) (3 # 2); sleep delay
       else ret tt);;
      summary ← _summ_img b64;
      let p := Progress.reported start_progress end_progress ppc idx in
      '(results, reports) ← image_batch start_progress end_progress ppc rest (S idx);
      ret (summary :: results, p :: reports)
  end.

Definition summarize_images (images_b64 : list pyval)
           (start_progress end_progress : Z) : M (list string * list Z) :=
  let ppc := Progress.progress_per_chunk start_progress end_progress (length images_b64) in
  image_batch start_progress end_progress ppc images_b64 0.

(** [not summary or len(summary.strip()) < 20 or summary.startswith("[ERROR]")] *)
Definition text_summary_failed (summary : string) : bool :=
  PyStr.is_empty summary
  || (String.length (PyStr.strip summary) <? 20)%nat
  || PyStr.startswith summary "[ERROR]".

(** [not summary or summary.startswith("[ERROR]")] *)
Definition image_summary_failed (summary : string) : bool :=
  PyStr.is_empty summary || PyStr.startswith summary "[ERROR]".

Definition failed_count (s : summaries) : nat :=
  (length (List.filter text_summary_failed (text_table_summaries s))
   + length (List.filter image_summary_failed (image_summaries s)))%nat.

Definition valid_summaries_count (s : summaries) : nat :=
  (length (List.filter (fun x => negb (text_summary_failed x)) (text_table_summaries s))
   + length (List.filter (fun x => negb (image_summary_failed x)) (image_summaries s)))%nat.

Definition total_summaries (s : summaries) : nat :=
  (length (text_table_summaries s) + length (image_summaries s))%nat.

(** [failed_count / total_summaries if total_summaries > 0 else 0] *)
Definition failure_rate (s : summaries) : Q :=
  if (0 <? total_summaries s)%nat
  then Z.of_nat (failed_count s) # Pos.of_nat (total_summaries s)
  else 0.

(** The test [failure_rate > 0.9] as Python makes it, on the binary64
    quotient of the two counts.  [failure_rate] above idealizes the quotient
    as a rational; the two tests agree (see [rate_test_on_binary64]). *)
Definition rate_exceeds_binary64 (failed total : nat) : bool :=
  PrimFloat.ltb 0.9%float
                (PrimFloat.div (Progress.of_int (Z.of_nat failed))
                               (Progress.of_int (Z.of_nat total))).

Definition all_failed_error (total : nat) : exn :=
  plain_exn "RuntimeError"
    ("Critical summarization failure: All " ++ pretty total
     ++ " summaries failed. No valid summaries were generated. This likely indicates an API configuration issue (e.g., invalid API key).").

(** The message also shows the rate as a percentage, which is left out. *)
Definition too_many_failed_error (failed total : nat) : exn :=
  plain_exn "RuntimeError"
    ("Critical summarization failure: " ++ pretty failed ++ "/" ++ pretty total
     ++ " summaries failed. This likely indicates an API configuration issue (e.g., invalid API key).").

(** The end of [build_summaries]: the check made on the summaries of
    the batch once they are all there. *)
Definition check_failures (s : summaries) : outcome summaries :=
  if (total_summaries s =? 0)%nat then Ok s
  else if (valid_summaries_count s =? 0)%nat && (0 <? total_summaries s)%nat
  then Raise (all_failed_error (total_summaries s))
  else if Qlt_le_dec (9 # 10) (failure_rate s)
  then Raise (too_many_failed_error (failed_count s) (total_summaries s))
  else Ok s.

Definition PROGRESS_START : Z := 10.
Definition PROGRESS_END : Z := 80.

(** [images_b64], the images that are summarized. *)
Definition images_to_summarize (p : parents) : list pyval :=
  if use_ollama_embeddings E
  then List.filter Py.truthy (map (fun img => Py.get img "b64") (images p))
  else [].

(** Where the images end and the texts begin. *)
Definition images_end_progress (images_count total_chunks : nat) : Z :=
  if (0 <? images_count)%nat
  then PROGRESS_START
       + Progress.to_int
           (PrimFloat.div
              (Progress.of_int ((PROGRESS_END - PROGRESS_START) * Z.of_nat images_count))
              (Progress.of_int (Z.of_nat total_chunks)))
  else PROGRESS_START.

(** The summarization proper: the summaries of the batch and the values
    passed to [progress_callback], the last one being [PROGRESS_END]. *)
Definition summarize_all (p : parents) : M (summaries * list Z) :=
  let images_b64 := images_to_summarize p in
  let text_and_tables := (texts p ++ tables p)%list in
  let total_chunks := (length images_b64 + length text_and_tables)%nat in
  let images_end := images_end_progress (length images_b64) total_chunks in
  '(image_summaries, reports1) ←
    (if (0 <? length images_b64)%nat && use_ollama_embeddings E
     then summarize_images images_b64 PROGRESS_START images_end
     else ret ([], []));
  '(text_table_summaries, reports2) ←
    (if (0 <? length text_and_tables)%nat
     then summarize_texts_and_tables text_and_tables images_end PROGRESS_END
     else ret ([], []));
  ret (Summaries text_table_summaries image_summaries,
       (reports1 ++ reports2 ++ [PROGRESS_END])%list).

(** [build_summaries(parents, progress_callback)]: the result and the
    values passed to the callback. *)
Definition build_summaries (p : parents) : M (outcome summaries * list Z) :=
  let total_chunks :=
    (length (images_to_summarize p) + length (texts p ++ tables p)%list)%nat in
  if (total_chunks =? 0)%nat then ret (Ok (Summaries [] []), [])
  else
    '(s, reports) ← summarize_all p;
    ret (check_failures s, reports).

End WithEnv.

End Summary.

(** ** [services/vector_service.py] and [utils/file.py] *)

Module Vector.
Import Effects.

(** [os.path.join(a, b)] on POSIX paths. *)
Definition path_join (a b : string) : string :=
  if PyStr.startswith b "/" then b
  else if PyStr.is_empty a then b
  else if String.eqb (PyStr.slice_from (String.length a - 1) a) "/" then a ++ b
  else a ++ "/" ++ b.

(** One result of [retrieve_with_sources]. *)
Record source : Type := Source {
  src_parent_id : string;
  src_type : pyval;
  src_page_number : pyval;
  src_source : pyval;
  src_summary : string;
  src_score : Q;
  src_raw_score : Q;
  src_image_b64 : option pyval;
  src_table_html : option pyval;
  src_text : option pyval
}.

(** [round(x, 4)]: to the nearest multiple of 1/10000, ties to even. *)
Definition round_half_even (x : Q) : Z :=
  let f := Qfloor x in
  let r := (x - (f # 1))%Q in
  match Qcompare r (1 # 2) with
  | Lt => f
  | Gt => f + 1
  | Eq => if Z.even f then f else f + 1
  end.

Definition round4 (x : Q) : Q := round_half_even (x * 10000) # 10000.

(** Python's [max(a, b)] and [min(a, b)] on two numbers. *)
Definition pymax (a b : Q) : Q := if Qlt_le_dec a b then b else a.
Definition pymin (a b : Q) : Q := if Qlt_le_dec b a then b else a.

Fixpoint max_list (x : Q) (l : list Q) : Q :=
  match l with
  | [] => x
  | y :: l' => max_list (if Qlt_le_dec x y then y else x) l'
  end.

(** [sources.sort(key=score, reverse=True)]: a stable sort, best first. *)
Fixpoint insert_desc (x : source) (l : list source) : list source :=
  match l with
  | [] => [x]
  | y :: l' =>
      if Qlt_le_dec (src_score x) (src_score y)
      then y :: insert_desc x l'
      else x :: l
  end.

Definition sort_desc (l : list source) : list source := foldr insert_desc [] l.

Section WithEnv.
Variable E : env.

Definition _parents_index_path (doc_id : string) : string :=
  path_join (path_join (data_dir E) "parents_index") (doc_id ++ ".json").

(** [load_json]: the empty dictionary when the file does not exist. *)
Definition load_json (file_path : string) : M (gmap string pydict) :=
  content ← read_file file_path;
  ret (default ∅ content).

Definition save_json (file_path : string) (data : gmap string pydict) : M unit :=
  write_file file_path data.

Definition _load_parents_index (doc_id : string) : M (gmap string pydict) :=
  load_json (_parents_index_path doc_id).

Definition _save_parents_index (doc_id : string) (index : gmap string pydict) : M unit :=
  save_json (_parents_index_path doc_id) index.

(** The two loops of [index_multivector]: parents and summaries are
    walked together and the walk stops with the shorter list. *)
Fixpoint index_pairs (doc_id : string) (ps : list pydict) (ss : list string)
         (parent_index : gmap string pydict) (child_docs : list child_doc)
  : M (gmap string pydict * list child_doc) :=
  match ps, ss with
  | parent :: ps', summary :: ss' =>
      parent_id ← new_uuid E;
      let meta := ChildDoc summary (PStr doc_id) (PStr parent_id)
                           (Py.get parent "type") (Py.get parent "page_number")
                           (Py.get parent "source") in
      index_pairs doc_id ps' ss' (<[parent_id := parent]> parent_index)
                  (child_docs ++ [meta])%list
  | _, _ => ret (parent_index, child_docs)
  end.

Definition index_multivector (doc_id : string) (p : parents) (s : summaries)
  : M (outcome unit) :=
  match vectorstore_ready E with
  | Some e => ret (Raise e)
  | None =>
      let text_and_tables := (texts p ++ tables p)%list in
      parent_index ← _load_parents_index doc_id;
      '(parent_index, child_docs) ←
        index_pairs doc_id text_and_tables (text_table_summaries s) parent_index [];
      '(parent_index, child_docs) ←
        index_pairs doc_id (images p) (image_summaries s) parent_index child_docs;
      match child_docs, add_documents_error E with
      | _ :: _, Some e => ret (Raise e)
      | _, _ =>
          (match child_docs with
           | [] => ret tt
           | _ => add_vectors child_docs
           end);;
          _save_parents_index doc_id parent_index;;
          ret (Ok tt)
      end
  end.

(** The resolution of a child id, as [retrieve_with_sources] does it:
    [_load_parents_index(doc_id).get(parent_id)]. *)
Definition resolve (doc_id child_id : string) : M (option pydict) :=
  pindex ← _load_parents_index doc_id;
  ret (pindex !! child_id).

(** The normalization of one raw score.  First the branch taken when the
    scores are read as similarities. *)
Definition rescale (max_score raw_score : Q) : Q :=
  if Qlt_le_dec 1 raw_score
  then (if Qlt_le_dec 0 max_score then pymin 1 (raw_score / max_score) else 0)
  else pymax 0 (pymin 1 raw_score).

Definition similarity_score (is_distance : bool) (normalization_factor : option Q)
           (max_score raw_score : Q) : Q :=
  match normalization_factor with
  | Some nf =>
      if negb (Qeq_bool nf 0) && is_distance then
        let normalized_score := pymax 0 (1 - raw_score / nf) in
        pymax 0 (pymin 1 normalized_score)
      else rescale max_score raw_score
  | None => rescale max_score raw_score
  end.

(** The metadata [doc_id] as it names the index file ([f"{doc_id}.json"]),
    when it is truthy. *)
Definition doc_id_text (v : pyval) : option string :=
  match v with
  | PStr s => if PyStr.is_empty s then None else Some s
  | PInt z => if z =? 0 then None else Some (pretty z)
  | PNone => None
  end.

(** The metadata [parent_id] as a key of the index, when it is truthy
    and can be one: the keys of a JSON object are strings. *)
Definition parent_key (v : pyval) : option string :=
  match v with
  | PStr s => if PyStr.is_empty s then None else Some s
  | _ => None
  end.

(** The loop over the raw hits: [taken] results have been kept so far. *)
Fixpoint collect (k : Z) (document_id : option string) (include_images : bool)
         (is_distance : bool) (normalization_factor : option Q) (max_score : Q)
         (results : list (child_doc * Q)) (taken : Z) : M (list source * list pydict) :=
  match results with
  | [] => ret ([], [])
  | (doc, raw_score) :: rest =>
      let skip := collect k document_id include_images is_distance
                          normalization_factor max_score rest taken in
      let wrong_doc :=
        match document_id with
        | Some d => negb (PyStr.is_empty d) && negb (Py.eq_str (md_doc_id doc) d)
        | None => false
        end in
      if wrong_doc then skip
      else if negb include_images && Py.eq_str (md_type doc) "image" then skip
      else
        match parent_key (md_parent_id doc), doc_id_text (md_doc_id doc) with
        | Some parent_id, Some doc_id =>
            parent ← resolve doc_id parent_id;
            match parent with
            | None => skip
            | Some parent =>
                if decide (parent = ∅) then skip
                else
                  let score := similarity_score is_distance normalization_factor
                                                max_score raw_score in
                  let type := md_type doc in
                  let src :=
                    Source parent_id type (md_page_number doc) (md_source doc)
                           (page_content doc) (round4 score) (round4 raw_score)
                           (if Py.eq_str type "image" then Some (Py.get parent "b64") else None)
                           (if Py.eq_str type "table" then Some (Py.get parent "table_html")
                            else None)
                           (if Py.eq_str type "image" then None
                            else Some (Py.get parent "text")) in
                  let taken := taken + 1 in
                  if k <=? taken then ret ([src], [parent])
                  else
                    '(sources, parents_resolved) ←
                      collect k document_id include_images is_distance
                              normalization_factor max_score rest taken;
                    ret (src :: sources, parent :: parents_resolved)
            end
        | _, _ => skip
        end
  end.

(** [retrieve_with_sources(query, k=, document_id=, include_images=)]:
    the pair [(sources, parents)]. *)
Definition retrieve_with_sources (query : string) (k : Z) (document_id : option string)
           (include_images : bool) : M (outcome (list source * list pydict)) :=
  match vectorstore_ready E with
  | Some e => ret (Raise e)
  | None =>
      let results := similarity_search_with_score E query (Z.max (k * 3) 10) in
      let raw_scores := map snd results in
      let max_score :=
        match raw_scores with
        | [] => 0%Q
        | x :: l => max_list x l
        end in
      let is_distance :=
        match raw_scores with
        | [] => false
        | _ => if Qlt_le_dec (1 # 2) max_score
               then (if Qlt_le_dec max_score (5 # 2) then true else false)
               else false
        end in
      let normalization_factor :=
        if is_distance then Some (pymax 2 (max_score * (11 # 10))) else None in
      '(sources, parents_resolved) ←
        collect k document_id include_images is_distance normalization_factor
                max_score results 0;
      ret (Ok (sort_desc sources, parents_resolved))
  end.

End WithEnv.

End Vector.

(** ** [api/v1/upload.py] *)

Module Upload.
Import Effects.

(** The exit taken by [process_upload_background]; the function itself
    returns nothing, the exit is kept to state where a run ended. *)
Inductive exit : Type :=
| FailedParsing (e : exn)
| FailedSummarizing (e : exn)
| FailedPersisting (e : exn)
| FailedIndexing (e : exn)
| Completed.

Section WithEnv.
Variable E : env.

Definition mark_failed (doc_id : string) : M unit :=
  update_document_status doc_id "failed" 0;; ret tt.

(** [update_summary_progress], called with each reported value. *)
Fixpoint report_progress (doc_id : string) (reports : list Z) : M unit :=
  match reports with
  | [] => ret tt
  | p :: rest =>
      update_document_status doc_id "processing" p;;
      report_progress doc_id rest
  end.

(** [process_upload_background(doc_id, ...)].  The progress callbacks
    run while the summaries are built; they only write the document row,
    which the summarization does not read, so they are replayed after
    it. *)
Definition process_upload_background (doc_id : string) : M exit :=
  update_document_status doc_id "processing" 0;;
  match process_pdf E with
  | Raise e => mark_failed doc_id;; ret (FailedParsing e)
  | Ok p =>
      update_document_status doc_id "processing" 10;;
      '(r, reports) ← Summary.build_summaries E p;
      report_progress doc_id reports;;
      match r with
      | Raise e => mark_failed doc_id;; ret (FailedSummarizing e)
      | Ok s =>
          update_document_status doc_id "processing" 80;;
          match persist_summaries_error E with
          | Some e => mark_failed doc_id;; ret (FailedPersisting e)
          | None =>
              update_document_status doc_id "processing" 90;;
              r ← Vector.index_multivector E doc_id p s;
              match r with
              | Raise e => mark_failed doc_id;; ret (FailedIndexing e)
              | Ok _ =>
                  update_document_status doc_id "completed" 100;;
                  ret Completed
              end
          end
      end
  end.

End WithEnv.

End Upload.

(** ** [api/v1/chat.py]: the generator of [chat_stream] *)

Module Chat.
Import Effects.

(** What the generator yields. *)
Inductive sse : Type :=
| Chunk (text : string)    (* a content chunk, or the error message *)
| RateLimitNotice (wait_seconds retry_attempt max_retries : Z)
| EndMarker.               (* "event: end" *)

(** [int(q)] *)
Definition int_of_Q (q : Q) : Z := Z.quot (Qnum q) (Z.pos (Qden q)).

Definition max_retries : nat := 3.

Section WithEnv.
Variable E : env.

(** The loop [while retry_count <= max_retries], with [n] rounds left:
    what is yielded, and the response buffer. *)
Fixpoint stream_attempts (n retry_count : nat) (response_buffer : list string)
  : M (list sse * list string) :=
  match n with
  | O => ret ([], response_buffer)
  | S n' =>
      '(chunks, failure) ← open_stream E;
      let contents := List.filter (fun c => negb (PyStr.is_empty c)) chunks in
      let response_buffer := (response_buffer ++ contents)%list in
      match failure with
      | None => ret (map Chunk contents, response_buffer)
      | Some e =>
          if RateLimit.is_rate_limit_error e && (retry_count <? max_retries)%nat then
            let wait_time :=
              match RateLimit.extract_wait_seconds_from_error e with
              | Some w => w
              | None => (60 * (3 # 2) ^ Z.of_nat retry_count)%Q
              end in
            jitter_percent ← uniform E (1 # 10) (2 # 10);
            let total_wait := (wait_time + wait_time * jitter_percent)%Q in
            sleep total_wait;;
            '(ys, response_buffer) ← stream_attempts n' (S retry_count) response_buffer;
            ret ((map Chunk contents
                  ++ RateLimitNotice (int_of_Q total_wait) (Z.of_nat retry_count + 1)
                                     (Z.of_nat max_retries + 1) :: ys)%list,
                 response_buffer)
          else
            let error_msg := "[ERROR: " ++ exn_str e ++ "]" in
            ret ((map Chunk contents ++ [Chunk error_msg])%list,
                 (response_buffer ++ [error_msg])%list)
      end
  end.

(** [event_generator()]: everything it yields, in order. *)
Definition event_generator (sessionId : string) : M (list sse) :=
  '(ys, response_buffer) ← stream_attempts (S max_retries) 0 [];
  (match response_buffer with
   | [] => ret tt
   | _ =>
       let full_response := PyStr.join "" response_buffer in
       if negb (PyStr.startswith full_response "[ERROR:")
       then create_message sessionId "assistant" full_response
       else ret tt
   end);;
  ret (ys ++ [EndMarker])%list.

End WithEnv.

End Chat.

(** ** [api/v1/documents.py] *)

Module Documents.

(** The schema [DocumentRead]. *)
Record DocumentRead : Type := mkDocumentRead {
  id : string;
  name : string;
  pages : Z;
  status : option string;
  progress : option Z;
  createdAt : string
}.

(** [getattr(d, name, default)] *)
Definition getattr {A : Type} (f : field A) (default : A) : option A :=
  match f with
  | Missing => Some default
  | Null => None
  | Value a => Some a
  end.

(** [getattr(d, "status", "completed") != "failed"] *)
Definition not_failed (d : document) : bool :=
  match getattr (doc_status d) "completed" with
  | Some s => negb (String.eqb s "failed")
  | None => true
  end.

(** [get_documents], on the rows that [list_documents(db)] returned. *)
Definition get_documents (docs : list document) : list DocumentRead :=
  map (fun d => mkDocumentRead (doc_id d) (doc_name d) (doc_pages d)
                               (getattr (doc_status d) "completed")
                               (getattr (doc_progress d) 0)
                               (doc_created_at d))
      (List.filter not_failed docs).

End Documents.

(** ** [repositories/message_repo.py], [repositories/session_repo.py] and
       the history of [api/v1/chat.py] *)

Module Sessions.
Import Effects.

(** [Message.session_id == session_id] *)
Definition in_session (session_id : string) (msg : message) : bool :=
  String.eqb (msg_session_id msg) session_id.

(** [get_messages_by_session(db, session_id, limit)]: the rows of the
    session by creation time, oldest first; [limit] cuts the list when it
    is given and is not zero. *)
Definition get_messages_by_session (session_id : string) (limit : option nat)
  : M (list message) :=
  fun w =>
    let rows := List.filter (in_session session_id) (w_messages w) in
    (match limit with
     | Some (S n) => firstn (S n) rows
     | _ => rows
     end, w).

(** [_load_conversation_history(db, session_id, limit)]: the entries
    [{"role": ..., "content": ...}] as pairs. *)
Definition _load_conversation_history (session_id : string) (limit : nat)
  : M (list (string * string)) :=
  history_messages ← get_messages_by_session session_id (Some limit);
  ret (map (fun msg => (msg_role msg, msg_content msg)) history_messages).

(** [delete_session(db, session_id)]: [deleted > 0]. *)
Definition delete_session (session_id : string) : M bool :=
  fun w =>
    let deleted := length (List.filter (in_session session_id) (w_messages w)) in
    ((0 <? deleted)%nat,
     World (w_text_calls w) (w_image_calls w) (w_chat_calls w) (w_draws w) (w_uuids w)
           (w_slept w) (w_files w) (w_vectors w) (w_documents w)
           (List.filter (fun msg => negb (in_session session_id msg)) (w_messages w))).

End Sessions.

(** ** [services/rag_service.py]: the prompt *)

Module Rag.

(** A line feed and a double quote. *)
Definition nl : string := String "010"%char EmptyString.
Definition dq : string := String (ascii_of_nat 34) EmptyString.

(** What [build_prompt] hands to [HumanMessage]: the text part and the
    urls of the image parts. *)
Record prompt : Type := Prompt {
  prompt_text : string;
  image_urls : list string
}.

(** [str + int] *)
Definition concat_error : exn :=
  plain_exn "TypeError" ("can only concatenate str (not " ++ dq ++ "int" ++ dq ++ ") to str").

(** The first loop: the texts of the parents of type text or table, one
    after the other. *)
Fixpoint context_of (parents : list pydict) (context_text : string) : outcome string :=
  match parents with
  | [] => Ok context_text
  | p :: rest =>
      if Py.eq_str (Py.get p "type") "text" || Py.eq_str (Py.get p "type") "table" then
        match Py.or_ (Py.get p "text") (PStr "") with
        | PStr txt =>
            if PyStr.is_empty txt then context_of rest context_text
            else context_of rest (context_text ++ txt)
        | PInt _ => Raise concat_error
        | PNone => context_of rest context_text
        end
      else context_of rest context_text
  end.

(** [conversation_history[-10:]] *)
Definition last_ten {A : Type} (l : list A) : list A := skipn (length l - 10) l.

(** The lines "User: ..." and "Assistant: ..." of the history. *)
Definition conv_parts (history : list (string * string)) : list string :=
  flat_map (fun '(role, content) =>
              if String.eqb role "user" then ["User: " ++ content]
              else if String.eqb role "assistant" then ["Assistant: " ++ content]
              else [])
           (last_ten history).

Definition conversation_context (history : list (string * string)) : string :=
  match conv_parts history with
  | [] => ""
  | parts => nl ++ nl ++ "Previous conversation:" ++ nl ++ PyStr.join nl parts ++ nl
  end.

(** [f"data:image/jpeg;base64,{p['b64']}"] for the images that have one. *)
Definition image_url_of (p : pydict) : list string :=
  if Py.eq_str (Py.get p "type") "image" && Py.truthy (Py.get p "b64") then
    match Py.get p "b64" with
    | PStr b64 => ["data:image/jpeg;base64," ++ b64]
    | PInt z => ["data:image/jpeg;base64," ++ pretty z]
    | PNone => []
    end
  else [].

(** [build_prompt(question, parents, conversation_history, include_images,
    max_chars)] *)
Definition build_prompt (question : string) (parents : list pydict)
           (conversation_history : list (string * string)) (include_images : bool)
           (max_chars : nat) : outcome prompt :=
  match context_of parents "" with
  | Raise e => Raise e
  | Ok context_text =>
      let context_text := PyStr.slice_to max_chars context_text in
      let prompt_text :=
        if PyStr.is_empty context_text && match parents with [] => true | _ => false end
        then nl ++ "You are a helpful AI assistant. Answer the following question using your general knowledge."
             ++ nl ++ conversation_context conversation_history ++ nl
             ++ "Note: No documents have been uploaded yet, so you cannot reference specific documents. Please answer based on your training data."
             ++ nl ++ nl ++ "Current Question: " ++ question ++ nl
        else nl ++ "Answer the question based only on the following context which can include text, tables, and the images below."
             ++ nl ++ conversation_context conversation_history ++ nl
             ++ "Context from documents:" ++ nl ++ context_text ++ nl ++ nl
             ++ "Current Question: " ++ question ++ nl in
      Ok (Prompt prompt_text
                 (if include_images then flat_map image_url_of parents else []))
  end.

End Rag.

(** ** [api/v1/documents.py]: [remove_document], with
       [delete_vectors_for_document] of [services/vector_service.py] and
       [delete_document] of [repositories/document_repo.py] *)

Module Removal.
Import Effects Vector.

(** The failures that [remove_document] swallows: [os.remove] raising
    [OSError], and [vectorstore.delete] raising; either leaves what it was to
    delete in place. *)
Record faults : Type := Faults {
  os_remove_fails : bool;
  vectorstore_delete_fails : bool
}.

(** [HTTPException(status_code=404, detail="Document not found")] *)
Definition not_found : exn :=
  Exn "fastapi.exceptions" "HTTPException" "404: Document not found" None None []
      None None (Some 404) None.

(** [os.remove(path)] *)
Definition remove_file (path : string) : M unit :=
  fun w => (tt, World (w_text_calls w) (w_image_calls w) (w_chat_calls w) (w_draws w) (w_uuids w)
                      (w_slept w) (delete path (w_files w)) (w_vectors w)
                      (w_documents w) (w_messages w)).

(** [vectorstore.delete(where={"doc_id": doc_id})] *)
Definition delete_where_doc_id (doc_id : string) : M unit :=
  fun w => (tt, World (w_text_calls w) (w_image_calls w) (w_chat_calls w) (w_draws w) (w_uuids w)
                      (w_slept w) (w_files w)
                      (List.filter (fun c => negb (Py.eq_str (md_doc_id c) doc_id)) (w_vectors w))
                      (w_documents w) (w_messages w)).

(** [delete_document(db, id=)]: whether there was a row. *)
Definition delete_document (id : string) : M bool :=
  fun w =>
    match w_documents w !! id with
    | None => (false, w)
    | Some _ =>
        (true, World (w_text_calls w) (w_image_calls w) (w_chat_calls w) (w_draws w) (w_uuids w)
                     (w_slept w) (w_files w) (w_vectors w)
                     (delete id (w_documents w)) (w_messages w))
    end.

Section WithEnv.
Variable E : env.
Variable F : faults.

(** [delete_vectors_for_document(doc_id)]: opening the store may raise,
    the deletion itself may not. *)
Definition delete_vectors_for_document (doc_id : string) : M (outcome unit) :=
  match vectorstore_ready E with
  | Some e => ret (Raise e)
  | None =>
      (if vectorstore_delete_fails F return M unit then ret tt
       else delete_where_doc_id doc_id);;
      ret (Ok tt)
  end.

(** [if os.path.exists(path): try: os.remove(path) except OSError: pass] *)
Definition remove_if_exists (path : string) : M unit :=
  content ← read_file path;
  match content with
  | Some _ => if os_remove_fails F then ret tt else remove_file path
  | None => ret tt
  end.

(** [remove_document(doc_id)].  The directory of the uploaded file, which
    is removed first with its errors ignored, is not part of the world. *)
Definition remove_document (doc_id : string) : M (outcome unit) :=
  let parents_index_path :=
    path_join (path_join (data_dir E) "parents_index") (doc_id ++ ".json") in
  remove_if_exists parents_index_path;;
  r ← delete_vectors_for_document doc_id;
  match r with
  | Raise e => ret (Raise e)
  | Ok _ =>
      delete_document doc_id ≫= fun ok : bool =>
      if ok then ret (Ok tt) else ret (Raise not_found)
  end.

End WithEnv.

End Removal.

(** ** [services/rag_service.py]: the answer *)

Module Answer.
Import Effects Rag.

Section WithEnv.
Variable E : env.
(** [chain.invoke({})] on the chat model, [get_chat_llm()] included: the
    outcome of the [n]-th attempt of a request, for the prompt it is given. *)
Variable chat_llm : nat -> prompt -> outcome string.

(** [_chat_via_gemini(prompt)], under
    [@with_rate_limit_retry(max_retries=3, default_wait=60.0)]. *)
Definition _chat_via_gemini (p : prompt) : M (outcome string) :=
  fun w =>
    let '(r, trace) :=
      RateLimit.with_rate_limit_retry (fun n => chat_llm n p) 3 60 (3 # 2) in
    (r, World (w_text_calls w) (w_image_calls w) (w_chat_calls w) (w_draws w) (w_uuids w)
              (rev (RateLimit.sleeps trace) ++ w_slept w)%list (w_files w) (w_vectors w)
              (w_documents w) (w_messages w)).

(** [answer_question(question, document_id=, conversation_history=,
    include_images=, k=)]: the answer and the sources. *)
Definition answer_question (question : string) (document_id : option string)
           (conversation_history : list (string * string)) (include_images : bool) (k : Z)
  : M (outcome (string * list Vector.source)) :=
  bundle ← Vector.retrieve_with_sources E question k document_id include_images;
  match bundle with
  | Raise e => ret (Raise e)
  | Ok (sources, parents) =>
      match build_prompt question parents conversation_history false 8000 with
      | Raise e => ret (Raise e)
      | Ok p =>
          answer ← _chat_via_gemini p;
          match answer with
          | Raise e => ret (Raise e)
          | Ok a => ret (Ok (a, sources))
          end
      end
  end.

End WithEnv.

End Answer.

(** ** Environments for the examples *)

Module Examples.

(** Settings and services that never fail and return nothing of note. *)
Definition quiet : env :=
  Env true "/srv/data" None (fun _ _ _ => Ok "") None (fun _ _ => Ok "")
      (fun _ => ([], None)) (Ok (Parents [] [] [])) None (fun _ => 0%Q)
      (fun n => "child-" ++ pretty n) None None (fun _ _ => []).

Definition with_chat (stream : nat -> list string * option exn) (E : env) : env :=
  Env (use_ollama_embeddings E) (data_dir E) (text_llm_ready E) (text_llm E)
      (image_llm_ready E) (image_llm E) stream (process_pdf E)
      (persist_summaries_error E) (random_unit E) (uuid4 E) (vectorstore_ready E)
      (add_documents_error E) (similarity_search_with_score E).

Definition with_text_llm (llm : nat -> string -> bool -> outcome string) (E : env) : env :=
  Env (use_ollama_embeddings E) (data_dir E) (text_llm_ready E) llm
      (image_llm_ready E) (image_llm E) (chat_astream E) (process_pdf E)
      (persist_summaries_error E) (random_unit E) (uuid4 E) (vectorstore_ready E)
      (add_documents_error E) (similarity_search_with_score E).

Definition with_image_llm (llm : nat -> pyval -> outcome string) (E : env) : env :=
  Env (use_ollama_embeddings E) (data_dir E) (text_llm_ready E) (text_llm E)
      (image_llm_ready E) llm (chat_astream E) (process_pdf E)
      (persist_summaries_error E) (random_unit E) (uuid4 E) (vectorstore_ready E)
      (add_documents_error E) (similarity_search_with_score E).

Definition with_pdf (p : parents) (E : env) : env :=
  Env (use_ollama_embeddings E) (data_dir E) (text_llm_ready E) (text_llm E)
      (image_llm_ready E) (image_llm E) (chat_astream E) (Ok p)
      (persist_summaries_error E) (random_unit E) (uuid4 E) (vectorstore_ready E)
      (add_documents_error E) (similarity_search_with_score E).

Definition with_hits (hits : list (child_doc * Q)) (E : env) : env :=
  Env (use_ollama_embeddings E) (data_dir E) (text_llm_ready E) (text_llm E)
      (image_llm_ready E) (image_llm E) (chat_astream E) (process_pdf E)
      (persist_summaries_error E) (random_unit E) (uuid4 E) (vectorstore_ready E)
      (add_documents_error E) (fun _ _ => hits).

Definition text_item (text : string) (page : Z) : pydict :=
  <["type" := PStr "text"]> (<["text" := PStr text]> (<["page_number" := PInt page]>
    (<["source" := PStr "paper.pdf"]> ∅))).

Definition image_item (b64 : string) (page : Z) : pydict :=
  <["type" := PStr "image"]> (<["b64" := PStr b64]> (<["page_number" := PInt page]>
    (<["source" := PStr "paper.pdf"]> ∅))).

(** A world whose [documents] table holds one row, just uploaded. *)
Definition uploaded (id : string) : world :=
  World 0 0 0 0 0 [] ∅ []
        {[ id := Document id "paper.pdf" 3 (Value "processing") (Value 0) "2024-05-01" ]} [].

Definition hit (parent_id : string) (score : Q) : child_doc * Q :=
  (ChildDoc "a summary" (PStr "doc-1") (PStr parent_id) (PStr "text") (PInt 1)
            (PStr "paper.pdf"), score).

(** A world whose index file for "doc-1" holds the parents of two hits. *)
Definition indexed : world :=
  World 0 0 0 0 0 []
        {[ Vector._parents_index_path quiet "doc-1" :=
             {[ "p1" := text_item "first" 1; "p2" := text_item "second" 2 ]} ]}
        [] ∅ [].

(** A provider for the texts whose first call is refused for its API key
    and whose later calls succeed. *)
Definition api_key_error : exn :=
  plain_exn "ValueError" "API key not valid. Please pass a valid API key.".

Definition refused_once (n : nat) (_ : string) (_ : bool) : outcome string :=
  match n with
  | O => Raise api_key_error
  | S _ => Ok "The chunk describes the attention mechanism."
  end.

Definition always_refused (_ : nat) (_ : string) (_ : bool) : outcome string :=
  Raise api_key_error.

Definition two_texts : parents :=
  Parents [text_item "first chunk of text" 2; text_item "second chunk of text" 3] [] [].

Definition first_row (id : string) : document :=
  Document id "paper.pdf" 3 (Value "processing") (Value 0) "2024-05-01".

End Examples.

(** ** Notions used to state the properties *)

Module Notions.
Import Summary Vector Upload Chat Effects.

(** The world with the uuid counter set to [u]. *)
Definition with_uuids (u : nat) (w : world) : world :=
  World (w_text_calls w) (w_image_calls w) (w_chat_calls w) (w_draws w) u
        (w_slept w) (w_files w) (w_vectors w) (w_documents w) (w_messages w).

(** What the loops of [index_multivector] compute from the aligned pairs,
    the first identifier being the [u]-th uuid. *)
Fixpoint store_all (E : env) (u : nat) (pairs : list (pydict * string))
         (index : gmap string pydict) : gmap string pydict :=
  match pairs with
  | [] => index
  | (parent, _) :: rest => store_all E (S u) rest (<[uuid4 E u := parent]> index)
  end.

Definition child_of (E : env) (doc_id : string) (u : nat) (pr : pydict * string) : child_doc :=
  ChildDoc (snd pr) (PStr doc_id) (PStr (uuid4 E u))
           (Py.get (fst pr) "type") (Py.get (fst pr) "page_number")
           (Py.get (fst pr) "source").

Fixpoint children_of (E : env) (doc_id : string) (u : nat) (pairs : list (pydict * string))
  : list child_doc :=
  match pairs with
  | [] => []
  | pr :: rest => child_of E doc_id u pr :: children_of E doc_id (S u) rest
  end.

(** [m] does not write the [documents] table. *)
Definition keeps_documents {A : Type} (m : M A) : Prop :=
  forall w, w_documents (snd (m w)) = w_documents w.

(** The row of [doc] with its status and progress replaced. *)
Definition set_status (status : string) (progress : Z) (d : document) : document :=
  Document (doc_id d) (doc_name d) (doc_pages d) (Value status) (Value progress)
           (doc_created_at d).

(** From [w] to [w'] the row of [doc] changed at most in the fields that
    the next status update overwrites. *)
Definition erased (doc : string) (w w' : world) : Prop :=
  forall status progress,
    set_status status progress <$> (w_documents w' !! doc)
    = set_status status progress <$> (w_documents w !! doc).

Definition erases (doc : string) {A : Type} (m : M A) : Prop :=
  forall w, erased doc w (snd (m w)).

(** The status and progress written on each exit. *)
Definition exit_status (x : exit) : string :=
  match x with Completed => "completed" | _ => "failed" end.

Definition exit_progress (x : exit) : Z :=
  match x with Completed => 100 | _ => 0 end.

(** [m] ends on the status update of its exit. *)
Definition ends_on_exit (doc : string) (m : M exit) : Prop :=
  forall w,
    w_documents (snd (m w)) !! doc
    = set_status (exit_status (fst (m w))) (exit_progress (fst (m w)))
      <$> (w_documents w !! doc).

(** The world once parsing is over: progress 0, then 10. *)
Definition after_parsing (doc : string) (w : world) : world :=
  snd (update_document_status doc "processing" 10
         (snd (update_document_status doc "processing" 0 w))).

Definition in_unit (x : Q) : Prop := (0 <= x /\ x <= 1)%Q.

(** Best first. *)
Definition better_or_equal (a b : source) : Prop := (src_score b <= src_score a)%Q.

(** The rational test and the binary64 test of the rate agree on a
    batch. *)
Definition rate_tests_agree (total failed : nat) : bool :=
  Bool.eqb (rate_exceeds_binary64 failed total)
           (if Qlt_le_dec (9 # 10) (Z.of_nat failed # Pos.of_nat total) then true else false).

(** The chunk that reports the error [e]. *)
Definition error_chunk (e : exn) : sse := Chunk ("[ERROR: " ++ exn_str e ++ "]").

End Notions.

Module TraceNotions.
Import RateLimit.
(** The trace of a run of the wrapper that slept for [waits]: attempts
    numbered from [attempt] on, one sleep between two consecutive calls,
    none after the last. *)
Fixpoint schedule (attempt : nat) (waits : list Q) : list event :=
  match waits with
  | [] => [EvCall attempt]
  | w :: rest => EvCall attempt :: EvSleep w :: schedule (S attempt) rest
  end.
End TraceNotions.

Module CaseNotions.
Import Regex RateLimit.

(** A letter of the ASCII alphabet. *)
Definition is_letter (c : ascii) : bool :=
  let n := nat_of_ascii c in
  ((65 <=? n)%nat && (n <=? 90)%nat) || ((97 <=? n)%nat && (n <=? 122)%nat).

(** The classes and patterns on which the matcher need not tell upper
    from lower case: a negated character is not a letter. *)
Definition caseless_cls (c : cls) : bool :=
  match c with
  | CNot x => negb (is_letter x)
  | _ => true
  end.

Fixpoint caseless (r : re) : bool :=
  match r with
  | Eps => true
  | Cls c => caseless_cls c
  | Seq r1 r2 => caseless r1 && caseless r2
  | Star c => caseless_cls c
  | Plus c => caseless_cls c
  | Opt r1 => caseless r1
  | Grp r1 => caseless r1
  | NotAhead _ => true
  end.

Definition lower_capture (cap : capture) : capture :=
  match cap with
  | NoGroup => NoGroup
  | Reading taken => Reading (PyStr.lower taken)
  | Group text => Group (PyStr.lower text)
  end.

(** [k'] does on the lowered input what [k] does on the input, up to [f]. *)
Definition follows {R R' : Type} (f : R -> R') (k : string -> capture -> option R)
           (k' : string -> capture -> option R') : Prop :=
  forall s cap, k' (PyStr.lower s) (lower_capture cap) = option_map f (k s cap).

(** The errors whose text and type [is_rate_limit_error] reads. *)
Definition chain (error : exn) : list exn :=
  (error :: option_list (exn_cause error) ++ option_list (exn_context error))%list.

End CaseNotions.

Module BudgetNotions.
Import Summary Effects.

(** [w'] comes from [w] by calls of the summarizers, draws and sleeps
    only. *)
Definition same_stores (w w' : world) : Prop :=
  w_chat_calls w' = w_chat_calls w /\ w_uuids w' = w_uuids w
  /\ w_files w' = w_files w /\ w_vectors w' = w_vectors w
  /\ w_documents w' = w_documents w /\ w_messages w' = w_messages w.

(** [m] makes at most [t] calls of the text chain and [i] calls of the
    vision model, never takes a call back, and besides only draws and
    sleeps. *)
Definition spends {A : Type} (t i : nat) (m : M A) : Prop :=
  forall w,
    (w_text_calls w <= w_text_calls (snd (m w)) <= w_text_calls w + t)%nat
    /\ (w_image_calls w <= w_image_calls (snd (m w)) <= w_image_calls w + i)%nat
    /\ same_stores w (snd (m w)).

(** The jitter drawn by a handler, for the draw [u] of the generator. *)
Definition jitter_percent (u : Q) : Q := (1 # 10) + ((2 # 10) - (1 # 10)) * u.

(** What the handler of a rate limit waits on: the hint of the error, or
    [60 * 2^attempt] without one. *)
Definition handler_base (attempt : nat) (e : exn) : Q :=
  match RateLimit.extract_wait_seconds_from_error e with
  | Some w => if Qeq_bool w 0 then 60 * 2 ^ Z.of_nat attempt else w
  | None => 60 * 2 ^ Z.of_nat attempt
  end.

(** The time slept by the handler: base and jitter, and for the images a
    buffer of a tenth of the hint. *)
Definition handler_wait (with_buffer : bool) (attempt : nat) (e : exn) (u : Q) : Q :=
  let base := handler_base attempt e in
  match RateLimit.extract_wait_seconds_from_error e with
  | Some w =>
      if Qeq_bool w 0 then base + base * jitter_percent u
      else if with_buffer then base + base * jitter_percent u + base * (1 # 10)
           else base + base * jitter_percent u
  | None => base + base * jitter_percent u
  end.

(** The input of the batch for an item without text: the empty string, or
    blanks only. *)
Definition blank_input (input : pyval * pyval) : Prop :=
  exists s, fst input = PStr s /\ is_blank s = true.

End BudgetNotions.

Module StoreNotions.
Import Vector Effects Notions.

(** The directory part that [path_join] puts before a relative name. *)
Definition path_prefix (a : string) : string :=
  if PyStr.is_empty a then ""
  else if String.eqb (PyStr.slice_from (String.length a - 1) a) "/" then a
  else a ++ "/".

(** The number of parents that [index_multivector] indexes: parents and
    summaries are paired, and the pairing stops with the shorter list. *)
Definition indexed_count (p : parents) (s : summaries) : nat :=
  (Nat.min (length (texts p ++ tables p)) (length (text_table_summaries s))
   + Nat.min (length (images p)) (length (image_summaries s)))%nat.

(** The records of the vector store that belong to other documents. *)
Definition of_other_documents (doc_id : string) (vectors : list child_doc) : list child_doc :=
  List.filter (fun c => negb (Py.eq_str (md_doc_id c) doc_id)) vectors.

(** The sources of a given (rounded) score, in the order of the list. *)
Definition with_score (q : Q) (l : list source) : list source :=
  List.filter (fun s => Qeq_bool (src_score s) q) l.

(** What links a source kept by [retrieve_with_sources] to the parent
    resolved for it. *)
Definition kept (E : env) (document_id : option string) (include_images : bool)
           (w : world) (s : source) (parent : pydict) : Prop :=
  parent <> ∅
  /\ (include_images = false -> Py.eq_str (src_type s) "image" = false)
  /\ (forall d, document_id = Some d -> PyStr.is_empty d = false ->
                fst (resolve E d (src_parent_id s) w) = Some parent)
  /\ src_text s = (if Py.eq_str (src_type s) "image" then None
                   else Some (Py.get parent "text")).

End StoreNotions.

Module StreamNotions.
Import Chat Effects Notions.

(** The chunks of a stream that have some content. *)
Definition contents (chunks : list string) : list string :=
  List.filter (fun c => negb (PyStr.is_empty c)) chunks.

(** The contents of [count] streams in a row, the first one being the
    [from]-th stream of the provider. *)
Definition streamed (E : env) (from count : nat) : list string :=
  flat_map (fun c => contents (fst (chat_astream E c))) (seq from count).

(** What a run adds to its buffer when its last stream ended on [failure]. *)
Definition error_tail (failure : option exn) : list string :=
  match failure with
  | Some e => ["[ERROR: " ++ exn_str e ++ "]"]
  | None => []
  end.

Definition is_notice (y : sse) : bool :=
  match y with RateLimitNotice _ _ _ => true | _ => false end.

(** The row saved for a response buffer, if any. *)
Definition saved (sessionId : string) (response_buffer : list string) : list message :=
  match response_buffer with
  | [] => []
  | _ => if PyStr.startswith (PyStr.join "" response_buffer) "[ERROR:" then []
         else [Message sessionId "assistant" (PyStr.join "" response_buffer)]
  end.

(** The wait of the streaming handler before jitter, at retry [retry_count]. *)
Definition stream_base (retry_count : nat) (e : exn) : Q :=
  match RateLimit.extract_wait_seconds_from_error e with
  | Some w => w
  | None => 60 * (3 # 2) ^ Z.of_nat retry_count
  end.

End StreamNotions.

Module SessionNotions.
Import Sessions Rag Effects.

(** The world with other messages. *)
Definition with_messages (msgs : list message) (w : world) : world :=
  World (w_text_calls w) (w_image_calls w) (w_chat_calls w) (w_draws w) (w_uuids w)
        (w_slept w) (w_files w) (w_vectors w) (w_documents w) msgs.

(** The history entry of a row. *)
Definition entry (msg : message) : string * string := (msg_role msg, msg_content msg).

End SessionNotions.

Module FrameNotions.
Import Effects.

(** From [w] to [w'] no row but that of [doc] changed, and no message was
    written. *)
Definition touches_only (doc : string) (w w' : world) : Prop :=
  (forall other, other <> doc -> w_documents w' !! other = w_documents w !! other)
  /\ w_messages w' = w_messages w.

Definition confined (doc : string) {A : Type} (m : M A) : Prop :=
  forall w, touches_only doc w (snd (m w)).

End FrameNotions.

(** * Properties *)

(** Unfolds the binds of a monadic definition. *)
Ltac run_bind := unfold ret; unfold mbind, M_bind, mret, M_ret.

(** ** The wait hint and the retry wrapper *)

Module RetryFacts.
Import Regex RateLimit.

Lemma in_range_spec (lo w : Q) :
  in_range lo w = true -> (lo <= w /\ w <= 3600)%Q.
Proof.
  unfold in_range. intros H. apply andb_prop in H as [H1 H2].
  split; now apply Qle_bool_iff.
Qed.

Lemma try_pattern_in_range (lo : Q) (r : re) (text : string) (w : Q) :
  try_pattern lo r text = Some w -> in_range lo w = true.
Proof.
  unfold try_pattern. destruct (search_group r text) as [g|]; [|discriminate].
  destruct (float_of_string g) as [v|]; [|discriminate].
  destruct (in_range lo v) eqn:Hr; [|discriminate].
  intros [= <-]. exact Hr.
Qed.

Lemma try_patterns_in_range (lo : Q) (ps : list re) (text : string) (w : Q) :
  try_patterns lo ps text = Some w -> in_range lo w = true.
Proof.
  induction ps as [|r ps IH]; simpl; [discriminate|].
  destruct (try_pattern lo r text) as [v|] eqn:Hv.
  - intros [= <-]. eapply try_pattern_in_range; eauto.
  - exact IH.
Qed.

Lemma check_one_in_range (err : exn) (w : Q) :
  check_one err = Some w -> in_range (1 # 10) w = true.
Proof.
  unfold check_one.
  destruct (try_pattern (1 # 10) retry_delay_pattern (exn_str err)) as [v|] eqn:Hv.
  - intros [= <-]. eapply try_pattern_in_range; eauto.
  - apply try_patterns_in_range.
Qed.

Lemma check_all_in_range (errs : list exn) (w : Q) :
  check_all errs = Some w -> in_range (1 # 10) w = true.
Proof.
  induction errs as [|err errs IH]; simpl; [discriminate|].
  destruct (check_one err) as [v|] eqn:Hv.
  - intros [= <-]. eapply check_one_in_range; eauto.
  - exact IH.
Qed.

(** Whatever is extracted lies between 0.1 and 3600 seconds, bounds
    included. *)
Lemma extract_in_range (error : exn) (w : Q) :
  extract_wait_seconds_from_error error = Some w -> (1 # 10 <= w /\ w <= 3600)%Q.
Proof.
  unfold extract_wait_seconds_from_error.
  destruct (check_all (errors_to_check error)) as [v|] eqn:Hv.
  - intros [= <-]. apply in_range_spec. eapply check_all_in_range; eauto.
  - destruct (exn_retry_after error) as [a|].
    + destruct (in_range 1 a) eqn:Ha.
      * intros [= <-]. apply in_range_spec in Ha as [H1 H2]. split; [|exact H2].
        eapply Qle_trans; [|exact H1]. discriminate.
      * destruct (exn_details error) as [d|]; [|discriminate].
        intros H. apply try_patterns_in_range, in_range_spec in H as [H1 H2].
        split; [|exact H2]. eapply Qle_trans; [|exact H1]. discriminate.
    + destruct (exn_details error) as [d|]; [|discriminate].
      intros H. apply try_patterns_in_range, in_range_spec in H as [H1 H2].
      split; [|exact H2]. eapply Qle_trans; [|exact H1]. discriminate.
Qed.

(** A search skips the positions at which the pattern does not match. *)
Lemma search_skip (r : re) (pre rest : string) :
  (forall i, (i < String.length pre)%nat ->
             match_here r (PyStr.slice_from i (pre ++ rest)) = None) ->
  search r (pre ++ rest) = search r rest.
Proof.
  induction pre as [|c pre IH]; intros H; [reflexivity|].
  pose proof (H 0%nat ltac:(simpl; lia)) as H0. cbn [PyStr.slice_from] in H0.
  change (String c pre ++ rest) with (String c (pre ++ rest)) in *.
  cbn [search]. rewrite H0.
  apply IH. intros i Hi. apply (H (S i)). simpl. lia.
Qed.

Lemma check_all_skip (before : list exn) (err : exn) (after : list exn) :
  Forall (fun b => check_one b = None) before ->
  check_all (before ++ err :: after)%list
  = match check_one err with Some w => Some w | None => check_all after end.
Proof.
  induction 1 as [|b before Hb _ IH]; [reflexivity|].
  simpl. rewrite Hb. exact IH.
Qed.

Section Wrapper.
Context {T : Type}.
Variable func : nat -> outcome T.
Variables (max_retries : Z) (default_wait backoff_multiplier : Q).

(** An attempt that fails with an error that is not a rate limit is the
    last thing the loop does, and its error is the one raised. *)
Lemma retry_loop_other_error (a : nat) (e : exn) (n : nat) :
  forall (attempt : nat) (last_error : option exn),
    In (EvCall a)
       (snd (retry_loop func max_retries default_wait backoff_multiplier n attempt last_error)) ->
    func a = Raise e ->
    is_rate_limit_error e = false ->
    fst (retry_loop func max_retries default_wait backoff_multiplier n attempt last_error)
    = Raise e
    /\ exists pre,
        snd (retry_loop func max_retries default_wait backoff_multiplier n attempt last_error)
        = (pre ++ [EvCall a])%list
        /\ (a = attempt -> pre = []).
Proof.
  induction n as [|n IH]; intros attempt last_error Hin Hf He; [destruct Hin|].
  cbn [retry_loop] in *.
  destruct (func attempt) as [v|e0] eqn:Hattempt.
  - destruct Hin as [[= <-]|[]]. congruence.
  - destruct (is_rate_limit_error e0) eqn:Hrl.
    + destruct (Z.of_nat attempt <? max_retries).
      * specialize (IH (S attempt) (Some e0)).
        destruct (retry_loop func max_retries default_wait backoff_multiplier n (S attempt)
                             (Some e0)) as [r tr].
        cbn [fst snd] in *.
        destruct Hin as [[= <-]|[Hin|Hin]]; [congruence|discriminate Hin|].
        destruct (IH Hin Hf He) as (Hr & pre & -> & _).
        split; [exact Hr|]. exists (EvCall attempt :: EvSleep
          (computed_wait default_wait backoff_multiplier attempt e0) :: pre).
        split; [reflexivity|]. intros ->. congruence.
      * destruct Hin as [[= <-]|[]]. congruence.
    + destruct Hin as [[= <-]|[]]. cbn [fst snd].
      split; [congruence|]. exists []. split; reflexivity.
Qed.

(** While the failures are rate limits and retries are left, each
    attempt is followed by a sleep of the computed wait. *)
Lemma retry_loop_rate_limited (errs : nat -> exn) (m : nat) :
  forall (n attempt : nat) (last_error : option exn),
    (m <= n)%nat ->
    Z.of_nat (attempt + m) <= max_retries ->
    (forall j, (j < m)%nat ->
               func (attempt + j)%nat = Raise (errs (attempt + j)%nat)
               /\ is_rate_limit_error (errs (attempt + j)%nat) = true) ->
    firstn m (sleeps (snd (retry_loop func max_retries default_wait backoff_multiplier
                                      n attempt last_error)))
    = map (fun a => computed_wait default_wait backoff_multiplier a (errs a))
          (seq attempt m).
Proof.
  induction m as [|m IH]; intros n attempt last_error Hn Hmax Herr; [reflexivity|].
  destruct n as [|n]; [lia|].
  destruct (Herr 0%nat ltac:(lia)) as [Hf He].
  rewrite Nat.add_0_r in Hf, He.
  cbn [retry_loop]. rewrite Hf, He.
  assert (Hlt : (Z.of_nat attempt <? max_retries) = true) by (apply Z.ltb_lt; lia).
  rewrite Hlt.
  specialize (IH n (S attempt) (Some (errs attempt))).
  destruct (retry_loop func max_retries default_wait backoff_multiplier n (S attempt)
                       (Some (errs attempt))) as [r tr] eqn:Hloop.
  cbn [snd sleeps omap firstn map seq] in *.
  unfold sleeps in IH. cbn [snd] in IH. simpl. f_equal.
  apply IH; [lia|lia|].
  intros j Hj. specialize (Herr (S j) ltac:(lia)).
  replace (S attempt + j)%nat with (attempt + S j)%nat by lia. exact Herr.
Qed.
End Wrapper.

Lemma computed_wait_hint (dw bm : Q) (a : nat) (e : exn) (w : Q) :
  extract_wait_seconds_from_error e = Some w -> computed_wait dw bm a e = w.
Proof.
  intros H. unfold computed_wait. rewrite H.
  destruct (Qeq_bool w 0) eqn:Hz; [|reflexivity].
  apply Qeq_bool_iff in Hz. apply extract_in_range in H as [H _].
  rewrite Hz in H. exfalso. unfold Qle in H. simpl in H. lia.
Qed.

Lemma computed_wait_backoff (dw bm : Q) (a : nat) (e : exn) :
  extract_wait_seconds_from_error e = None ->
  computed_wait dw bm a e = (dw * bm ^ Z.of_nat a)%Q.
Proof. intros H. unfold computed_wait. rewrite H. reflexivity. Qed.

Lemma backoff_increases (dw bm : Q) (a : nat) :
  (0 < dw)%Q -> (1 < bm)%Q -> (backoff dw bm a < backoff dw bm (S a))%Q.
Proof.
  intros Hdw Hbm. unfold backoff.
  assert (Hpos : (0 < bm)%Q) by (eapply Qlt_trans; [|exact Hbm]; reflexivity).
  assert (Hne : ~ (bm == 0)%Q).
  { intros H. rewrite H in Hpos. discriminate Hpos. }
  replace (Z.of_nat (S a)) with (Z.of_nat a + 1) by lia.
  rewrite Qpower_plus by exact Hne.
  assert (Hp : (0 < bm ^ Z.of_nat a)%Q) by (apply Qpower_0_lt; exact Hpos).
  change (bm ^ 1)%Q with bm.
  rewrite <- (Qmult_1_r (dw * bm ^ Z.of_nat a)) at 1.
  rewrite (Qmult_assoc dw).
  apply Qmult_lt_l; [|exact Hbm].
  rewrite <- (Qmult_0_r dw). apply Qmult_lt_l; assumption.
Qed.

End RetryFacts.

Section RetryClaims.
Import Regex RateLimit RetryFacts.

(** C4, as amended.  The first hint that the extraction order reaches
    wins: in the chain [error, cause, context, nested arguments], in the
    first text that yields a value, a [retry_delay] block goes before the
    patterns, and a search returns its leftmost match.  So a text that
    contains "please retry in 21.13s" gives 21.13 when no earlier error of
    the chain yields a value, the text has no [retry_delay] block in range
    and [please_retry_pattern] matches nowhere before the hint; a text that
    contains "retry_delay { seconds: 23 }" gives 23 when no earlier error
    yields a value and no [retry_delay] block starts before it.  Whatever
    is extracted lies in the closed interval from 0.1 to 3600 seconds, and
    a captured value outside the range is not returned by its pattern (the
    following patterns are still tried). *)
Theorem wait_hint_extraction :
  (forall (error : exn) (before : list exn) (err : exn) (after : list exn)
          (pre rest : string),
      errors_to_check error = (before ++ err :: after)%list ->
      Forall (fun b => check_one b = None) before ->
      exn_str err = pre ++ "please retry in 21.13s" ++ rest ->
      try_pattern (1 # 10) retry_delay_pattern (exn_str err) = None ->
      (forall i, (i < String.length pre)%nat ->
                 match_here please_retry_pattern (PyStr.slice_from i (exn_str err)) = None) ->
      extract_wait_seconds_from_error error = Some (2113 # 100)%Q)
  /\ (forall (error : exn) (before : list exn) (err : exn) (after : list exn)
             (pre rest : string),
         errors_to_check error = (before ++ err :: after)%list ->
         Forall (fun b => check_one b = None) before ->
         exn_str err = pre ++ "retry_delay { seconds: 23 }" ++ rest ->
         (forall i, (i < String.length pre)%nat ->
                    match_here retry_delay_pattern (PyStr.slice_from i (exn_str err)) = None) ->
         extract_wait_seconds_from_error error = Some (23 # 1)%Q)
  /\ (forall (error : exn) (w : Q),
         extract_wait_seconds_from_error error = Some w -> (1 # 10 <= w /\ w <= 3600)%Q)
  /\ (forall (lo : Q) (r : re) (text g : string) (w : Q),
         search_group r text = Some g ->
         float_of_string g = Some w ->
         in_range lo w = false ->
         try_pattern lo r text = None).
Proof.
  split; [|split; [|split]].
  - intros error before err after pre rest Hchain Hbefore Htext Hdelay Hpre.
    unfold extract_wait_seconds_from_error.
    rewrite Hchain, (check_all_skip before err after Hbefore).
    unfold check_one. rewrite Hdelay.
    assert (Hs : search_group please_retry_pattern (exn_str err) = Some "21.13").
    { unfold search_group. rewrite Htext in *.
      rewrite (search_skip please_retry_pattern pre _ Hpre).
      vm_compute. reflexivity. }
    cbn [patterns try_patterns]. unfold try_pattern at 1. rewrite Hs.
    reflexivity.
  - intros error before err after pre rest Hchain Hbefore Htext Hpre.
    unfold extract_wait_seconds_from_error.
    rewrite Hchain, (check_all_skip before err after Hbefore).
    unfold check_one.
    assert (Hs : search_group retry_delay_pattern (exn_str err) = Some "23").
    { unfold search_group. rewrite Htext in *.
      rewrite (search_skip retry_delay_pattern pre _ Hpre).
      vm_compute. reflexivity. }
    unfold try_pattern at 1. rewrite Hs. reflexivity.
  - exact extract_in_range.
  - intros lo r text g w Hg Hw Hr. unfold try_pattern. rewrite Hg, Hw, Hr. reflexivity.
Qed.

Lemma wait_hint_extraction_witness :
  extract_wait_seconds_from_error
    (Exn "builtins" "RuntimeError" "Request failed"
         (Some (plain_exn "ResourceExhausted" "Quota: please retry in 21.13s.")) None []
         None None None None) = Some (2113 # 100)%Q
  /\ extract_wait_seconds_from_error
       (plain_exn "ResourceExhausted" "retry_delay { seconds: 23 }") = Some (23 # 1)%Q.
Proof.
  split.
  - apply (proj1 wait_hint_extraction _
             [Exn "builtins" "RuntimeError" "Request failed"
                  (Some (plain_exn "ResourceExhausted" "Quota: please retry in 21.13s."))
                  None [] None None None None]
             (plain_exn "ResourceExhausted" "Quota: please retry in 21.13s.") []
             "Quota: " ".").
    + reflexivity.
    + constructor; [vm_compute; reflexivity | constructor].
    + reflexivity.
    + vm_compute; reflexivity.
    + intros i Hi.
      do 7 (destruct i as [|i]; [vm_compute; reflexivity|]).
      simpl in Hi; lia.
  - apply (proj1 (proj2 wait_hint_extraction) _ []
             (plain_exn "ResourceExhausted" "retry_delay { seconds: 23 }") [] "" "").
    + reflexivity.
    + constructor.
    + reflexivity.
    + intros i Hi. simpl in Hi; lia.
Defined.

(** C4 as stated fails: a text may hold both hints of the claim, and then
    the [retry_delay] block wins over "please retry in 21.13s"; the lower
    bound 0.1 is itself accepted; and a value out of range does not end
    the extraction. *)
Lemma wait_hint_counterexample :
  (PyStr.contains "please retry in 21.13s"
                  "retry_delay { seconds: 23 } please retry in 21.13s" = true
   /\ extract_wait_seconds_from_error
        (plain_exn "Exception" "retry_delay { seconds: 23 } please retry in 21.13s")
      = Some (23 # 1)%Q
   /\ ~ (23 # 1 == 2113 # 100)%Q)
  /\ (extract_wait_seconds_from_error (plain_exn "Exception" "retry in 0.1s")
      = Some (1 # 10)%Q
      /\ ~ (1 # 10 < 1 # 10)%Q)
  /\ (search_group (nth 1 patterns Eps) "retry in 5000s, wait 5 seconds" = Some "5000"
      /\ extract_wait_seconds_from_error
           (plain_exn "Exception" "retry in 5000s, wait 5 seconds") = Some (5 # 1)%Q).
Proof.
  repeat split; try (vm_compute; reflexivity); vm_compute; intros H; discriminate H.
Qed.

(** C5.  An attempt of the wrapped call that fails with an error that
    [is_rate_limit_error] rejects is the last thing the wrapper does: it
    raises that very error, with no sleep and no call after the attempt.
    When the attempt is the first one, exactly one call has been made and
    nothing was slept. *)
Theorem non_rate_limit_error_not_retried {T : Type} (func : nat -> outcome T)
        (max_retries : Z) (default_wait backoff_multiplier : Q) (a : nat) (e : exn) :
  In (EvCall a) (snd (with_rate_limit_retry func max_retries default_wait backoff_multiplier)) ->
  func a = Raise e ->
  is_rate_limit_error e = false ->
  fst (with_rate_limit_retry func max_retries default_wait backoff_multiplier) = Raise e
  /\ (exists pre,
         snd (with_rate_limit_retry func max_retries default_wait backoff_multiplier)
         = (pre ++ [EvCall a])%list)
  /\ (a = 0%nat ->
      snd (with_rate_limit_retry func max_retries default_wait backoff_multiplier)
      = [EvCall 0]
      /\ length (List.filter is_call
                   (snd (with_rate_limit_retry func max_retries default_wait
                                               backoff_multiplier))) = 1%nat
      /\ sleeps (snd (with_rate_limit_retry func max_retries default_wait
                                            backoff_multiplier)) = []).
Proof.
  intros Hin Hf He. unfold with_rate_limit_retry in *.
  destruct (retry_loop_other_error func max_retries default_wait backoff_multiplier a e
              _ 0%nat None Hin Hf He) as (Hr & pre & Htr & Hfirst).
  split; [exact Hr|]. split; [exists pre; exact Htr|].
  intros ->. rewrite Htr, (Hfirst eq_refl). repeat split.
Qed.

Lemma non_rate_limit_error_not_retried_witness :
  with_rate_limit_retry
    (fun _ => @Raise string (plain_exn "ValueError" "API key not valid. Please pass a valid API key."))
    3 60 (3 # 2)
  = (Raise (plain_exn "ValueError" "API key not valid. Please pass a valid API key."),
     [EvCall 0]).
Proof.
  destruct (non_rate_limit_error_not_retried
              (fun _ => @Raise string
                          (plain_exn "ValueError" "API key not valid. Please pass a valid API key."))
              3 60 (3 # 2) 0
              (plain_exn "ValueError" "API key not valid. Please pass a valid API key."))
    as (Hr & _ & Hone).
  - vm_compute. left. reflexivity.
  - reflexivity.
  - vm_compute; reflexivity.
  - destruct (Hone eq_refl) as (Htr & _ & _).
    apply injective_projections; [exact Hr|exact Htr].
Defined.

(** The retry before it does not change this: after one rate limit, a
    credential error on the second attempt ends the run there. *)
Example credential_error_after_a_retry :
  with_rate_limit_retry
    (fun n => match n with
              | O => @Raise string (plain_exn "Exception" "429 Too Many Requests")
              | _ => Raise (plain_exn "ValueError" "API key not valid.")
              end) 3 60 (3 # 2)
  = (Raise (plain_exn "ValueError" "API key not valid."),
     [EvCall 0; EvSleep 60; EvCall 1]).
Proof. vm_compute. reflexivity. Qed.




End RetryClaims.

(** ** The listing of documents *)

Section DocumentClaims.
Import Documents.



(** A row whose [status] holds [None] is listed too, with no status. *)
Example null_status_is_listed :
  get_documents [Document "d3" "n.pdf" 2 Null (Value 40) "t"]
  = [mkDocumentRead "d3" "n.pdf" 2 None (Some 40) "t"].
Proof. reflexivity. Qed.

End DocumentClaims.

(** ** The streaming chat *)

Module ChatFacts.
Import Chat Effects Notions.

Section WithEnv.
Variable E : env.

(** The loop opens at least one stream, and when the last stream it opened
    ended on an error, the last thing it yields is the chunk of that
    error. *)
Lemma stream_attempts_last (n : nat) :
  forall (retry_count : nat) (response_buffer : list string) (w : world),
    (n + retry_count = S max_retries)%nat ->
    (retry_count <= max_retries)%nat ->
    exists c,
      w_chat_calls (snd (stream_attempts E n retry_count response_buffer w)) = S c
      /\ (w_chat_calls w <= c)%nat
      /\ match snd (chat_astream E c) with
         | None => True
         | Some e =>
             exists pre,
               fst (fst (stream_attempts E n retry_count response_buffer w))
               = (pre ++ [error_chunk e])%list
         end.
Proof.
  induction n as [|n IH]; intros retry_count response_buffer w Hn Hrc; [lia|].
  cbn [stream_attempts]. run_bind. unfold open_stream. cbv beta iota.
  destruct (chat_astream E (w_chat_calls w)) as [chunks failure] eqn:Hstream.
  destruct failure as [e|].
  - destruct (RateLimit.is_rate_limit_error e && (retry_count <? max_retries)%nat) eqn:Hretry.
    + apply andb_prop in Hretry as [_ Hlt]. apply Nat.ltb_lt in Hlt.
      unfold uniform, sleep. cbv beta iota.
      match goal with
      | |- context [stream_attempts E n (S retry_count) ?b ?w3] =>
          destruct (IH (S retry_count) b w3 ltac:(lia) ltac:(lia)) as (c & Hc & Hle & Hlast);
          destruct (stream_attempts E n (S retry_count) b w3) as [[ys buf] w4]
      end.
      cbn [fst snd w_chat_calls] in *. exists c. split; [exact Hc|]. split; [lia|].
      destruct (snd (chat_astream E c)) as [e'|]; [|exact I].
      destruct Hlast as [pre ->].
      eexists (_ ++ _ :: pre)%list. rewrite <- app_assoc. reflexivity.
    + cbn [fst snd w_chat_calls]. exists (w_chat_calls w). split; [reflexivity|].
      split; [lia|]. rewrite Hstream. cbn [snd]. eexists. reflexivity.
  - cbn [fst snd w_chat_calls]. exists (w_chat_calls w). split; [reflexivity|].
    split; [lia|]. rewrite Hstream. exact I.
Qed.

(** Whenever the last stream of a run ended on an error, the chunk of that
    error is yielded just before the end marker. *)
Lemma error_chunk_before_end (sessionId : string) (w : world) :
  exists c,
    w_chat_calls (snd (event_generator E sessionId w)) = S c
    /\ match snd (chat_astream E c) with
       | None => True
       | Some e =>
           exists pre,
             fst (event_generator E sessionId w) = (pre ++ [error_chunk e; EndMarker])%list
       end.
Proof.
  unfold event_generator. run_bind.
  destruct (stream_attempts_last (S max_retries) 0 [] w ltac:(lia) ltac:(lia))
    as (c & Hc & _ & Hlast).
  destruct (stream_attempts E (S max_retries) 0 [] w) as [[ys buf] w1].
  cbn [fst snd] in *. exists c.
  assert (Hcalls : forall m : M unit,
             (forall w0, w_chat_calls (snd (m w0)) = w_chat_calls w0) ->
             w_chat_calls (snd (let '(_, w') := m w1 in (ys ++ [EndMarker], w')%list)) = S c
             /\ fst (let '(_, w') := m w1 in (ys ++ [EndMarker], w')%list)
                = (ys ++ [EndMarker])%list).
  { intros m Hm. specialize (Hm w1). destruct (m w1) as [u w2]. cbn in *.
    split; [congruence|reflexivity]. }
  match goal with
  | |- context [let '(_, w') := ?m w1 in _] => destruct (Hcalls m) as [H1 H2]
  end.
  - intros w0. destruct buf as [|b buf]; [reflexivity|].
    destruct (negb (PyStr.startswith (PyStr.join "" (b :: buf)) "[ERROR:")); reflexivity.
  - split; [exact H1|]. destruct (snd (chat_astream E c)) as [e|]; [|exact I].
    destruct Hlast as [pre ->]. exists pre. rewrite H2, <- app_assoc. reflexivity.
Qed.

End WithEnv.

End ChatFacts.

Section ChatClaims.
Import Chat Examples.

(** C9 fails on the code.  A stream that yields the chunk "Hello" and
    then fails with an error that is not a rate limit: the error chunk is
    emitted before the end marker, but the buffer starts with "Hello", not
    with "[ERROR:", so the whole of it, error text included, is saved as
    the assistant's message. *)
Theorem error_after_content_is_persisted :
  let E := with_chat (fun _ => (["Hello"], Some (plain_exn "ValueError" "boom"))) quiet in
  RateLimit.is_rate_limit_error (plain_exn "ValueError" "boom") = false
  /\ fst (event_generator E "s1" Effects.initial_world)
     = [Chunk "Hello"; Chunk "[ERROR: boom]"; EndMarker]
  /\ w_messages (snd (event_generator E "s1" Effects.initial_world))
     = [Message "s1" "assistant" "Hello[ERROR: boom]"].
Proof. vm_compute. repeat split. Qed.

(** The same happens when the retries of a rate limit are exhausted. *)
Example exhausted_retries_are_persisted :
  let E := with_chat (fun _ => (["Hi"], Some (plain_exn "Exception" "429 quota"))) quiet in
  fst (event_generator E "s1" Effects.initial_world)
  = [Chunk "Hi"; RateLimitNotice 66 1 4; Chunk "Hi"; RateLimitNotice 99 2 4;
     Chunk "Hi"; RateLimitNotice 148 3 4; Chunk "Hi"; Chunk "[ERROR: 429 quota]"; EndMarker]
  /\ w_messages (snd (event_generator E "s1" Effects.initial_world))
     = [Message "s1" "assistant" "HiHiHiHi[ERROR: 429 quota]"].
Proof. vm_compute. repeat split. Qed.

(** A run that fails before any content is not saved. *)
Example bare_error_is_not_persisted :
  let E := with_chat (fun _ => ([], Some (plain_exn "ValueError" "boom"))) quiet in
  fst (event_generator E "s1" Effects.initial_world) = [Chunk "[ERROR: boom]"; EndMarker]
  /\ w_messages (snd (event_generator E "s1" Effects.initial_world)) = [].
Proof. vm_compute. repeat split. Qed.

End ChatClaims.

(** ** The sequential batches *)

Module BatchFacts.
Import Summary.

Section WithEnv.
Variable E : env.

(** A batch of texts returns one summary per item and reports, after
    item [idx], the value computed for [idx]; neither depends on what the
    provider does. *)
Lemma text_batch_shape (start_progress end_progress : Z) (ppc : float)
      (inputs : list (pyval * pyval)) :
  forall (idx : nat) (w : world),
    length (fst (fst (text_batch E start_progress end_progress ppc inputs idx w)))
    = length inputs
    /\ snd (fst (text_batch E start_progress end_progress ppc inputs idx w))
       = map (Progress.reported start_progress end_progress ppc) (seq idx (length inputs)).
Proof.
  induction inputs as [|[txt page_num] rest IH]; intros idx w; [split; reflexivity|].
  cbn [text_batch]. run_bind.
  match goal with
  | |- context [let '(_, _) := ?m w in _] => destruct (m w) as [u w1]
  end.
  destruct (_summarize_one E txt page_num w1) as [r w2].
  specialize (IH (S idx) w2).
  destruct (text_batch E start_progress end_progress ppc rest (S idx) w2)
    as [[results reports] w3].
  cbv zeta. cbn [fst snd length map seq] in *. destruct IH as [IH1 IH2].
  split; [now rewrite IH1 | now rewrite IH2].
Qed.

Lemma image_batch_shape (start_progress end_progress : Z) (ppc : float)
      (images_b64 : list pyval) :
  forall (idx : nat) (w : world),
    length (fst (fst (image_batch E start_progress end_progress ppc images_b64 idx w)))
    = length images_b64
    /\ snd (fst (image_batch E start_progress end_progress ppc images_b64 idx w))
       = map (Progress.reported start_progress end_progress ppc)
             (seq idx (length images_b64)).
Proof.
  induction images_b64 as [|b64 rest IH]; intros idx w; [split; reflexivity|].
  cbn [image_batch]. run_bind.
  match goal with
  | |- context [let '(_, _) := ?m w in _] => destruct (m w) as [u w1]
  end.
  destruct (_summ_img E b64 w1) as [r w2].
  specialize (IH (S idx) w2).
  destruct (image_batch E start_progress end_progress ppc rest (S idx) w2)
    as [[results reports] w3].
  cbv zeta. cbn [fst snd length map seq] in *. destruct IH as [IH1 IH2].
  split; [now rewrite IH1 | now rewrite IH2].
Qed.

(** [len(results) == len(items)] *)
Lemma summarize_texts_and_tables_length (items : list pydict)
      (start_progress end_progress : Z) (w : world) :
  length (fst (fst (summarize_texts_and_tables E items start_progress end_progress w)))
  = length items.
Proof.
  unfold summarize_texts_and_tables.
  rewrite (proj1 (text_batch_shape _ _ _ _ _ _)). apply length_map.
Qed.

Lemma summarize_images_length (images_b64 : list pyval)
      (start_progress end_progress : Z) (w : world) :
  length (fst (fst (summarize_images E images_b64 start_progress end_progress w)))
  = length images_b64.
Proof.
  unfold summarize_images. apply (proj1 (image_batch_shape _ _ _ _ _ _)).
Qed.

Lemma summarize_texts_and_tables_reports (items : list pydict)
      (start_progress end_progress : Z) (w : world) :
  snd (fst (summarize_texts_and_tables E items start_progress end_progress w))
  = map (Progress.reported start_progress end_progress
           (Progress.progress_per_chunk start_progress end_progress (length items)))
        (seq 0 (length items)).
Proof.
  unfold summarize_texts_and_tables.
  rewrite (proj2 (text_batch_shape _ _ _ _ _ _)). now rewrite length_map.
Qed.

Lemma summarize_images_reports (images_b64 : list pyval)
      (start_progress end_progress : Z) (w : world) :
  snd (fst (summarize_images E images_b64 start_progress end_progress w))
  = map (Progress.reported start_progress end_progress
           (Progress.progress_per_chunk start_progress end_progress (length images_b64)))
        (seq 0 (length images_b64)).
Proof.
  unfold summarize_images. apply (proj2 (image_batch_shape _ _ _ _ _ _)).
Qed.

(** Every reported value is at most [end_progress]. *)
Lemma reported_le_end (start_progress end_progress : Z) (ppc : float) (idx : nat) :
  Progress.reported start_progress end_progress ppc idx <= end_progress.
Proof. unfold Progress.reported. apply Z.le_min_r. Qed.

End WithEnv.

End BatchFacts.

Section BatchClaims.
Import Summary BatchFacts Examples.

(** C7 fails on the code.  The batch of the 19 images of a document that
    also has 6 texts is given the window from 10 to 63.  The last value it
    reports is 62, not 63: in binary64 [53 / 19] is rounded down, 19 times
    the quotient is 52.99999999999999, and [int] truncates.  The same
    happens to a batch of 275 texts with the window from 10 to 80, which
    ends on 79.  This holds whatever the provider answers. *)
Theorem final_progress_short_of_end (E : env) (w : world) :
  images_end_progress 19 25 = 63
  /\ last (snd (fst (summarize_images E (repeat (PStr "aGVsbG8=") 19) 10 63 w))) = Some 62
  /\ last (snd (fst (summarize_texts_and_tables E (repeat (text_item "chunk" 1) 275) 10 80 w)))
     = Some 79.
Proof.
  rewrite summarize_images_reports, summarize_texts_and_tables_reports.
  rewrite !repeat_length.
  vm_compute. repeat split.
Qed.

(** What does hold of a batch: one result per item, and reports that
    never exceed the end of the window. *)
Lemma batch_results_and_bound (E : env) (items : list pydict)
      (start_progress end_progress : Z) (w : world) :
  length (fst (fst (summarize_texts_and_tables E items start_progress end_progress w)))
  = length items
  /\ Forall (fun p => p <= end_progress)
            (snd (fst (summarize_texts_and_tables E items start_progress end_progress w))).
Proof.
  split; [apply summarize_texts_and_tables_length|].
  rewrite summarize_texts_and_tables_reports. apply List.Forall_forall.
  intros p Hp. apply in_map_iff in Hp as (idx & <- & _). apply reported_le_end.
Qed.

End BatchClaims.

(** ** The parent/child index *)

Module IndexFacts.
Import Vector Effects Notions.

Section WithEnv.
Variable E : env.

Lemma with_uuids_same (w : world) : with_uuids (w_uuids w) w = w.
Proof. destruct w; reflexivity. Qed.

Lemma index_pairs_run (doc_id : string) (ps : list pydict) :
  forall (ss : list string) (index : gmap string pydict) (child_docs : list child_doc)
         (w : world),
    index_pairs E doc_id ps ss index child_docs w
    = (store_all E (w_uuids w) (zip ps ss) index,
       (child_docs ++ children_of E doc_id (w_uuids w) (zip ps ss))%list,
       with_uuids (w_uuids w + length (zip ps ss)) w).
Proof.
  induction ps as [|parent ps IH]; intros ss index child_docs w.
  - cbn. rewrite app_nil_r, Nat.add_0_r, with_uuids_same. reflexivity.
  - destruct ss as [|summary ss].
    + cbn. rewrite app_nil_r, Nat.add_0_r, with_uuids_same. reflexivity.
    + cbn [index_pairs]. run_bind. unfold new_uuid at 1. cbv beta iota.
      rewrite IH. cbn [w_uuids zip zip_with store_all children_of length].
      rewrite <- app_assoc. cbn [app].
      unfold with_uuids. cbn. repeat f_equal. lia.
Qed.

Lemma store_all_app (u : nat) (xs ys : list (pydict * string)) (index : gmap string pydict) :
  store_all E u (xs ++ ys) index = store_all E (u + length xs) ys (store_all E u xs index).
Proof.
  revert u index. induction xs as [|[parent summary] xs IH]; intros u index; cbn.
  - now rewrite Nat.add_0_r.
  - rewrite IH. f_equal. lia.
Qed.

Lemma children_of_app (doc_id : string) (u : nat) (xs ys : list (pydict * string)) :
  children_of E doc_id u (xs ++ ys)
  = (children_of E doc_id u xs ++ children_of E doc_id (u + length xs) ys)%list.
Proof.
  revert u. induction xs as [|x xs IH]; intros u; cbn.
  - now rewrite Nat.add_0_r.
  - rewrite IH. do 3 f_equal. lia.
Qed.

(** A key that none of the generated identifiers equals is left alone. *)
Lemma store_all_other (pairs : list (pydict * string)) :
  forall (u : nat) (index : gmap string pydict) (key : string),
    (forall j, (j < length pairs)%nat -> uuid4 E (u + j) <> key) ->
    store_all E u pairs index !! key = index !! key.
Proof.
  induction pairs as [|[parent summary] rest IH]; intros u index key Hkey; [reflexivity|].
  cbn [store_all]. rewrite IH.
  - apply lookup_insert_ne. specialize (Hkey 0%nat ltac:(cbn; lia)).
    now rewrite Nat.add_0_r in Hkey.
  - intros j Hj. specialize (Hkey (S j) ltac:(cbn; lia)).
    now replace (S u + j)%nat with (u + S j)%nat by lia.
Qed.

(** The [i]-th parent is found under the [i]-th identifier, provided no
    later identifier repeats it. *)
Lemma store_all_lookup (pairs : list (pydict * string)) :
  forall (u : nat) (index : gmap string pydict) (i : nat) (parent : pydict) (summary : string),
    pairs !! i = Some (parent, summary) ->
    (forall j, (i < j < length pairs)%nat -> uuid4 E (u + j) <> uuid4 E (u + i)) ->
    store_all E u pairs index !! uuid4 E (u + i) = Some parent.
Proof.
  induction pairs as [|[parent0 summary0] rest IH]; intros u index i parent summary Hi Hfresh;
    [discriminate|].
  destruct i as [|i].
  - injection Hi as -> ->. cbn [store_all]. rewrite Nat.add_0_r in *.
    rewrite store_all_other.
    + apply lookup_insert_eq.
    + intros j Hj. specialize (Hfresh (S j) ltac:(cbn; lia)).
      now replace (S u + j)%nat with (u + S j)%nat by lia.
  - cbn [store_all]. cbn in Hi.
    replace (u + S i)%nat with (S u + i)%nat by lia.
    apply (IH (S u) _ i parent summary Hi).
    intros j Hj. specialize (Hfresh (S j) ltac:(cbn; lia)).
    rewrite <- !Nat.add_succ_comm in Hfresh. exact Hfresh.
Qed.

Lemma children_of_lookup (doc_id : string) (pairs : list (pydict * string)) :
  forall (u i : nat) (pr : pydict * string),
    pairs !! i = Some pr ->
    children_of E doc_id u pairs !! i = Some (child_of E doc_id (u + i) pr).
Proof.
  induction pairs as [|pr0 rest IH]; intros u i pr Hi; [discriminate|].
  destruct i as [|i]; cbn in *.
  - injection Hi as ->. now rewrite Nat.add_0_r.
  - replace (u + S i)%nat with (S u + i)%nat by lia. apply IH. exact Hi.
Qed.

Lemma fresh_distinct (f : nat -> string) (n : nat) :
  NoDup (map f (seq 0 n)) ->
  forall i j, (i < n)%nat -> (j < n)%nat -> f i = f j -> i = j.
Proof.
  intros H i j Hi Hj Heq.
  change (map f (seq 0 n)) with (f <$> seq 0 n) in H.
  apply (proj1 (NoDup_alt _) H i j (f i)).
  - rewrite list_lookup_fmap, lookup_seq_lt by lia. reflexivity.
  - rewrite list_lookup_fmap, lookup_seq_lt by lia. cbn. now rewrite Heq.
Qed.

Lemma resolve_run (doc_id child_id : string) (w : world) :
  resolve E doc_id child_id w
  = (default ∅ (w_files w !! _parents_index_path E doc_id) !! child_id, w).
Proof. reflexivity. Qed.

(** A successful [index_multivector] leaves, in the file of the document,
    the former index with every aligned parent stored under its
    identifier, and appends the child documents to the vector store. *)
Lemma index_multivector_run (doc_id : string) (p : parents) (s : summaries) (w w' : world) :
  index_multivector E doc_id p s w = (Ok tt, w') ->
  let pairs := (zip (texts p ++ tables p) (text_table_summaries s)
                ++ zip (images p) (image_summaries s))%list in
  w_files w' !! _parents_index_path E doc_id
  = Some (store_all E (w_uuids w) pairs
                    (default ∅ (w_files w !! _parents_index_path E doc_id)))
  /\ w_vectors w' = (w_vectors w ++ children_of E doc_id (w_uuids w) pairs)%list.
Proof.
  intros H. cbv zeta. revert H.
  unfold index_multivector.
  destruct (vectorstore_ready E) as [e|]; [discriminate|].
  run_bind. unfold _load_parents_index, load_json. run_bind.
  unfold read_file at 1. cbv beta iota.
  rewrite !index_pairs_run. cbn [w_uuids with_uuids app].
  rewrite store_all_app, children_of_app.
  destruct (children_of E doc_id (w_uuids w)
              (zip (texts p ++ tables p) (text_table_summaries s))
            ++ children_of E doc_id
                 (w_uuids w + length (zip (texts p ++ tables p) (text_table_summaries s)))
                 (zip (images p) (image_summaries s)))%list as [|c cds'] eqn:Hc.
  - intros H. injection H as <-. cbn. rewrite lookup_insert_eq, app_nil_r.
    split; reflexivity.
  - destruct (add_documents_error E) as [e|]; [discriminate|].
    intros H. injection H as <-. cbn. rewrite lookup_insert_eq. split; reflexivity.
Qed.

End WithEnv.

End IndexFacts.

Section IndexClaims.
Import Vector Notions IndexFacts Examples.

(** C1.  After a successful [index_multivector], each aligned parent is
    found again under its freshly generated child identifier (fresh: the
    identifiers generated by the call are pairwise distinct), equal to the
    parent that was indexed, and the vector store holds the summary under
    that identifier.  Resolving an identifier that the map does not hold, or
    any identifier when the document has no map file, gives none; [resolve]
    has no error result and leaves the world as it is. *)
Theorem index_then_resolve (E : env) (doc_id : string) (p : parents) (s : summaries)
        (w w' : world) :
  index_multivector E doc_id p s w = (Ok tt, w') ->
  NoDup (map (fun i => uuid4 E (w_uuids w + i))
             (seq 0 (length (zip (texts p ++ tables p) (text_table_summaries s)
                             ++ zip (images p) (image_summaries s))%list))) ->
  (forall (i : nat) (parent : pydict) (summary : string),
      (zip (texts p ++ tables p) (text_table_summaries s)
       ++ zip (images p) (image_summaries s))%list !! i = Some (parent, summary) ->
      fst (resolve E doc_id (uuid4 E (w_uuids w + i)) w') = Some parent
      /\ w_vectors w' !! (length (w_vectors w) + i)%nat
         = Some (ChildDoc summary (PStr doc_id) (PStr (uuid4 E (w_uuids w + i)))
                          (Py.get parent "type") (Py.get parent "page_number")
                          (Py.get parent "source")))
  /\ (forall (E0 : env) (w0 : world) (doc child : string),
         (w_files w0 !! _parents_index_path E0 doc = None ->
          fst (resolve E0 doc child w0) = None)
         /\ (forall index, w_files w0 !! _parents_index_path E0 doc = Some index ->
                           index !! child = None ->
                           fst (resolve E0 doc child w0) = None)
         /\ snd (resolve E0 doc child w0) = w0).
Proof.
  intros Hrun Hfresh. split.
  - intros i parent summary Hi.
    destruct (index_multivector_run E doc_id p s w w' Hrun) as [Hfile Hvec].
    cbv zeta in Hfile, Hvec. split.
    + rewrite resolve_run. cbn [fst]. rewrite Hfile. cbn [default].
      apply (store_all_lookup E _ _ _ i parent summary Hi).
      intros j Hj Heq.
      apply (fresh_distinct _ _ Hfresh j i) in Heq; [lia|lia|].
      apply lookup_lt_Some in Hi. exact Hi.
    + rewrite Hvec, lookup_app_r by lia.
      replace (length (w_vectors w) + i - length (w_vectors w))%nat with i by lia.
      apply (children_of_lookup E doc_id _ _ i _ Hi).
  - intros E0 w0 doc child. rewrite resolve_run. cbn [fst snd]. repeat split.
    + intros ->. reflexivity.
    + intros index -> Hnone. exact Hnone.
Qed.

Lemma index_then_resolve_witness :
  let E := quiet in
  let p := Parents [text_item "Attention is all you need." 1] []
                   [image_item "aGVsbG8=" 2] in
  let s := Summaries ["The paper introduces the Transformer."] ["A diagram of the model."] in
  let w' := snd (index_multivector E "doc-1" p s Effects.initial_world) in
  fst (resolve E "doc-1" "child-1" w') = Some (image_item "aGVsbG8=" 2)
  /\ fst (resolve E "doc-1" "child-7" w') = None
  /\ fst (resolve E "doc-2" "child-1" w') = None.
Proof.
  cbv zeta.
  pose proof (index_then_resolve quiet "doc-1"
                (Parents [text_item "Attention is all you need." 1] []
                         [image_item "aGVsbG8=" 2])
                (Summaries ["The paper introduces the Transformer."]
                           ["A diagram of the model."])
                Effects.initial_world
                (snd (index_multivector quiet "doc-1"
                        (Parents [text_item "Attention is all you need." 1] []
                                 [image_item "aGVsbG8=" 2])
                        (Summaries ["The paper introduces the Transformer."]
                                   ["A diagram of the model."])
                        Effects.initial_world))) as H.
  destruct H as [Hround Hunknown].
  - vm_compute. reflexivity.
  - vm_compute. apply (@bool_decide_unpack _ (NoDup_dec _)). vm_compute. exact I.
  - split; [|split].
    + apply (Hround 1%nat (image_item "aGVsbG8=" 2) "A diagram of the model.").
      reflexivity.
    + apply (proj1 (proj2 (Hunknown quiet _ "doc-1" "child-7"))
               (store_all quiet 0
                  [(text_item "Attention is all you need." 1,
                    "The paper introduces the Transformer.");
                   (image_item "aGVsbG8=" 2, "A diagram of the model.")] ∅)).
      * vm_compute. reflexivity.
      * vm_compute. reflexivity.
    + apply (proj1 (Hunknown quiet _ "doc-2" "child-1")). vm_compute. reflexivity.
Defined.

End IndexClaims.

(** ** Retrieval *)

Module RetrievalFacts.
Import Vector Effects Notions IndexFacts.

Lemma pymin_le_1 (x : Q) : (pymin 1 x <= 1)%Q.
Proof.
  unfold pymin. destruct (Qlt_le_dec x 1) as [H|H]; [apply Qlt_le_weak; exact H|apply Qle_refl].
Qed.

Lemma pymin_nonneg (x : Q) : (0 <= x)%Q -> (0 <= pymin 1 x)%Q.
Proof.
  intros Hx. unfold pymin. destruct (Qlt_le_dec x 1); [exact Hx|discriminate].
Qed.

Lemma pymax_0_unit (x : Q) : (x <= 1)%Q -> in_unit (pymax 0 x).
Proof.
  intros Hx. unfold pymax, in_unit. destruct (Qlt_le_dec 0 x) as [H|H].
  - split; [apply Qlt_le_weak; exact H|exact Hx].
  - split; [apply Qle_refl|discriminate].
Qed.

Lemma rescale_unit (max_score raw_score : Q) : in_unit (rescale max_score raw_score).
Proof.
  unfold rescale. destruct (Qlt_le_dec 1 raw_score) as [Hraw|Hraw].
  - destruct (Qlt_le_dec 0 max_score) as [Hmax|Hmax].
    + split; [|apply pymin_le_1]. apply pymin_nonneg.
      apply Qle_shift_div_l; [exact Hmax|]. rewrite Qmult_0_l.
      apply Qlt_le_weak. eapply Qlt_trans; [|exact Hraw]. reflexivity.
    + split; [apply Qle_refl|discriminate].
  - apply pymax_0_unit, pymin_le_1.
Qed.

Lemma similarity_score_unit (is_distance : bool) (normalization_factor : option Q)
      (max_score raw_score : Q) :
  in_unit (similarity_score is_distance normalization_factor max_score raw_score).
Proof.
  unfold similarity_score. destruct normalization_factor as [nf|]; [|apply rescale_unit].
  destruct (negb (Qeq_bool nf 0) && is_distance); [|apply rescale_unit].
  apply pymax_0_unit, pymin_le_1.
Qed.

(** Rounding to an integer stays between integer bounds. *)
Lemma round_half_even_bounds (x : Q) (lo hi : Z) :
  (inject_Z lo <= x)%Q -> (x <= inject_Z hi)%Q ->
  lo <= round_half_even x <= hi.
Proof.
  intros Hlo Hhi. unfold round_half_even.
  assert (Hf1 : lo <= Qfloor x).
  { rewrite <- (Qfloor_Z lo). apply Qfloor_resp_le. exact Hlo. }
  assert (Hf2 : Qfloor x <= hi).
  { rewrite <- (Qfloor_Z hi). apply Qfloor_resp_le. exact Hhi. }
  assert (Hup : (1 # 2 <= x - (Qfloor x # 1))%Q -> Qfloor x + 1 <= hi).
  { intros Hr. assert (Hlt : (inject_Z (Qfloor x) < inject_Z hi)%Q).
    { eapply Qlt_le_trans; [|exact Hhi].
      apply (Qplus_lt_l _ _ (- (Qfloor x # 1))). rewrite Qplus_opp_r.
      eapply Qlt_le_trans; [|exact Hr]. reflexivity. }
    rewrite <- Zlt_Qlt in Hlt. lia. }
  destruct (Qcompare (x - (Qfloor x # 1)) (1 # 2)) eqn:Hc.
  - destruct (Z.even (Qfloor x)); [lia|].
    apply Qeq_alt in Hc. split; [lia|]. apply Hup. rewrite Hc. apply Qle_refl.
  - lia.
  - apply Qgt_alt in Hc. split; [lia|]. apply Hup. apply Qlt_le_weak. exact Hc.
Qed.

Lemma round4_unit (x : Q) : in_unit x -> in_unit (round4 x).
Proof.
  intros [H0 H1]. unfold round4.
  destruct (round_half_even_bounds (x * 10000) 0 10000) as [Hlo Hhi].
  - rewrite <- (Qmult_0_l 10000). apply Qmult_le_compat_r; [exact H0|discriminate].
  - change (inject_Z 10000) with (1 * 10000)%Q.
    apply Qmult_le_compat_r; [exact H1|discriminate].
  - split; unfold Qle; cbn; lia.
Qed.

Lemma insert_desc_Forall (P : source -> Prop) (x : source) (l : list source) :
  P x -> Forall P l -> Forall P (insert_desc x l).
Proof.
  intros Hx Hl. induction Hl as [|y l Hy Hl IH]; cbn.
  - constructor; [exact Hx|constructor].
  - destruct (Qlt_le_dec (src_score x) (src_score y)).
    + constructor; assumption.
    + constructor; [exact Hx|]. constructor; assumption.
Qed.

Lemma insert_desc_length (x : source) (l : list source) :
  length (insert_desc x l) = S (length l).
Proof.
  induction l as [|y l IH]; cbn; [reflexivity|].
  destruct (Qlt_le_dec (src_score x) (src_score y)); cbn; [now rewrite IH|reflexivity].
Qed.

Lemma insert_desc_sorted (x : source) (l : list source) :
  Sorted.StronglySorted better_or_equal l ->
  Sorted.StronglySorted better_or_equal (insert_desc x l).
Proof.
  induction 1 as [|y l Hl IH Hy]; cbn.
  - constructor; constructor.
  - destruct (Qlt_le_dec (src_score x) (src_score y)) as [Hlt|Hle].
    + constructor; [exact IH|].
      apply insert_desc_Forall; [|exact Hy].
      unfold better_or_equal. apply Qlt_le_weak. exact Hlt.
    + constructor; [constructor; assumption|].
      constructor; [exact Hle|].
      eapply List.Forall_impl; [|exact Hy].
      unfold better_or_equal. intros z Hz. eapply Qle_trans; [exact Hz|exact Hle].
Qed.

Lemma sort_desc_sorted (l : list source) :
  Sorted.StronglySorted better_or_equal (sort_desc l).
Proof.
  unfold sort_desc. induction l as [|x l IH]; cbn [foldr]; [constructor|].
  apply insert_desc_sorted. exact IH.
Qed.

Lemma sort_desc_length (l : list source) : length (sort_desc l) = length l.
Proof.
  unfold sort_desc. induction l as [|x l IH]; cbn [foldr]; [reflexivity|].
  rewrite insert_desc_length, IH. reflexivity.
Qed.

Lemma sort_desc_Forall (P : source -> Prop) (l : list source) :
  Forall P l -> Forall P (sort_desc l).
Proof.
  unfold sort_desc. induction 1 as [|x l Hx Hl IH]; cbn [foldr]; [constructor|].
  apply insert_desc_Forall; assumption.
Qed.

Section WithEnv.
Variable E : env.
Variables (k : Z) (document_id : option string) (include_images : bool).
Variables (is_distance : bool) (normalization_factor : option Q) (max_score : Q).

(** The loop over the hits only reads; it keeps at most [k - taken]
    results when [taken < k], each with a score in the unit interval. *)
Lemma collect_shape (results : list (child_doc * Q)) :
  forall (taken : Z) (w : world),
    snd (collect E k document_id include_images is_distance normalization_factor
                 max_score results taken w) = w
    /\ (taken < k ->
        Z.of_nat (length (fst (fst (collect E k document_id include_images is_distance
                                            normalization_factor max_score results taken w))))
        <= k - taken)
    /\ Forall (fun s => in_unit (src_score s))
              (fst (fst (collect E k document_id include_images is_distance
                                 normalization_factor max_score results taken w))).
Proof.
  induction results as [|[doc raw_score] rest IH]; intros taken w.
  - cbn. repeat split; [lia|constructor].
  - cbn [collect].
    destruct (match document_id with
              | Some d => negb (PyStr.is_empty d) && negb (Py.eq_str (md_doc_id doc) d)
              | None => false
              end); [apply IH|].
    destruct (negb include_images && Py.eq_str (md_type doc) "image"); [apply IH|].
    destruct (parent_key (md_parent_id doc)) as [parent_id|]; [|apply IH].
    destruct (doc_id_text (md_doc_id doc)) as [doc_id|]; [|apply IH].
    run_bind. rewrite resolve_run.
    destruct (default ∅ (w_files w !! _parents_index_path E doc_id) !! parent_id)
      as [parent|]; [|apply IH].
    destruct (decide (parent = ∅)); [apply IH|].
    destruct (k <=? taken + 1) eqn:Hk.
    + cbn. repeat split.
      * lia.
      * constructor; [|constructor]. cbn. apply round4_unit, similarity_score_unit.
    + apply Z.leb_gt in Hk. specialize (IH (taken + 1) w).
      destruct (collect E k document_id include_images is_distance normalization_factor
                        max_score rest (taken + 1) w) as [[sources ps] w'].
      cbn in *. destruct IH as (Hw & Hlen & Hall). repeat split.
      * exact Hw.
      * intros _. specialize (Hlen Hk). lia.
      * constructor; [|exact Hall]. cbn. apply round4_unit, similarity_score_unit.
Qed.

End WithEnv.

End RetrievalFacts.

Section RetrievalClaims.
Import Vector Notions RetrievalFacts Examples.

(** C8, as amended.  For every query and every [k] of at least 1,
    [retrieve_with_sources] returns at most [k] sources; for every [k], each
    returned score lies between 0 and 1 and the sources are sorted best
    first. *)
Theorem retrieval_result_shape (E : env) (query : string) (k : Z)
        (document_id : option string) (include_images : bool) (w w' : world)
        (sources : list source) (parents_resolved : list pydict) :
  retrieve_with_sources E query k document_id include_images w
  = (Ok (sources, parents_resolved), w') ->
  (1 <= k -> Z.of_nat (length sources) <= k)
  /\ Forall (fun s => (0 <= src_score s /\ src_score s <= 1)%Q) sources
  /\ Sorted.StronglySorted (fun a b => (src_score b <= src_score a)%Q) sources.
Proof.
  unfold retrieve_with_sources.
  destruct (vectorstore_ready E) as [e|]; [discriminate|].
  run_bind.
  match goal with
  | |- context [collect E k document_id include_images ?d ?nf ?ms ?rs 0 w] =>
      pose proof (collect_shape E k document_id include_images d nf ms rs 0 w) as H;
      destruct (collect E k document_id include_images d nf ms rs 0 w) as [[srcs ps] w1]
  end.
  cbn in H. destruct H as (_ & Hlen & Hall).
  intros [= <- <- <-]. repeat split.
  - intros Hk. rewrite sort_desc_length. specialize (Hlen ltac:(lia)). lia.
  - apply (sort_desc_Forall _ _ Hall).
  - apply sort_desc_sorted.
Qed.

Lemma retrieval_result_shape_witness :
  let sources :=
    [ Source "p1" (PStr "text") (PInt 1) (PStr "paper.pdf") "a summary"
             (8000 # 10000) (4000 # 10000) None None (Some (PStr "first"));
      Source "p2" (PStr "text") (PInt 1) (PStr "paper.pdf") "a summary"
             (6000 # 10000) (8000 # 10000) None None (Some (PStr "second")) ] in
  Z.of_nat (length sources) <= 2
  /\ Forall (fun s => (0 <= src_score s /\ src_score s <= 1)%Q) sources
  /\ Sorted.StronglySorted (fun a b => (src_score b <= src_score a)%Q) sources.
Proof.
  cbv zeta.
  destruct (retrieval_result_shape
              (with_hits [hit "p2" (8 # 10); hit "gone" (3 # 10); hit "p1" (4 # 10)] quiet)
              "what is attention?" 2 (Some "doc-1") true indexed indexed
              [ Source "p1" (PStr "text") (PInt 1) (PStr "paper.pdf") "a summary"
                       (8000 # 10000) (4000 # 10000) None None (Some (PStr "first"));
                Source "p2" (PStr "text") (PInt 1) (PStr "paper.pdf") "a summary"
                       (6000 # 10000) (8000 # 10000) None None (Some (PStr "second")) ]
              [text_item "second" 2; text_item "first" 1]) as (Hlen & Hunit & Hsorted).
  - vm_compute. reflexivity.
  - split; [apply Hlen; lia|]. split; assumption.
Defined.

(** C8 as stated fails for [k = 0]: the loop tests [taken >= k] only after
    it has kept a hit, so one source is returned. *)
Lemma retrieval_counterexample :
  exists sources parents_resolved w',
    retrieve_with_sources (with_hits [hit "p1" (4 # 10)] quiet)
                          "what is attention?" 0 None true indexed
    = (Ok (sources, parents_resolved), w')
    /\ length sources = 1%nat
    /\ ~ (Z.of_nat (length sources) <= 0).
Proof.
  eexists _, _, _. split; [vm_compute; reflexivity|]. split; [reflexivity|cbn; lia].
Qed.

End RetrievalClaims.

(** ** The summarization pipeline *)

Module PipelineFacts.
Import Summary Vector Upload Effects Notions BatchFacts IndexFacts.

Lemma keeps_mret {A : Type} (a : A) : keeps_documents (mret a).
Proof. intros w. reflexivity. Qed.

Lemma keeps_ret {A : Type} (a : A) : keeps_documents (ret a).
Proof. intros w. reflexivity. Qed.

Lemma keeps_bind {A B : Type} (m : M A) (f : A -> M B) :
  keeps_documents m -> (forall a, keeps_documents (f a)) -> keeps_documents (m ≫= f).
Proof.
  intros Hm Hf w. unfold mbind, M_bind. specialize (Hm w).
  destruct (m w) as [a w1]. cbn in Hm. rewrite (Hf a w1). exact Hm.
Qed.

Lemma keeps_sleep (d : Q) : keeps_documents (sleep d).
Proof. intros w. reflexivity. Qed.

Lemma keeps_uniform (E : env) (a b : Q) : keeps_documents (uniform E a b).
Proof. intros w. reflexivity. Qed.

Lemma keeps_invoke_text (E : env) (x : string) (t : bool) : keeps_documents (invoke_text E x t).
Proof. intros w. reflexivity. Qed.

Lemma keeps_invoke_image (E : env) (x : pyval) : keeps_documents (invoke_image E x).
Proof. intros w. reflexivity. Qed.

Lemma keeps_read_file (path : string) : keeps_documents (read_file path).
Proof. intros w. reflexivity. Qed.

Lemma keeps_write_file (path : string) (c : gmap string pydict) :
  keeps_documents (write_file path c).
Proof. intros w. reflexivity. Qed.

Lemma keeps_add_vectors (docs : list child_doc) : keeps_documents (add_vectors docs).
Proof. intros w. reflexivity. Qed.

Create HintDb keeps.
#[local] Hint Resolve keeps_mret keeps_ret keeps_sleep keeps_uniform keeps_invoke_text
  keeps_invoke_image keeps_read_file keeps_write_file keeps_add_vectors : keeps.

(** One step of a frame proof: split a bind, or case on what is matched. *)
Ltac keeps_step :=
  match goal with
  | |- keeps_documents (_ ≫= _) => apply keeps_bind; [|intros ?]
  | |- keeps_documents (match ?x with _ => _ end) => destruct x
  | |- keeps_documents _ => solve [auto with keeps]
  end.

Section WithEnv.
Variable E : env.

Lemma keeps_rate_limit_wait (buffer : bool) (attempt : nat) (e : exn) :
  keeps_documents (rate_limit_wait E buffer attempt e).
Proof. unfold rate_limit_wait. repeat keeps_step. Qed.

Lemma keeps_text_attempts (x : string) (t : bool) (n : nat) :
  forall attempt last_error, keeps_documents (text_attempts E x t n attempt last_error).
Proof.
  induction n as [|n IH]; intros attempt last_error; cbn [text_attempts].
  - auto with keeps.
  - repeat keeps_step; try apply keeps_rate_limit_wait; try apply IH.
Qed.

Lemma keeps_summarize_one (element page_number : pyval) :
  keeps_documents (_summarize_one E element page_number).
Proof.
  unfold _summarize_one, _summarize_one_internal.
  repeat keeps_step; apply keeps_text_attempts.
Qed.

Lemma keeps_image_attempts (b64 : pyval) (n : nat) :
  forall attempt last_error, keeps_documents (image_attempts E b64 n attempt last_error).
Proof.
  induction n as [|n IH]; intros attempt last_error; cbn [image_attempts].
  - auto with keeps.
  - repeat keeps_step; try apply keeps_rate_limit_wait; try apply IH.
Qed.

Lemma keeps_summ_img (b64 : pyval) : keeps_documents (_summ_img E b64).
Proof.
  unfold _summ_img, _summ_img_internal.
  repeat keeps_step; apply keeps_image_attempts.
Qed.

Lemma keeps_text_batch (s e : Z) (ppc : float) (inputs : list (pyval * pyval)) :
  forall idx, keeps_documents (text_batch E s e ppc inputs idx).
Proof.
  induction inputs as [|[txt page] rest IH]; intros idx; cbn [text_batch].
  - auto with keeps.
  - repeat keeps_step; try apply keeps_summarize_one; try apply IH.
Qed.

Lemma keeps_image_batch (s e : Z) (ppc : float) (images_b64 : list pyval) :
  forall idx, keeps_documents (image_batch E s e ppc images_b64 idx).
Proof.
  induction images_b64 as [|b64 rest IH]; intros idx; cbn [image_batch].
  - auto with keeps.
  - repeat keeps_step; try apply keeps_summ_img; try apply IH.
Qed.

Lemma keeps_summarize_all (p : parents) : keeps_documents (summarize_all E p).
Proof.
  unfold summarize_all, summarize_images, summarize_texts_and_tables.
  repeat keeps_step; first [apply keeps_image_batch | apply keeps_text_batch].
Qed.

Lemma keeps_build_summaries (p : parents) : keeps_documents (build_summaries E p).
Proof.
  unfold build_summaries. repeat keeps_step. apply keeps_summarize_all.
Qed.

Lemma keeps_index_pairs (doc : string) (ps : list pydict) (ss : list string)
      (index : gmap string pydict) (cds : list child_doc) :
  keeps_documents (index_pairs E doc ps ss index cds).
Proof. intros w. rewrite index_pairs_run. reflexivity. Qed.

Lemma keeps_index_multivector (doc : string) (p : parents) (s : summaries) :
  keeps_documents (index_multivector E doc p s).
Proof.
  unfold index_multivector, _load_parents_index, _save_parents_index, load_json, save_json.
  repeat keeps_step; apply keeps_index_pairs.
Qed.

End WithEnv.

Lemma erased_refl (doc : string) (w : world) : erased doc w w.
Proof. intros st pr. reflexivity. Qed.

Lemma erased_trans (doc : string) (w1 w2 w3 : world) :
  erased doc w1 w2 -> erased doc w2 w3 -> erased doc w1 w3.
Proof. intros H12 H23 st pr. rewrite H23. apply H12. Qed.

Lemma keeps_erases (doc : string) {A : Type} (m : M A) : keeps_documents m -> erases doc m.
Proof. intros H w st pr. rewrite H. reflexivity. Qed.

Lemma update_lookup (doc status : string) (progress : Z) (w : world) :
  w_documents (snd (update_document_status doc status progress w)) !! doc
  = set_status status progress <$> (w_documents w !! doc).
Proof.
  unfold update_document_status.
  destruct (w_documents w !! doc) as [d|] eqn:Hd; cbn.
  - rewrite lookup_insert_eq. reflexivity.
  - exact Hd.
Qed.

Lemma set_status_twice (s1 s2 : string) (p1 p2 : Z) (o : option document) :
  set_status s1 p1 <$> (set_status s2 p2 <$> o) = set_status s1 p1 <$> o.
Proof. destruct o; reflexivity. Qed.

Lemma erases_update (doc status : string) (progress : Z) :
  erases doc (update_document_status doc status progress).
Proof. intros w st pr. rewrite update_lookup. apply set_status_twice. Qed.

Lemma erases_bind (doc : string) {A B : Type} (m : M A) (f : A -> M B) :
  erases doc m -> (forall a, erases doc (f a)) -> erases doc (m ≫= f).
Proof.
  intros Hm Hf w. unfold mbind, M_bind. specialize (Hm w).
  destruct (m w) as [a w1]. cbn in Hm.
  eapply erased_trans; [exact Hm|apply Hf].
Qed.

Lemma erases_report_progress (doc : string) (reports : list Z) :
  erases doc (report_progress doc reports).
Proof.
  induction reports as [|p rest IH]; cbn [report_progress].
  - apply keeps_erases, keeps_ret.
  - apply erases_bind; [apply erases_update|intros _; exact IH].
Qed.

Lemma ends_bind (doc : string) {A : Type} (m : M A) (f : A -> M exit) :
  erases doc m -> (forall a, ends_on_exit doc (f a)) -> ends_on_exit doc (m ≫= f).
Proof.
  intros Hm Hf w. unfold mbind, M_bind. specialize (Hm w).
  destruct (m w) as [a w1]. cbn in Hm. rewrite Hf. apply Hm.
Qed.

Lemma ends_update (doc : string) (x : exit) :
  ends_on_exit doc (update_document_status doc (exit_status x) (exit_progress x);; ret x).
Proof.
  intros w. unfold mbind, M_bind, ret, mret, M_ret.
  pose proof (update_lookup doc (exit_status x) (exit_progress x) w) as H.
  destruct (update_document_status doc (exit_status x) (exit_progress x) w) as [b w1].
  exact H.
Qed.

Lemma ends_mark_failed (doc : string) (x : exit) :
  exit_status x = "failed" -> exit_progress x = 0 ->
  ends_on_exit doc (mark_failed doc;; ret x).
Proof.
  intros Hs Hp w. pose proof (ends_update doc x w) as H. rewrite Hs, Hp in H.
  unfold mark_failed. unfold mbind, M_bind, ret, mret, M_ret in *.
  destruct (update_document_status doc "failed" 0 w) as [b w1]. exact H.
Qed.

(** Whatever exit [process_upload_background] takes, the last thing it
    writes on the row of the document is the status of that exit. *)
Lemma process_upload_ends_on_exit (E : env) (doc : string) :
  ends_on_exit doc (process_upload_background E doc).
Proof.
  unfold process_upload_background.
  apply ends_bind; [apply erases_update|intros _].
  destruct (process_pdf E) as [p|e]; [|now apply ends_mark_failed].
  apply ends_bind; [apply erases_update|intros _].
  apply ends_bind; [apply keeps_erases, keeps_build_summaries|intros [r reports]].
  apply ends_bind; [apply erases_report_progress|intros _].
  destruct r as [s|e]; [|now apply ends_mark_failed].
  apply ends_bind; [apply erases_update|intros _].
  destruct (persist_summaries_error E) as [e|]; [now apply ends_mark_failed|].
  apply ends_bind; [apply erases_update|intros _].
  apply ends_bind; [apply keeps_erases, keeps_index_multivector|intros [u|e]].
  - apply (ends_update doc Completed).
  - now apply ends_mark_failed.
Qed.

End PipelineFacts.

Module BreakerFacts.
Import Summary Vector Upload Effects Notions BatchFacts PipelineFacts.

Lemma counts_add_up (s : summaries) :
  (failed_count s + valid_summaries_count s = total_summaries s)%nat.
Proof.
  unfold failed_count, valid_summaries_count, total_summaries.
  pose proof (List.filter_length text_summary_failed (text_table_summaries s)).
  pose proof (List.filter_length image_summary_failed (image_summaries s)).
  lia.
Qed.

Lemma check_all_failed (s : summaries) :
  (0 < total_summaries s)%nat ->
  failed_count s = total_summaries s ->
  check_failures s = Raise (all_failed_error (total_summaries s)).
Proof.
  intros Htotal Hfailed. pose proof (counts_add_up s) as Hsum.
  unfold check_failures.
  destruct (total_summaries s =? 0)%nat eqn:H0; [apply Nat.eqb_eq in H0; lia|].
  replace (valid_summaries_count s) with 0%nat by lia.
  apply Nat.ltb_lt in Htotal. rewrite Htotal. reflexivity.
Qed.

Lemma check_high_rate (s : summaries) :
  (9 # 10 < failure_rate s)%Q -> exists e, check_failures s = Raise e.
Proof.
  intros Hrate. unfold check_failures.
  destruct (total_summaries s =? 0)%nat eqn:H0.
  - exfalso. apply Nat.eqb_eq in H0. unfold failure_rate in Hrate.
    rewrite H0 in Hrate. cbn in Hrate. discriminate Hrate.
  - destruct ((valid_summaries_count s =? 0)%nat && (0 <? total_summaries s)%nat);
      [eexists; reflexivity|].
    destruct (Qlt_le_dec (9 # 10) (failure_rate s)) as [_|Hle]; [eexists; reflexivity|].
    exfalso. apply (Qlt_not_le _ _ Hrate Hle).
Qed.

Lemma check_low_rate (s : summaries) :
  (failure_rate s <= 1 # 2)%Q -> check_failures s = Ok s.
Proof.
  intros Hrate. pose proof (counts_add_up s) as Hsum. unfold check_failures.
  destruct (total_summaries s =? 0)%nat eqn:H0; [reflexivity|].
  apply Nat.eqb_neq in H0.
  assert (Hvalid : (valid_summaries_count s =? 0)%nat = false).
  { apply Nat.eqb_neq. intros Hv. unfold failure_rate in Hrate.
    destruct (0 <? total_summaries s)%nat eqn:Hpos; [|apply Nat.ltb_ge in Hpos; lia].
    unfold Qle in Hrate. cbn in Hrate. lia. }
  rewrite Hvalid. cbn [andb].
  destruct (Qlt_le_dec (9 # 10) (failure_rate s)) as [Hhigh|_]; [|reflexivity].
  exfalso. apply (Qlt_not_le _ _ Hhigh). eapply Qle_trans; [exact Hrate|discriminate].
Qed.

Lemma rate_tests_agree_up_to_400 :
  forallb (fun total => forallb (rate_tests_agree total) (seq 0 (S total))) (seq 1 400) = true.
Proof. vm_compute. reflexivity. Qed.

Lemma rate_test_on_binary64 (failed total : nat) :
  (0 < total <= 400)%nat -> (failed <= total)%nat ->
  rate_exceeds_binary64 failed total = true
  <-> (9 # 10 < Z.of_nat failed # Pos.of_nat total)%Q.
Proof.
  intros Htotal Hfailed.
  pose proof rate_tests_agree_up_to_400 as H.
  rewrite forallb_forall in H. specialize (H total ltac:(apply in_seq; lia)).
  rewrite forallb_forall in H. specialize (H failed ltac:(apply in_seq; lia)).
  unfold rate_tests_agree in H. apply Bool.eqb_prop in H. rewrite H.
  destruct (Qlt_le_dec (9 # 10) (Z.of_nat failed # Pos.of_nat total)) as [Hlt|Hle].
  - split; [intros _; exact Hlt|reflexivity].
  - split; [discriminate|]. intros Hlt. exfalso. apply (Qlt_not_le _ _ Hlt Hle).
Qed.

Section WithEnv.
Variable E : env.

(** [build_summaries] returns what the check says of the summaries. *)
Lemma build_summaries_result (p : parents) (w : world) :
  fst (fst (build_summaries E p w)) = check_failures (fst (fst (summarize_all E p w))).
Proof.
  unfold build_summaries.
  destruct (length (images_to_summarize E p) + length (texts p ++ tables p) =? 0)%nat eqn:H0.
  - apply Nat.eqb_eq in H0. unfold summarize_all.
    destruct (images_to_summarize E p) as [|i rest]; [|cbn in H0; lia].
    destruct (texts p ++ tables p)%list as [|t ts]; [|cbn in H0; lia].
    reflexivity.
  - unfold ret; unfold mbind, M_bind, mret, M_ret.
    destruct (summarize_all E p w) as [[s reports] w']. reflexivity.
Qed.

(** The exit of the pipeline, from what [build_summaries] and
    [index_multivector] return. *)
Lemma process_upload_exit (doc : string) (p : parents) (w : world) :
  process_pdf E = Ok p ->
  match fst (fst (build_summaries E p (after_parsing doc w))) with
  | Raise e => fst (process_upload_background E doc w) = FailedSummarizing e
  | Ok s =>
      match persist_summaries_error E with
      | Some e => fst (process_upload_background E doc w) = FailedPersisting e
      | None =>
          exists w4,
            fst (process_upload_background E doc w)
            = match fst (index_multivector E doc p s w4) with
              | Ok _ => Completed
              | Raise e => FailedIndexing e
              end
      end
  end.
Proof.
  unfold after_parsing, process_upload_background, mark_failed.
  run_bind.
  destruct (process_pdf E) as [p'|e']; intros Hpdf; [|discriminate].
  injection Hpdf as Hp. subst p'.
  destruct (update_document_status doc "processing" 0 w) as [b0 w0]. cbn [fst snd].
  destruct (update_document_status doc "processing" 10 w0) as [b1 w1]. cbn [fst snd].
  destruct (build_summaries E p w1) as [[r reports] w2]. cbn [fst snd].
  destruct (report_progress doc reports w2) as [u w3].
  destruct r as [s|e].
  - destruct (update_document_status doc "processing" 80 w3) as [b2 w4].
    destruct (persist_summaries_error E) as [e|].
    + destruct (update_document_status doc "failed" 0 w4). cbn. reflexivity.
    + destruct (update_document_status doc "processing" 90 w4) as [b3 w5].
      cbn. exists w5. destruct (index_multivector E doc p s w5) as [[v|e] w6]; cbn [fst].
      * destruct (update_document_status doc "completed" 100 w6). reflexivity.
      * destruct (update_document_status doc "failed" 0 w6). reflexivity.
  - destruct (update_document_status doc "failed" 0 w3). cbn. reflexivity.
Qed.

(** What [_summarize_one] returns when the provider call of the item
    raises. *)
Lemma summarize_one_on_error (element : string) (page_number : pyval) (w w' : world)
      (e : exn) :
  is_blank element = false ->
  _summarize_one_internal E (element_truncated element) (is_title_page element page_number) w
  = (Raise e, w') ->
  _summarize_one E (PStr element) page_number w
  = (Ok (if is_api_key_error e then "" else fallback_text element), w').
Proof.
  intros Hblank Hraise. unfold _summarize_one. rewrite Hblank.
  run_bind. rewrite Hraise.
  destruct (is_api_key_error e); [reflexivity|]. destruct (is_rate_limit e); reflexivity.
Qed.

Lemma summ_img_on_error (b64 : pyval) (w w' : world) (e : exn) :
  _summ_img_internal E b64 w = (Raise e, w') ->
  _summ_img E b64 w
  = (if is_api_key_error e then "[ERROR] API key invalid"
     else if is_rate_limit e then "[ERROR] Rate limit exceeded"
          else "[ERROR] image summarization failed", w').
Proof.
  intros Hraise. unfold _summ_img.
  run_bind. rewrite Hraise.
  destruct (is_api_key_error e); [reflexivity|]. destruct (is_rate_limit e); reflexivity.
Qed.

End WithEnv.

End BreakerFacts.

Section PipelineClaims.
Import Summary Vector Upload Effects Notions BatchFacts PipelineFacts BreakerFacts Examples.

(** C2.  Let [s] be the summaries of the batch.  If there is at least one
    summary and every one is classified as failed, [build_summaries] raises
    and the document is marked failed; if the failed fraction exceeds 0.9,
    likewise; if the failed fraction is at most 0.5, [build_summaries]
    returns the summaries and, once they are persisted, the pipeline runs
    [index_multivector]: the document ends completed, at 100, when the
    indexing returns, and failed when it raises. *)
Theorem circuit_breaker (E : env) (doc : string) (p : parents) (w : world) (row : document) :
  process_pdf E = Ok p ->
  w_documents w !! doc = Some row ->
  let s := fst (fst (summarize_all E p (after_parsing doc w))) in
  let built := fst (fst (build_summaries E p (after_parsing doc w))) in
  let run := process_upload_background E doc w in
  ((0 < total_summaries s)%nat ->
   failed_count s = total_summaries s ->
   built = Raise (all_failed_error (total_summaries s))
   /\ fst run = FailedSummarizing (all_failed_error (total_summaries s))
   /\ w_documents (snd run) !! doc = Some (set_status "failed" 0 row))
  /\ ((9 # 10 < failure_rate s)%Q ->
      exists e, built = Raise e
                /\ fst run = FailedSummarizing e
                /\ w_documents (snd run) !! doc = Some (set_status "failed" 0 row))
  /\ ((failure_rate s <= 1 # 2)%Q ->
      built = Ok s
      /\ (persist_summaries_error E = None ->
          exists w4,
            (forall e, fst (index_multivector E doc p s w4) = Raise e ->
                       fst run = FailedIndexing e
                       /\ w_documents (snd run) !! doc = Some (set_status "failed" 0 row))
            /\ (fst (index_multivector E doc p s w4) = Ok tt ->
                fst run = Completed
                /\ w_documents (snd run) !! doc = Some (set_status "completed" 100 row)))).
Proof.
  intros Hpdf Hrow. cbv zeta.
  pose proof (process_upload_ends_on_exit E doc w) as Hend. rewrite Hrow in Hend.
  pose proof (process_upload_exit E doc p w Hpdf) as Hexit.
  rewrite build_summaries_result in *.
  split; [|split].
  - intros Htotal Hfailed.
    rewrite (check_all_failed _ Htotal Hfailed) in *.
    split; [reflexivity|]. split; [exact Hexit|]. rewrite Hend, Hexit. reflexivity.
  - intros Hrate. destruct (check_high_rate _ Hrate) as [e He]. rewrite He in *.
    exists e. split; [reflexivity|]. split; [exact Hexit|]. rewrite Hend, Hexit. reflexivity.
  - intros Hrate. rewrite (check_low_rate _ Hrate) in *. split; [reflexivity|].
    intros Hpersist. rewrite Hpersist in Hexit. destruct Hexit as [w4 Hexit].
    exists w4. split.
    + intros e He. rewrite He in Hexit. split; [exact Hexit|].
      rewrite Hend, Hexit. reflexivity.
    + intros Hok. rewrite Hok in Hexit. split; [exact Hexit|].
      rewrite Hend, Hexit. reflexivity.
Qed.

Lemma circuit_breaker_witness :
  (let E := with_pdf two_texts (with_text_llm always_refused quiet) in
   fst (process_upload_background E "doc-1" (uploaded "doc-1"))
   = FailedSummarizing (all_failed_error 2)
   /\ w_documents (snd (process_upload_background E "doc-1" (uploaded "doc-1"))) !! "doc-1"
      = Some (set_status "failed" 0 (first_row "doc-1")))
  /\ (let E := with_pdf two_texts (with_text_llm refused_once quiet) in
      fst (fst (build_summaries E two_texts (after_parsing "doc-1" (uploaded "doc-1"))))
      = Ok (Summaries [""; "The chunk describes the attention mechanism."] [])).
Proof.
  split.
  - cbv zeta.
    apply (proj1 (circuit_breaker (with_pdf two_texts (with_text_llm always_refused quiet))
                    "doc-1" two_texts (uploaded "doc-1") (first_row "doc-1")
                    eq_refl ltac:(vm_compute; reflexivity))).
    + vm_compute. lia.
    + vm_compute. reflexivity.
  - cbv zeta.
    apply (proj2 (proj2 (circuit_breaker
                           (with_pdf two_texts (with_text_llm refused_once quiet))
                           "doc-1" two_texts (uploaded "doc-1") (first_row "doc-1")
                           eq_refl ltac:(vm_compute; reflexivity)))).
    vm_compute. intros H; discriminate H.
Defined.

(** C3, as amended.  When the provider call of a text or table item raises
    [e], the summary of the item is the empty string if [e] is a credential
    error and the truncated original text otherwise; for an image it is an
    "[ERROR] ..." tag in every case.  Either way the batch goes on: it
    returns one summary per item.  The document is marked failed during
    summarization only when [build_summaries] raises, which it does from the
    check of the whole batch. *)
Theorem item_error_handling (E : env) :
  (forall (element : string) (page_number : pyval) (w w' : world) (e : exn),
      is_blank element = false ->
      _summarize_one_internal E (element_truncated element)
                              (is_title_page element page_number) w = (Raise e, w') ->
      _summarize_one E (PStr element) page_number w
      = (Ok (if is_api_key_error e then "" else fallback_text element), w'))
  /\ (forall (b64 : pyval) (w w' : world) (e : exn),
         _summ_img_internal E b64 w = (Raise e, w') ->
         _summ_img E b64 w
         = (if is_api_key_error e then "[ERROR] API key invalid"
            else if is_rate_limit e then "[ERROR] Rate limit exceeded"
                 else "[ERROR] image summarization failed", w'))
  /\ (forall (items : list pydict) (start_progress end_progress : Z) (w : world),
         length (fst (fst (summarize_texts_and_tables E items start_progress end_progress w)))
         = length items)
  /\ (forall (images_b64 : list pyval) (start_progress end_progress : Z) (w : world),
         length (fst (fst (summarize_images E images_b64 start_progress end_progress w)))
         = length images_b64)
  /\ (forall (doc : string) (p : parents) (w : world) (e : exn),
         process_pdf E = Ok p ->
         fst (process_upload_background E doc w) = FailedSummarizing e ->
         check_failures (fst (fst (summarize_all E p (after_parsing doc w)))) = Raise e).
Proof.
  split; [|split; [|split; [|split]]].
  - apply summarize_one_on_error.
  - apply summ_img_on_error.
  - apply summarize_texts_and_tables_length.
  - apply summarize_images_length.
  - intros doc p w e Hpdf Hexit.
    pose proof (process_upload_exit E doc p w Hpdf) as H.
    rewrite build_summaries_result in H.
    destruct (check_failures (fst (fst (summarize_all E p (after_parsing doc w)))))
      as [s|e'].
    + destruct (persist_summaries_error E) as [e'|].
      * rewrite H in Hexit. discriminate Hexit.
      * destruct H as [w4 H]. rewrite H in Hexit.
        destruct (fst (index_multivector E doc p s w4)); discriminate Hexit.
    + rewrite H in Hexit. injection Hexit as ->. reflexivity.
Qed.

Lemma item_error_handling_witness :
  _summarize_one (with_text_llm refused_once quiet) (PStr "first chunk of text") (PInt 2)
                 initial_world
  = (Ok "", World 1 0 0 0 0 [] ∅ [] ∅ []).
Proof.
  apply (proj1 (item_error_handling (with_text_llm refused_once quiet))
               "first chunk of text" (PInt 2) initial_world (World 1 0 0 0 0 [] ∅ [] ∅ [])
               api_key_error).
  - vm_compute. reflexivity.
  - vm_compute. reflexivity.
Defined.

(** C3 as stated fails: the provider refuses the first of two texts for
    its API key, and the document is not aborted.  The item gets the empty
    summary, the provider is called for the second item, the check of the
    batch passes at one failure out of two, and the document ends
    completed. *)
Lemma credential_error_does_not_abort :
  let E := with_pdf two_texts (with_text_llm refused_once quiet) in
  let run := process_upload_background E "doc-1" (uploaded "doc-1") in
  text_llm E 0 "first chunk of text" false = Raise api_key_error
  /\ is_api_key_error api_key_error = true
  /\ fst (fst (build_summaries E two_texts (after_parsing "doc-1" (uploaded "doc-1"))))
     = Ok (Summaries [""; "The chunk describes the attention mechanism."] [])
  /\ w_text_calls (snd run) = 2%nat
  /\ fst run = Completed
  /\ w_documents (snd run) !! "doc-1" = Some (set_status "completed" 100 (first_row "doc-1"))
  /\ (forall e, fst run <> FailedSummarizing e).
Proof.
  cbv zeta. repeat split; try (vm_compute; reflexivity).
  intros e. vm_compute. intros H; discriminate H.
Qed.

(** An image refused for its API key is tagged, not summarized by a
    truncated text, and the batch goes on as well. *)
Example image_error_is_tagged :
  fst (fst (summarize_images
              (with_image_llm (fun n _ => match n with
                                          | O => Raise api_key_error
                                          | S O => Raise (plain_exn "TimeoutError" "timed out")
                                          | _ => Ok "A bar chart of BLEU scores."
                                          end) quiet)
              [PStr "aW1nMQ=="; PStr "aW1nMg=="; PStr "aW1nMw=="] 10 40 initial_world))
  = ["[ERROR] API key invalid"; "[ERROR] image summarization failed";
     "A bar chart of BLEU scores."].
Proof. vm_compute. reflexivity. Qed.

End PipelineClaims.

(** ** The retry wrapper as a whole *)

Module WrapperFacts.
Import Regex RateLimit TraceNotions.

Section Wrapper.
Context {T : Type}.
Variable func : nat -> outcome T.
Variables (max_retries : Z) (default_wait backoff_multiplier : Q).

Lemma retry_loop_schedule (n : nat) :
  forall (attempt : nat) (last_error : option exn),
    Z.of_nat (n + attempt) = max_retries + 1 ->
    (0 < n)%nat ->
    exists waits,
      snd (retry_loop func max_retries default_wait backoff_multiplier n attempt last_error)
      = schedule attempt waits
      /\ (length waits < n)%nat.
Proof.
  induction n as [|n IH]; intros attempt last_error Hn Hpos; [lia|].
  cbn [retry_loop].
  destruct (func attempt) as [v|e]; [exists []; split; [reflexivity|cbn; lia]|].
  destruct (is_rate_limit_error e); [|exists []; split; [reflexivity|cbn; lia]].
  destruct (Z.of_nat attempt <? max_retries) eqn:Hlt;
    [|exists []; split; [reflexivity|cbn; lia]].
  apply Z.ltb_lt in Hlt.
  destruct (IH (S attempt) (Some e) ltac:(lia) ltac:(lia)) as (waits & Htr & Hlen).
  destruct (retry_loop func max_retries default_wait backoff_multiplier n (S attempt) (Some e))
    as [r tr].
  cbn [snd] in *. subst tr.
  exists (computed_wait default_wait backoff_multiplier attempt e :: waits).
  split; [reflexivity|cbn; lia].
Qed.

(** The attempts before the first success, all refused for the rate. *)
Lemma retry_loop_first_success (errs : nat -> exn) (v : T) (m : nat) :
  forall (n attempt : nat) (last_error : option exn),
    (m < n)%nat ->
    Z.of_nat (attempt + m) <= max_retries ->
    (forall j, (j < m)%nat ->
               func (attempt + j)%nat = Raise (errs (attempt + j)%nat)
               /\ is_rate_limit_error (errs (attempt + j)%nat) = true) ->
    func (attempt + m)%nat = Ok v ->
    retry_loop func max_retries default_wait backoff_multiplier n attempt last_error
    = (Ok v, schedule attempt
               (map (fun a => computed_wait default_wait backoff_multiplier a (errs a))
                    (seq attempt m))).
Proof.
  induction m as [|m IH]; intros n attempt last_error Hn Hmax Herr Hok.
  - destruct n as [|n]; [lia|]. rewrite Nat.add_0_r in Hok.
    cbn [retry_loop]. rewrite Hok. reflexivity.
  - destruct n as [|n]; [lia|].
    destruct (Herr 0%nat ltac:(lia)) as [Hf He]. rewrite Nat.add_0_r in Hf, He.
    cbn [retry_loop]. rewrite Hf, He.
    assert (Hlt : (Z.of_nat attempt <? max_retries) = true) by (apply Z.ltb_lt; lia).
    rewrite Hlt, (IH n (S attempt) (Some (errs attempt))); [reflexivity|lia|lia| |].
    + intros j Hj. specialize (Herr (S j) ltac:(lia)).
      replace (S attempt + j)%nat with (attempt + S j)%nat by lia. exact Herr.
    + replace (S attempt + m)%nat with (attempt + S m)%nat by lia. exact Hok.
Qed.

(** Every attempt refused for the rate, down to the last one allowed. *)
Lemma retry_loop_exhausted (errs : nat -> exn) (m : nat) :
  forall (n attempt : nat) (last_error : option exn),
    (m < n)%nat ->
    Z.of_nat (attempt + m) = max_retries ->
    (forall j, (j <= m)%nat ->
               func (attempt + j)%nat = Raise (errs (attempt + j)%nat)
               /\ is_rate_limit_error (errs (attempt + j)%nat) = true) ->
    retry_loop func max_retries default_wait backoff_multiplier n attempt last_error
    = (Raise (errs (attempt + m)%nat),
       schedule attempt
         (map (fun a => computed_wait default_wait backoff_multiplier a (errs a))
              (seq attempt m))).
Proof.
  induction m as [|m IH]; intros n attempt last_error Hn Hmax Herr.
  - destruct n as [|n]; [lia|].
    destruct (Herr 0%nat ltac:(lia)) as [Hf He]. rewrite Nat.add_0_r in *.
    cbn [retry_loop]. rewrite Hf, He.
    assert (Hlt : (Z.of_nat attempt <? max_retries) = false) by (apply Z.ltb_ge; lia).
    rewrite Hlt. reflexivity.
  - destruct n as [|n]; [lia|].
    destruct (Herr 0%nat ltac:(lia)) as [Hf He]. rewrite Nat.add_0_r in Hf, He.
    cbn [retry_loop]. rewrite Hf, He.
    assert (Hlt : (Z.of_nat attempt <? max_retries) = true) by (apply Z.ltb_lt; lia).
    rewrite Hlt, (IH n (S attempt) (Some (errs attempt))); [|lia|lia|].
    + replace (S attempt + m)%nat with (attempt + S m)%nat by lia. reflexivity.
    + intros j Hj. specialize (Herr (S j) ltac:(lia)).
      replace (S attempt + j)%nat with (attempt + S j)%nat by lia. exact Herr.
Qed.

End Wrapper.
End WrapperFacts.

Section WrapperBudget.
Import Regex RateLimit TraceNotions WrapperFacts.

(** With [max_retries >= 0] the wrapper calls the function at most
    [max_retries + 1] times, the attempts numbered in order from 0, with
    exactly one sleep between two consecutive calls and none after the last
    call. *)
Theorem wrapper_call_budget {T : Type} (func : nat -> outcome T)
        (max_retries : Z) (default_wait backoff_multiplier : Q) :
  0 <= max_retries ->
  exists waits,
    snd (with_rate_limit_retry func max_retries default_wait backoff_multiplier)
    = schedule 0 waits
    /\ sleeps (schedule 0 waits) = waits
    /\ length (List.filter is_call (schedule 0 waits)) = S (length waits)
    /\ Z.of_nat (length waits) <= max_retries.
Proof.
  intros Hmax. unfold with_rate_limit_retry.
  destruct (retry_loop_schedule func max_retries default_wait backoff_multiplier
              (Z.to_nat (max_retries + 1)) 0 None ltac:(lia) ltac:(lia))
    as (waits & Htr & Hlen).
  exists waits. split; [exact Htr|].
  assert (Hshape : forall a, sleeps (schedule a waits) = waits
                             /\ length (List.filter is_call (schedule a waits))
                                = S (length waits)).
  { clear. induction waits as [|w waits IH]; intros a; [split; reflexivity|].
    destruct (IH (S a)) as [H1 H2]. cbn [schedule]. split.
    - unfold sleeps in *. cbn. now rewrite H1.
    - cbn. now rewrite H2. }
  destruct (Hshape 0%nat) as [H1 H2]. repeat split; [exact H1|exact H2|lia].
Qed.

Lemma wrapper_call_budget_witness :
  exists waits,
    snd (with_rate_limit_retry
           (fun n => match n with
                     | O => Raise (plain_exn "Exception" "429 Too Many Requests")
                     | _ => Ok "answer"
                     end) 3 60 (3 # 2))
    = schedule 0 waits
    /\ sleeps (schedule 0 waits) = waits
    /\ length (List.filter is_call (schedule 0 waits)) = S (length waits)
    /\ Z.of_nat (length waits) <= 3.
Proof.
  apply (wrapper_call_budget
           (fun n => match n with
                     | O => Raise (plain_exn "Exception" "429 Too Many Requests")
                     | _ => Ok "answer"
                     end) 3 60 (3 # 2)).
  lia.
Defined.

(** With a negative [max_retries] the loop [range(max_retries + 1)] is empty:
    the function is never called and the wrapper raises the [RuntimeError] of
    its last line. *)
Theorem wrapper_negative_budget {T : Type} (func : nat -> outcome T)
        (max_retries : Z) (default_wait backoff_multiplier : Q) :
  max_retries < 0 ->
  with_rate_limit_retry func max_retries default_wait backoff_multiplier
  = (Raise (plain_exn "RuntimeError" "Unexpected error in rate limit retry logic"), []).
Proof.
  intros Hneg. unfold with_rate_limit_retry.
  replace (Z.to_nat (max_retries + 1)) with 0%nat by lia. reflexivity.
Qed.

Lemma wrapper_negative_budget_witness :
  with_rate_limit_retry (fun _ => Ok "answer") (-1) 60 (3 # 2)
  = (Raise (plain_exn "RuntimeError" "Unexpected error in rate limit retry logic"), []).
Proof. apply wrapper_negative_budget. lia. Defined.





End WrapperBudget.

(** ** Letter case in the wait hint, and the marks of a rate limit *)

Module CaseFacts.
Import Regex RateLimit CaseNotions.

Ltac by_cases_on_ascii a := destruct a as [[] [] [] [] [] [] [] []]; reflexivity.

Lemma lower_ascii_idem (a : ascii) : PyStr.lower_ascii (PyStr.lower_ascii a) = PyStr.lower_ascii a.
Proof. by_cases_on_ascii a. Qed.

Lemma is_space_lower (a : ascii) : PyStr.is_space (PyStr.lower_ascii a) = PyStr.is_space a.
Proof. by_cases_on_ascii a. Qed.

Lemma is_digit_lower (a : ascii) : PyStr.is_digit (PyStr.lower_ascii a) = PyStr.is_digit a.
Proof. by_cases_on_ascii a. Qed.

Lemma newline_lower (a : ascii) :
  Ascii.eqb (PyStr.lower_ascii a) "010"%char = Ascii.eqb a "010"%char.
Proof. by_cases_on_ascii a. Qed.

Lemma point_lower (a : ascii) :
  Ascii.eqb (PyStr.lower_ascii a) "."%char = Ascii.eqb a "."%char.
Proof. by_cases_on_ascii a. Qed.

Lemma digit_lower_same (a : ascii) : PyStr.is_digit a = true -> PyStr.lower_ascii a = a.
Proof. destruct a as [[] [] [] [] [] [] [] []]; intros H; try reflexivity; discriminate H. Qed.

(** Lowering a character changes it only from an upper-case letter to a
    letter. *)
Lemma lower_ascii_cases (a : ascii) :
  PyStr.lower_ascii a = a \/ (is_letter a = true /\ is_letter (PyStr.lower_ascii a) = true).
Proof.
  destruct a as [[] [] [] [] [] [] [] []];
    first [left; reflexivity | right; split; reflexivity].
Qed.

Lemma not_letter_lower (x a : ascii) :
  is_letter x = false -> Ascii.eqb x (PyStr.lower_ascii a) = Ascii.eqb x a.
Proof.
  intros Hx. destruct (lower_ascii_cases a) as [Heq|[Ha Hl]]; [now rewrite Heq|].
  transitivity false.
  - apply Ascii.eqb_neq. intros ->. congruence.
  - symmetry. apply Ascii.eqb_neq. intros ->. congruence.
Qed.

Lemma cls_match_lower (c : cls) (a : ascii) :
  caseless_cls c = true -> cls_match c (PyStr.lower_ascii a) = cls_match c a.
Proof.
  destruct c as [x| | | |x|]; cbn; intros Hc.
  - now rewrite lower_ascii_idem.
  - apply is_space_lower.
  - apply is_digit_lower.
  - now rewrite is_digit_lower.
  - apply negb_true_iff in Hc. now rewrite not_letter_lower.
  - now rewrite newline_lower.
Qed.

Lemma lower_idem (s : string) : PyStr.lower (PyStr.lower s) = PyStr.lower s.
Proof. induction s as [|c s IH]; cbn; [reflexivity|]. now rewrite lower_ascii_idem, IH. Qed.

Lemma push_lower (a : ascii) (cap : capture) :
  push (PyStr.lower_ascii a) (lower_capture cap) = lower_capture (push a cap).
Proof. destruct cap; reflexivity. Qed.

Lemma rev_onto_lower (s acc : string) :
  rev_onto (PyStr.lower s) (PyStr.lower acc) = PyStr.lower (rev_onto s acc).
Proof.
  revert acc. induction s as [|c s IH]; intros acc; cbn; [reflexivity|].
  apply (IH (String c acc)).
Qed.

Lemma close_lower (cap : capture) : close (lower_capture cap) = lower_capture (close cap).
Proof.
  destruct cap as [|taken|text]; cbn; try reflexivity.
  f_equal. apply (rev_onto_lower taken EmptyString).
Qed.

Section Continuations.
Context {R R' : Type}.
Variable f : R -> R'.

Lemma star_lower (c : cls) (s : string) :
  caseless_cls c = true ->
  forall cap k k', follows f k k' ->
    star c (PyStr.lower s) (lower_capture cap) k' = option_map f (star c s cap k).
Proof.
  intros Hc. induction s as [|a s IH]; intros cap k k' Hk.
  - apply (Hk EmptyString).
  - cbn [PyStr.lower star]. rewrite (cls_match_lower c a Hc).
    destruct (cls_match c a); [|apply (Hk (String a s))].
    rewrite push_lower, (IH (push a cap) k k' Hk).
    destruct (star c s (push a cap) k); [reflexivity|apply (Hk (String a s))].
Qed.

Lemma re_match_lower (r : re) :
  caseless r = true ->
  forall s cap k k', follows f k k' ->
    re_match r (PyStr.lower s) (lower_capture cap) k' = option_map f (re_match r s cap k).
Proof.
  induction r as [|c|r1 IH1 r2 IH2|c|c|r1 IH1|r1 IH1|l]; cbn [caseless re_match];
    intros Hr s cap k k' Hk.
  - apply Hk.
  - destruct s as [|a s]; [reflexivity|]. cbn [PyStr.lower].
    rewrite (cls_match_lower c a Hr). destruct (cls_match c a); [|reflexivity].
    rewrite push_lower. apply Hk.
  - apply andb_prop in Hr as [Hr1 Hr2]. apply (IH1 Hr1).
    intros s' cap'. apply (IH2 Hr2). exact Hk.
  - apply star_lower; assumption.
  - destruct s as [|a s]; [reflexivity|]. cbn [PyStr.lower].
    rewrite (cls_match_lower c a Hr). destruct (cls_match c a); [|reflexivity].
    rewrite push_lower. apply star_lower; assumption.
  - rewrite (IH1 Hr s cap k k' Hk).
    destruct (re_match r1 s cap k); [reflexivity|apply Hk].
  - change (Reading EmptyString) with (lower_capture (Reading EmptyString)).
    apply (IH1 Hr). intros s' cap'. rewrite close_lower. apply Hk.
  - rewrite lower_idem.
    destruct (PyStr.startswith (PyStr.lower s) (PyStr.lower l)); [reflexivity|apply Hk].
Qed.

End Continuations.

Lemma match_here_lower (r : re) (s : string) :
  caseless r = true ->
  match_here r (PyStr.lower s) = option_map (option_map PyStr.lower) (match_here r s).
Proof.
  intros Hr. unfold match_here.
  apply (re_match_lower (option_map PyStr.lower) r Hr s NoGroup).
  intros s' cap'. destruct cap'; reflexivity.
Qed.

(** A search on the lowered text finds what the search on the text finds,
    lowered. *)
Lemma search_lower (r : re) (s : string) :
  caseless r = true ->
  search r (PyStr.lower s) = option_map (option_map PyStr.lower) (search r s).
Proof.
  intros Hr. induction s as [|a s IH].
  - pose proof (match_here_lower r "" Hr) as Hm. cbn [PyStr.lower search] in *.
    destruct (match_here r "") as [[g|]|]; cbn in *; congruence.
  - cbn [search]. pose proof (match_here_lower r (String a s) Hr) as Hm.
    cbn [PyStr.lower] in *. cbn [search]. rewrite Hm.
    destruct (match_here r (String a s)); [reflexivity|exact IH].
Qed.

Lemma digits_value_lower (s : string) :
  forall acc, digits_value (PyStr.lower s) acc = digits_value s acc.
Proof.
  induction s as [|c s IH]; intros acc; cbn; [reflexivity|].
  rewrite is_digit_lower. destruct (PyStr.is_digit c) eqn:Hd; [|reflexivity].
  rewrite (digit_lower_same c Hd). apply IH.
Qed.

Lemma length_lower (s : string) : String.length (PyStr.lower s) = String.length s.
Proof. induction s as [|c s IH]; cbn; [reflexivity|]. now rewrite IH. Qed.

Lemma split_point_lower (s : string) :
  split_point (PyStr.lower s)
  = (PyStr.lower (fst (split_point s)), option_map PyStr.lower (snd (split_point s))).
Proof.
  induction s as [|c s IH]; cbn; [reflexivity|].
  rewrite point_lower. destruct (Ascii.eqb c "."%char); [reflexivity|].
  rewrite IH. destruct (split_point s) as [a b]. reflexivity.
Qed.

Lemma float_of_string_lower (s : string) :
  float_of_string (PyStr.lower s) = float_of_string s.
Proof.
  unfold float_of_string. rewrite split_point_lower.
  destruct (split_point s) as [ip fp]. cbn [fst snd]. cbv beta iota.
  destruct ip as [|c ip]; [reflexivity|].
  pose proof (digits_value_lower (String c ip) 0) as Hi. cbn [PyStr.lower] in *.
  rewrite Hi. destruct (digits_value (String c ip) 0) as [i|]; [|reflexivity].
  destruct fp as [[|d fp]|]; [reflexivity| |reflexivity].
  pose proof (digits_value_lower (String d fp) 0) as Hf.
  pose proof (length_lower (String d fp)) as Hl.
  cbn [option_map PyStr.lower] in *. rewrite Hf, Hl. reflexivity.
Qed.

Lemma try_pattern_lower (lo : Q) (r : re) (text : string) :
  caseless r = true -> try_pattern lo r (PyStr.lower text) = try_pattern lo r text.
Proof.
  intros Hr. unfold try_pattern, search_group. rewrite (search_lower r text Hr).
  destruct (search r text) as [[g|]|]; cbn; [|reflexivity..].
  now rewrite float_of_string_lower.
Qed.

Lemma try_patterns_lower (lo : Q) (ps : list re) (text : string) :
  forallb caseless ps = true ->
  try_patterns lo ps (PyStr.lower text) = try_patterns lo ps text.
Proof.
  induction ps as [|r ps IH]; cbn; [reflexivity|]. intros H.
  apply andb_prop in H as [Hr Hps]. now rewrite (try_pattern_lower lo r text Hr), IH.
Qed.

Lemma patterns_caseless : forallb caseless (retry_delay_pattern :: patterns) = true.
Proof. vm_compute. reflexivity. Qed.

Lemma check_one_same (a b : exn) :
  PyStr.lower (exn_str a) = PyStr.lower (exn_str b) -> check_one a = check_one b.
Proof.
  intros H. pose proof patterns_caseless as Hc. cbn [forallb] in Hc.
  apply andb_prop in Hc as [Hd Hps]. unfold check_one.
  rewrite <- (try_pattern_lower _ _ (exn_str a) Hd), <- (try_patterns_lower _ _ (exn_str a) Hps).
  rewrite <- (try_pattern_lower _ _ (exn_str b) Hd), <- (try_patterns_lower _ _ (exn_str b) Hps).
  now rewrite H.
Qed.

Lemma check_all_same (l : list exn) :
  forall l',
    map (fun x => PyStr.lower (exn_str x)) l = map (fun x => PyStr.lower (exn_str x)) l' ->
    check_all l = check_all l'.
Proof.
  induction l as [|a l IH]; intros [|b l'] H; try discriminate H; [reflexivity|].
  cbn in H. injection H as Hab Hl. cbn [check_all].
  now rewrite (check_one_same a b Hab), (IH l' Hl).
Qed.

End CaseFacts.

Module DetectionFacts.
Import Regex RateLimit CaseNotions CaseFacts.

Lemma startswith_nil (s : string) : PyStr.startswith s "" = true.
Proof. destruct s; reflexivity. Qed.

Lemma startswith_app (s p t : string) :
  PyStr.startswith s p = true -> PyStr.startswith (s ++ t) p = true.
Proof.
  revert s. induction p as [|a p IH]; intros s H; [apply startswith_nil|].
  destruct s as [|b s]; [discriminate H|].
  change (String b s ++ t) with (String b (s ++ t)). cbn [PyStr.startswith] in *.
  destruct (Ascii.eqb a b); [apply IH; exact H|discriminate H].
Qed.

Lemma contains_unfold (sub s : string) :
  PyStr.contains sub s
  = if PyStr.startswith s sub then true
    else match s with
         | EmptyString => false
         | String _ s' => PyStr.contains sub s'
         end.
Proof. destruct s; reflexivity. Qed.

Lemma contains_app_l (sub a b : string) :
  PyStr.contains sub a = true -> PyStr.contains sub (a ++ b) = true.
Proof.
  induction a as [|c a IH]; intros H.
  - rewrite contains_unfold in H. destruct sub; [|discriminate H].
    rewrite contains_unfold. now rewrite startswith_nil.
  - rewrite contains_unfold in H.
    change (String c a ++ b) with (String c (a ++ b)). rewrite contains_unfold.
    destruct (PyStr.startswith (String c a) sub) eqn:Hs.
    + change (String c (a ++ b)) with (String c a ++ b). now rewrite (startswith_app _ _ b Hs).
    + rewrite (IH H). now destruct (PyStr.startswith (String c (a ++ b)) sub).
Qed.

Lemma contains_app_r (sub a b : string) :
  PyStr.contains sub b = true -> PyStr.contains sub (a ++ b) = true.
Proof.
  intros H. induction a as [|c a IH]; [exact H|].
  change (String c a ++ b) with (String c (a ++ b)). rewrite contains_unfold, IH.
  now destruct (PyStr.startswith (String c (a ++ b)) sub).
Qed.

(** A word found in one of the joined texts is found in the join. *)
Lemma contains_join (sub sep x : string) (l : list string) :
  In x l -> PyStr.contains sub x = true -> PyStr.contains sub (PyStr.join sep l) = true.
Proof.
  intros Hin Hx. induction l as [|y l IH]; [destruct Hin|].
  destruct l as [|z l].
  - destruct Hin as [->|[]]. exact Hx.
  - change (PyStr.join sep (y :: z :: l)) with (y ++ sep ++ PyStr.join sep (z :: l)).
    destruct Hin as [->|Hin].
    + now apply contains_app_l.
    + apply contains_app_r, contains_app_r, IH. exact Hin.
Qed.

(** A literal matches at the head of a text exactly when the lowered text
    starts with the lowered literal. *)
Lemma re_match_lit {R : Type} (p : string) :
  forall (s : string) (k : string -> capture -> option R),
    PyStr.startswith (PyStr.lower s) (PyStr.lower p) = true ->
    re_match (lit p) s NoGroup k = k (PyStr.slice_from (String.length p) s) NoGroup.
Proof.
  induction p as [|a p IH]; intros s k H.
  - reflexivity.
  - destruct s as [|b s]; [discriminate H|]. cbn in *.
    destruct (Ascii.eqb (PyStr.lower_ascii a) (PyStr.lower_ascii b)); [|discriminate H].
    apply IH. exact H.
Qed.

Lemma matches_lit (p s : string) :
  PyStr.contains (PyStr.lower p) (PyStr.lower s) = true -> matches (lit p) s = true.
Proof.
  unfold matches. induction s as [|c s IH]; intros H.
  - rewrite contains_unfold in H. cbn [search]. unfold match_here.
    destruct (PyStr.startswith (PyStr.lower "") (PyStr.lower p)) eqn:Hs; [|discriminate H].
    now rewrite (re_match_lit p "" _ Hs).
  - rewrite contains_unfold in H. cbn [search]. unfold match_here.
    destruct (PyStr.startswith (PyStr.lower (String c s)) (PyStr.lower p)) eqn:Hs.
    + now rewrite (re_match_lit p _ _ Hs).
    + destruct (re_match (lit p) (String c s) NoGroup _); [reflexivity|].
      apply IH. exact H.
Qed.

Lemma lower_app (a b : string) : PyStr.lower (a ++ b) = PyStr.lower a ++ PyStr.lower b.
Proof.
  induction a as [|c a IH]; [reflexivity|].
  change (String c a ++ b) with (String c (a ++ b)). cbn [PyStr.lower]. now rewrite IH.
Qed.

Lemma lower_join_lowered (sep : string) (l : list string) :
  PyStr.lower sep = sep ->
  PyStr.lower (PyStr.join sep (map PyStr.lower l)) = PyStr.join sep (map PyStr.lower l).
Proof.
  intros Hsep. induction l as [|x l IH]; [reflexivity|].
  destruct l as [|y l]; [apply lower_idem|].
  change (PyStr.join sep (map PyStr.lower (x :: y :: l)))
    with (PyStr.lower x ++ sep ++ PyStr.join sep (map PyStr.lower (y :: l))).
  now rewrite !lower_app, lower_idem, Hsep, IH.
Qed.

Lemma startswith_lower (s p : string) :
  PyStr.startswith s p = true -> PyStr.startswith (PyStr.lower s) (PyStr.lower p) = true.
Proof.
  revert s. induction p as [|a p IH]; intros s H; [apply startswith_nil|].
  destruct s as [|b s]; [discriminate H|]. cbn [PyStr.startswith PyStr.lower] in *.
  destruct (Ascii.eqb a b) eqn:Hab; [|discriminate H].
  apply Ascii.eqb_eq in Hab as ->. rewrite Ascii.eqb_refl. apply IH. exact H.
Qed.

Lemma contains_lower (sub s : string) :
  PyStr.contains sub s = true -> PyStr.contains (PyStr.lower sub) (PyStr.lower s) = true.
Proof.
  induction s as [|c s IH]; intros H; rewrite contains_unfold in H; rewrite contains_unfold.
  - destruct (PyStr.startswith "" sub) eqn:Hs; [|discriminate H].
    now rewrite (startswith_lower _ _ Hs).
  - destruct (PyStr.startswith (String c s) sub) eqn:Hs.
    + now rewrite (startswith_lower _ _ Hs).
    + cbn [PyStr.lower]. rewrite (IH H).
      now destruct (PyStr.startswith _ (PyStr.lower sub)).
Qed.

Lemma is_rate_limit_error_chain (error : exn) :
  is_rate_limit_error error
  = let all_text := PyStr.join " " (map PyStr.lower (map exn_str (chain error))) in
    let all_types := PyStr.join " " (map PyStr.lower (map exn_name (chain error))) in
    if PyStr.contains "resourceexhausted" all_types
       || PyStr.contains "ResourceExhausted" (type_repr error) then true
    else if existsb (fun '(word, r) => PyStr.contains word all_types || matches r all_text)
                    rate_limit_indicators then true
    else if existsb (fun e => match exn_status_code e with
                              | Some c => c =? 429
                              | None => false
                              end) (chain error) then true
    else if existsb (fun e => match exn_code e with
                              | Some c => code_is_rate_limit c
                              | None => false
                              end) (chain error) then true
    else existsb (fun r => matches r all_text) quota_patterns.
Proof. unfold is_rate_limit_error, chain. now rewrite !map_map. Qed.

End DetectionFacts.

Section HintAndDetection.
Import Regex RateLimit CaseNotions CaseFacts DetectionFacts.

(** The extracted wait does not depend on the case of the letters: two
    errors whose texts, along [errors_to_check], are equal once lowered, and
    which carry the same [retry_after] and the same [details] up to case,
    yield the same wait. *)
Theorem wait_hint_ignores_case (e e' : exn) :
  map (fun x => PyStr.lower (exn_str x)) (errors_to_check e)
  = map (fun x => PyStr.lower (exn_str x)) (errors_to_check e') ->
  exn_retry_after e = exn_retry_after e' ->
  option_map PyStr.lower (exn_details e) = option_map PyStr.lower (exn_details e') ->
  extract_wait_seconds_from_error e = extract_wait_seconds_from_error e'.
Proof.
  intros Htexts Hattr Hdetails. unfold extract_wait_seconds_from_error.
  rewrite (check_all_same _ _ Htexts), Hattr.
  destruct (exn_details e) as [d|], (exn_details e') as [d'|]; try discriminate Hdetails;
    [|reflexivity].
  injection Hdetails as ->. reflexivity.
Qed.

Lemma wait_hint_ignores_case_witness :
  extract_wait_seconds_from_error (plain_exn "ResourceExhausted" "Quota: PLEASE RETRY IN 21.13S.")
  = extract_wait_seconds_from_error (plain_exn "ResourceExhausted" "quota: please retry in 21.13s.")
  /\ extract_wait_seconds_from_error
       (plain_exn "ResourceExhausted" "quota: please retry in 21.13s.") = Some (2113 # 100)%Q.
Proof.
  split; [|vm_compute; reflexivity].
  apply wait_hint_ignores_case; reflexivity.
Defined.

(** Sufficient marks of a rate limit.  An error is classified as a rate
    limit as soon as the error itself, its cause or its context carries the
    HTTP status 429, or the code 429, or has "429" in its text, or has a type
    whose name contains "resourceexhausted" in any case. *)
Theorem rate_limit_marks (error c : exn) :
  In c (chain error) ->
  exn_status_code c = Some 429
  \/ exn_code c = Some (AInt 429)
  \/ PyStr.contains "429" (exn_str c) = true
  \/ PyStr.contains "resourceexhausted" (PyStr.lower (exn_name c)) = true ->
  is_rate_limit_error error = true.
Proof.
  intros Hin Hmark. rewrite is_rate_limit_error_chain. cbv zeta.
  destruct (PyStr.contains "resourceexhausted" _ || PyStr.contains "ResourceExhausted" _)
    eqn:Htype; [reflexivity|].
  destruct (existsb _ rate_limit_indicators) eqn:Hind; [reflexivity|].
  destruct (existsb _ (chain error)) eqn:Hstatus; [reflexivity|].
  destruct (existsb (fun e => match exn_code e with
                              | Some c0 => code_is_rate_limit c0
                              | None => false
                              end) (chain error)) eqn:Hcode; [reflexivity|].
  exfalso. destruct Hmark as [H|[H|[H|H]]].
  - rewrite <- not_true_iff_false in Hstatus. apply Hstatus.
    apply existsb_exists. exists c. split; [exact Hin|]. now rewrite H.
  - rewrite <- not_true_iff_false in Hcode. apply Hcode.
    apply existsb_exists. exists c. split; [exact Hin|]. now rewrite H.
  - rewrite <- not_true_iff_false in Hind. apply Hind.
    apply existsb_exists. exists ("429", lit "429"). split; [cbn; auto 10|].
    apply orb_true_iff. right. apply matches_lit.
    rewrite lower_join_lowered by reflexivity.
    apply (contains_join _ _ (PyStr.lower (exn_str c))).
    + apply in_map, in_map. exact Hin.
    + apply (contains_lower "429"). exact H.
  - apply orb_false_iff in Htype as [Htype _].
    rewrite <- not_true_iff_false in Htype. apply Htype.
    apply (contains_join _ _ (PyStr.lower (exn_name c))); [|exact H].
    apply in_map, in_map. exact Hin.
Qed.

Lemma rate_limit_marks_witness :
  is_rate_limit_error
    (Exn "builtins" "RuntimeError" "Request failed"
         (Some (Exn "httpx" "HTTPStatusError" "refused" None None [] None None (Some 429) None))
         None [] None None None None) = true.
Proof.
  apply (rate_limit_marks _
           (Exn "httpx" "HTTPStatusError" "refused" None None [] None None (Some 429) None)).
  - cbn. auto.
  - left. reflexivity.
Defined.

End HintAndDetection.

(** ** The calls and the waits of the summarizers *)

Module SummaryFacts.
Import Summary Effects Notions BudgetNotions.

Lemma bind_run {A B : Type} (m : M A) (f : A -> M B) (w : world) :
  (m ≫= f) w = f (fst (m w)) (snd (m w)).
Proof. unfold mbind, M_bind. destruct (m w); reflexivity. Qed.

Lemma same_stores_refl (w : world) : same_stores w w.
Proof. repeat split. Qed.

Lemma same_stores_trans (w1 w2 w3 : world) :
  same_stores w1 w2 -> same_stores w2 w3 -> same_stores w1 w3.
Proof. unfold same_stores. intros H12 H23. repeat split; intuition congruence. Qed.

(** Solves [spends] for an effect that is a single step. *)
Ltac one_step := intros w; cbn; split; [lia|split; [lia|repeat split]].

Lemma spends_ret {A : Type} (a : A) : spends 0 0 (ret a).
Proof. one_step. Qed.

Lemma spends_le {A : Type} (t i t' i' : nat) (m : M A) :
  (t <= t')%nat -> (i <= i')%nat -> spends t i m -> spends t' i' m.
Proof. intros Ht Hi H w. destruct (H w) as (H1 & H2 & H3). repeat split; try lia; apply H3. Qed.

Lemma spends_bind {A B : Type} (t1 i1 t2 i2 : nat) (m : M A) (f : A -> M B) :
  spends t1 i1 m -> (forall a, spends t2 i2 (f a)) -> spends (t1 + t2) (i1 + i2) (m ≫= f).
Proof.
  intros Hm Hf w. unfold mbind, M_bind. specialize (Hm w).
  destruct (m w) as [a w1]. cbn [snd] in Hm. specialize (Hf a w1).
  destruct Hm as (H1 & H2 & H3), Hf as (H4 & H5 & H6).
  split; [lia|]. split; [lia|]. exact (same_stores_trans _ _ _ H3 H6).
Qed.

Lemma spends_sleep (d : Q) : spends 0 0 (sleep d).
Proof. one_step. Qed.

Lemma spends_uniform (E : env) (a b : Q) : spends 0 0 (uniform E a b).
Proof. one_step. Qed.

Lemma spends_invoke_text (E : env) (x : string) (t : bool) : spends 1 0 (invoke_text E x t).
Proof. one_step. Qed.

Lemma spends_invoke_image (E : env) (x : pyval) : spends 0 1 (invoke_image E x).
Proof. one_step. Qed.

Section WithEnv.
Variable E : env.

(** The handler draws once and sleeps once. *)
Lemma rate_limit_wait_run (with_buffer : bool) (attempt : nat) (e : exn) (w : world) :
  rate_limit_wait E with_buffer attempt e w
  = (tt, World (w_text_calls w) (w_image_calls w) (w_chat_calls w) (S (w_draws w)) (w_uuids w)
               (handler_wait with_buffer attempt e (random_unit E (w_draws w)) :: w_slept w)
               (w_files w) (w_vectors w) (w_documents w) (w_messages w)).
Proof.
  unfold rate_limit_wait, handler_wait, handler_base, jitter_percent.
  destruct (RateLimit.extract_wait_seconds_from_error e) as [h|]; [|reflexivity].
  destruct (Qeq_bool h 0); [reflexivity|].
  destruct with_buffer; reflexivity.
Qed.

(** One attempt for a text that is refused for the rate: a call, a draw
    and a sleep, then the next attempt. *)
Lemma text_attempts_refused (x : string) (t : bool) (n attempt : nat)
      (last_error : option exn) (w : world) (e : exn) :
  text_llm E (w_text_calls w) x t = Raise e ->
  RateLimit.is_rate_limit_error e = true ->
  text_attempts E x t (S n) attempt last_error w
  = text_attempts E x t n (S attempt) (Some e)
      (World (S (w_text_calls w)) (w_image_calls w) (w_chat_calls w) (S (w_draws w))
             (w_uuids w)
             (handler_wait false attempt e (random_unit E (w_draws w)) :: w_slept w)
             (w_files w) (w_vectors w) (w_documents w) (w_messages w)).
Proof.
  intros Hf He. cbn [text_attempts]. rewrite bind_run. unfold invoke_text.
  cbn [fst snd]. rewrite Hf, He. rewrite bind_run, rate_limit_wait_run. reflexivity.
Qed.

Lemma spends_rate_limit_wait (with_buffer : bool) (attempt : nat) (e : exn) :
  spends 0 0 (rate_limit_wait E with_buffer attempt e).
Proof. intros w. rewrite rate_limit_wait_run. revert w. one_step. Qed.

Lemma spends_text_attempts (x : string) (t : bool) (n : nat) :
  forall attempt last_error, spends n 0 (text_attempts E x t n attempt last_error).
Proof.
  induction n as [|n IH]; intros attempt last_error; cbn [text_attempts].
  - apply spends_ret.
  - apply (spends_bind 1 0 n 0); [apply spends_invoke_text|].
    intros [result|e].
    + apply (spends_le 0 0); [lia|lia|apply spends_ret].
    + destruct (RateLimit.is_rate_limit_error e).
      * apply (spends_bind 0 0 n 0); [apply spends_rate_limit_wait|intros _; apply IH].
      * apply (spends_le 0 0); [lia|lia|apply spends_ret].
Qed.

Lemma spends_summarize_one (element page_number : pyval) :
  spends 3 0 (_summarize_one E element page_number).
Proof.
  assert (H0 : forall v : outcome string, spends 3 0 (ret v))
    by (intros v; apply (spends_le 0 0); [lia|lia|apply spends_ret]).
  unfold _summarize_one. destruct element as [|z|element]; [apply H0| |].
  - destruct (z =? 0); apply H0.
  - destruct (is_blank element); [apply H0|].
    apply (spends_bind 3 0 0 0).
    + unfold _summarize_one_internal. destruct (text_llm_ready E); [apply H0|].
      apply spends_text_attempts.
    + intros [result|e]; [apply spends_ret|].
      destruct (is_api_key_error e); [apply spends_ret|].
      destruct (is_rate_limit e); apply spends_ret.
Qed.

Lemma spends_image_attempts (b64 : pyval) (n : nat) :
  forall attempt last_error, spends 0 n (image_attempts E b64 n attempt last_error).
Proof.
  induction n as [|n IH]; intros attempt last_error; cbn [image_attempts].
  - apply spends_ret.
  - apply (spends_bind 0 1 0 n); [apply spends_invoke_image|].
    intros [result|e].
    + apply (spends_le 0 0); [lia|lia|apply spends_ret].
    + destruct (RateLimit.is_rate_limit_error e).
      * apply (spends_bind 0 0 0 n); [apply spends_rate_limit_wait|intros _; apply IH].
      * apply (spends_le 0 0); [lia|lia|apply spends_ret].
Qed.

Lemma spends_summ_img (b64 : pyval) : spends 0 3 (_summ_img E b64).
Proof.
  unfold _summ_img. apply (spends_bind 0 3 0 0).
  - unfold _summ_img_internal. destruct (image_llm_ready E).
    + apply (spends_le 0 0); [lia|lia|apply spends_ret].
    + apply spends_image_attempts.
  - intros [s|e]; [apply spends_ret|].
    destruct (is_api_key_error e); [apply spends_ret|].
    destruct (is_rate_limit e); apply spends_ret.
Qed.

Lemma spends_delay (idx : nat) :
  spends 0 0 (if (0 <? idx)%nat
              then delay ← uniform E (1 # 2) (3 # 2); sleep delay
              else ret tt).
Proof.
  destruct (0 <? idx)%nat; [|apply spends_ret].
  apply (spends_bind 0 0 0 0); [apply spends_uniform|intros d; apply spends_sleep].
Qed.

Lemma spends_text_batch (s e : Z) (ppc : float) (inputs : list (pyval * pyval)) :
  forall idx, spends (3 * length inputs) 0 (text_batch E s e ppc inputs idx).
Proof.
  induction inputs as [|[txt page] rest IH]; intros idx; cbn [text_batch].
  - apply spends_ret.
  - apply (spends_le (0 + (3 + (3 * length rest + 0))) (0 + (0 + (0 + 0)))); [cbn; lia|lia|].
    apply spends_bind; [apply spends_delay|intros _].
    apply spends_bind; [apply spends_summarize_one|intros r].
    apply spends_bind; [apply IH|intros [results reports]; apply spends_ret].
Qed.

Lemma spends_image_batch (s e : Z) (ppc : float) (images_b64 : list pyval) :
  forall idx, spends 0 (3 * length images_b64) (image_batch E s e ppc images_b64 idx).
Proof.
  induction images_b64 as [|b64 rest IH]; intros idx; cbn [image_batch].
  - apply spends_ret.
  - apply (spends_le (0 + (0 + (0 + 0))) (0 + (3 + (3 * length rest + 0)))); [lia|cbn; lia|].
    apply spends_bind; [apply spends_delay|intros _].
    apply spends_bind; [apply spends_summ_img|intros r].
    apply spends_bind; [apply IH|intros [results reports]; apply spends_ret].
Qed.

Lemma spends_summarize_all (p : parents) :
  spends (3 * length (texts p ++ tables p)) (3 * length (images_to_summarize E p))
         (summarize_all E p).
Proof.
  unfold summarize_all.
  apply (spends_le (0 + (3 * length (texts p ++ tables p) + 0))
                   (3 * length (images_to_summarize E p) + (0 + 0))); [lia|lia|].
  apply spends_bind.
  - destruct ((0 <? length (images_to_summarize E p))%nat && use_ollama_embeddings E).
    + unfold summarize_images. apply spends_image_batch.
    + apply (spends_le 0 0); [lia|lia|apply spends_ret].
  - intros [image_summaries reports1]. apply spends_bind.
    + destruct (0 <? length (texts p ++ tables p))%nat.
      * unfold summarize_texts_and_tables. rewrite <- (length_map text_input).
        apply spends_text_batch.
      * apply (spends_le 0 0); [lia|lia|apply spends_ret].
    + intros [text_table_summaries reports2]. apply spends_ret.
Qed.

Lemma spends_build_summaries (p : parents) :
  spends (3 * length (texts p ++ tables p)) (3 * length (images_to_summarize E p))
         (build_summaries E p).
Proof.
  unfold build_summaries.
  destruct (length (images_to_summarize E p) + length (texts p ++ tables p) =? 0)%nat.
  - apply (spends_le 0 0); [lia|lia|apply spends_ret].
  - apply (spends_le (3 * length (texts p ++ tables p) + 0)
                     (3 * length (images_to_summarize E p) + 0)); [lia|lia|].
    apply spends_bind; [apply spends_summarize_all|intros [s reports]; apply spends_ret].
Qed.

(** A blank element is answered at once. *)
Lemma summarize_one_blank (s : string) (page_number : pyval) (w : world) :
  is_blank s = true -> _summarize_one E (PStr s) page_number w = (Ok "", w).
Proof. intros H. unfold _summarize_one. rewrite H. reflexivity. Qed.

(** A batch of blank inputs: empty summaries and no call of the provider. *)
Lemma text_batch_blank (s e : Z) (ppc : float) (inputs : list (pyval * pyval)) :
  Forall blank_input inputs ->
  forall idx w,
    fst (fst (text_batch E s e ppc inputs idx w)) = repeat "" (length inputs)
    /\ w_text_calls (snd (text_batch E s e ppc inputs idx w)) = w_text_calls w.
Proof.
  induction 1 as [|[txt page] rest (x & Hx & Hblank) Hrest IH]; intros idx w;
    [split; reflexivity|].
  cbn [fst] in Hx. subst txt. cbn [text_batch].
  rewrite bind_run. pose proof (spends_delay idx w) as [Hd _].
  set (w1 := snd (_ w)) in *.
  rewrite bind_run, (summarize_one_blank x page w1 Hblank). cbn [fst snd].
  rewrite bind_run. specialize (IH (S idx) w1).
  destruct (text_batch E s e ppc rest (S idx) w1) as [[results reports] w2].
  cbn [fst snd length repeat] in *. destruct IH as [IH1 IH2].
  unfold ret, mret, M_ret. cbn [fst snd]. split; [now rewrite IH1|lia].
Qed.

(** [summarize_all], step by step: the images, then the texts and
    tables. *)
Lemma summarize_all_run (p : parents) (w : world) :
  let images_b64 := images_to_summarize E p in
  let text_and_tables := (texts p ++ tables p)%list in
  let images_end :=
    images_end_progress (length images_b64) (length images_b64 + length text_and_tables) in
  let r1 := (if (0 <? length images_b64)%nat && use_ollama_embeddings E
             then summarize_images E images_b64 PROGRESS_START images_end
             else ret ([], [])) w in
  let r2 := (if (0 <? length text_and_tables)%nat
             then summarize_texts_and_tables E text_and_tables images_end PROGRESS_END
             else ret ([], [])) (snd r1) in
  summarize_all E p w
  = (Summaries (fst (fst r2)) (fst (fst r1)),
     (snd (fst r1) ++ snd (fst r2) ++ [PROGRESS_END])%list, snd r2).
Proof.
  cbv zeta. unfold summarize_all. rewrite bind_run.
  match goal with
  | |- context [(if ?c then ?a else ?b) w] => destruct ((if c then a else b) w) as [[s1 reports1] w1]
  end.
  cbn [fst snd]. rewrite bind_run.
  match goal with
  | |- context [(if ?c then ?a else ?b) w1] =>
      destruct ((if c then a else b) w1) as [[s2 reports2] w2]
  end.
  reflexivity.
Qed.

Lemma build_summaries_run (p : parents) (w : world) :
  (0 < length (images_to_summarize E p) + length (texts p ++ tables p))%nat ->
  build_summaries E p w
  = (check_failures (fst (fst (summarize_all E p w))), snd (fst (summarize_all E p w)),
     snd (summarize_all E p w)).
Proof.
  intros Hpos. unfold build_summaries.
  destruct (_ =? 0)%nat eqn:H0; [apply Nat.eqb_eq in H0; lia|].
  rewrite bind_run. destruct (summarize_all E p w) as [[s reports] w']. reflexivity.
Qed.

End WithEnv.

Lemma slice_to_length (n : nat) (s : string) :
  String.length (PyStr.slice_to n s) = Nat.min n (String.length s).
Proof.
  revert s. induction n as [|n IH]; intros [|c s]; cbn; try reflexivity. now rewrite IH.
Qed.

Lemma length_append (a b : string) :
  String.length (a ++ b) = (String.length a + String.length b)%nat.
Proof.
  induction a as [|c a IH]; [reflexivity|].
  change (String c a ++ b) with (String c (a ++ b)). cbn [String.length]. now rewrite IH.
Qed.

Lemma repeat_failed (n : nat) :
  List.filter text_summary_failed (repeat "" n) = repeat "" n.
Proof. induction n as [|n IH]; cbn; [reflexivity|]. now rewrite IH. Qed.

End SummaryFacts.

Section SummaryProperties.
Import Summary Effects Notions BudgetNotions BatchFacts BreakerFacts SummaryFacts RetryFacts Examples.

(** A document whose text and table chunks are all blank, and which has no
    image to summarize, is rejected by the check of the batch with the error
    "All n summaries failed", although no call of the provider was made. *)
Theorem blank_document_trips_breaker (E : env) (p : parents) (w : world) :
  images_to_summarize E p = [] ->
  (texts p ++ tables p)%list <> [] ->
  Forall (fun it => blank_input (text_input it)) (texts p ++ tables p) ->
  fst (fst (build_summaries E p w))
  = Raise (all_failed_error (length (texts p ++ tables p)))
  /\ w_text_calls (snd (build_summaries E p w)) = w_text_calls w
  /\ w_image_calls (snd (build_summaries E p w)) = w_image_calls w.
Proof.
  intros Himg Hne Hblank.
  assert (Hpos : (0 < length (texts p ++ tables p))%nat).
  { destruct (texts p ++ tables p)%list; [congruence|cbn; lia]. }
  assert (Hinputs : Forall blank_input (map text_input (texts p ++ tables p))).
  { apply List.Forall_map. exact Hblank. }
  pose proof (spends_build_summaries E p w) as (_ & Hi & _). rewrite Himg in Hi.
  pose proof (summarize_all_run E p w) as Hall. cbv zeta in Hall.
  rewrite Himg in Hall. cbn [length Nat.add] in Hall.
  change (0 <? 0)%nat with false in Hall. cbn [andb] in Hall.
  apply Nat.ltb_lt in Hpos as Hb. rewrite Hb in Hall.
  cbn [fst snd ret mret M_ret] in Hall. unfold summarize_texts_and_tables in Hall.
  match type of Hall with
  | context [text_batch E ?s ?e ?ppc ?inputs 0 w] =>
      pose proof (text_batch_blank E s e ppc inputs Hinputs 0%nat w) as [Hres Hcalls];
      destruct (text_batch E s e ppc inputs 0 w) as [[results reports] w1]
  end.
  cbn [fst snd] in *. subst results. rewrite length_map in Hall.
  rewrite (build_summaries_run E p w) in * by (rewrite Himg; cbn; lia).
  rewrite Hall in *. cbn [fst snd] in *.
  split; [|split; [exact Hcalls|cbn in Hi; lia]].
  set (s := Summaries (repeat "" (length (texts p ++ tables p))) []).
  assert (Htotal : total_summaries s = length (texts p ++ tables p)).
  { unfold total_summaries. cbn. rewrite repeat_length. lia. }
  rewrite <- Htotal. apply check_all_failed; [lia|].
  rewrite Htotal. unfold failed_count. cbn. rewrite repeat_failed, repeat_length. lia.
Qed.

Lemma blank_document_trips_breaker_witness :
  fst (fst (build_summaries quiet (Parents [text_item "  " 1; text_item "" 2] [] [])
                            initial_world))
  = Raise (all_failed_error 2).
Proof.
  apply (proj1 (blank_document_trips_breaker quiet
                  (Parents [text_item "  " 1; text_item "" 2] [] []) initial_world
                  eq_refl ltac:(discriminate)
                  ltac:(repeat constructor; eexists; split; vm_compute; reflexivity))).
Defined.

(** Summarizing a document makes at most three calls of the provider per
    chunk: at most [3 * (texts + tables)] calls of the text chain and
    [3 * images] calls of the vision model, the images being those that are
    summarized.  Besides these calls it only draws and sleeps: it writes no
    file, no vector, no row and no message. *)
Theorem provider_calls_per_chunk (E : env) (p : parents) (w : world) :
  (w_text_calls w <= w_text_calls (snd (build_summaries E p w))
   <= w_text_calls w + 3 * length (texts p ++ tables p))%nat
  /\ (w_image_calls w <= w_image_calls (snd (build_summaries E p w))
      <= w_image_calls w + 3 * length (images_to_summarize E p))%nat
  /\ same_stores w (snd (build_summaries E p w)).
Proof. apply spends_build_summaries. Qed.

(** In text-only mode ([use_ollama_embeddings] off) no image is summarized:
    the vision model is never called and the image summaries are empty,
    whatever images the document has. *)
Theorem text_only_mode_skips_images (E : env) (p : parents) (w : world) :
  use_ollama_embeddings E = false ->
  w_image_calls (snd (build_summaries E p w)) = w_image_calls w
  /\ forall s, fst (fst (build_summaries E p w)) = Ok s -> image_summaries s = [].
Proof.
  intros Hmode.
  assert (Himg : images_to_summarize E p = []).
  { unfold images_to_summarize. now rewrite Hmode. }
  split.
  - pose proof (spends_build_summaries E p w) as (_ & Hi & _). rewrite Himg in Hi.
    cbn in Hi. lia.
  - intros s. rewrite build_summaries_result.
    pose proof (summarize_all_run E p w) as Hall. cbv zeta in Hall.
    rewrite Himg, Hmode in Hall. cbn [length] in Hall.
    change (0 <? 0)%nat with false in Hall. cbn [andb] in Hall.
    cbn [fst snd ret mret M_ret] in Hall. rewrite Hall. cbn [fst].
    match goal with
    | |- context [check_failures (Summaries ?a [])] => generalize a
    end.
    intros tts. unfold check_failures.
    destruct (total_summaries _ =? 0)%nat; [intros [= <-]; reflexivity|].
    destruct (_ && _); [discriminate|].
    destruct (Qlt_le_dec _ _); [discriminate|]. intros [= <-]. reflexivity.
Qed.

Lemma text_only_mode_skips_images_witness :
  let E := Env false "/srv/data" None (fun _ _ _ => Ok "A summary of the chunk, long enough.")
               None (fun _ _ => Ok "unused")
               (fun _ => ([], None)) (Ok (Parents [] [] [])) None (fun _ => 0%Q)
               (fun n => "child-" ++ pretty n) None None (fun _ _ => []) in
  let p := Parents [text_item "first chunk of text" 2] [] [image_item "aGVsbG8=" 2] in
  w_image_calls (snd (build_summaries E p initial_world)) = 0%nat.
Proof.
  cbv zeta.
  apply (proj1 (text_only_mode_skips_images
                  (Env false "/srv/data" None
                       (fun _ _ _ => Ok "A summary of the chunk, long enough.")
                       None (fun _ _ => Ok "unused")
                       (fun _ => ([], None)) (Ok (Parents [] [] [])) None (fun _ => 0%Q)
                       (fun n => "child-" ++ pretty n) None None (fun _ _ => []))
                  (Parents [text_item "first chunk of text" 2] [] [image_item "aGVsbG8=" 2])
                  initial_world eq_refl)).
Defined.

(** When the three attempts allowed for a text are all refused for the
    rate, [_summarize_one_internal] raises the error of the third attempt,
    having called the provider three times and slept three times: it also
    sleeps after the last refusal, before giving up. *)
Theorem text_retries_exhausted (E : env) (x : string) (t : bool) (w : world)
        (errs : nat -> exn) :
  text_llm_ready E = None ->
  (forall j, (j < 3)%nat ->
             text_llm E (j + w_text_calls w) x t = Raise (errs j)
             /\ RateLimit.is_rate_limit_error (errs j) = true) ->
  fst (_summarize_one_internal E x t w) = Raise (errs 2%nat)
  /\ w_text_calls (snd (_summarize_one_internal E x t w)) = (3 + w_text_calls w)%nat
  /\ w_slept (snd (_summarize_one_internal E x t w))
     = handler_wait false 2 (errs 2%nat) (random_unit E (2 + w_draws w))
       :: handler_wait false 1 (errs 1%nat) (random_unit E (1 + w_draws w))
       :: handler_wait false 0 (errs 0%nat) (random_unit E (w_draws w))
       :: w_slept w.
Proof.
  intros Hready Herr.
  destruct (Herr 0%nat ltac:(lia)) as [Hf0 He0].
  destruct (Herr 1%nat ltac:(lia)) as [Hf1 He1].
  destruct (Herr 2%nat ltac:(lia)) as [Hf2 He2].
  cbn [Nat.add] in Hf0, Hf1, Hf2.
  unfold _summarize_one_internal. rewrite Hready.
  rewrite (text_attempts_refused E x t 2 0 None w _ Hf0 He0).
  rewrite (text_attempts_refused E x t 1 1 _ _ (errs 1%nat)) by assumption.
  rewrite (text_attempts_refused E x t 0 2 _ _ (errs 2%nat)) by assumption.
  repeat split.
Qed.

Lemma text_retries_exhausted_witness :
  let E := with_text_llm (fun _ _ _ => Raise (plain_exn "Exception" "429 Please retry in 5s."))
                         quiet in
  fst (_summarize_one_internal E "chunk" false initial_world)
  = Raise (plain_exn "Exception" "429 Please retry in 5s.")
  /\ w_text_calls (snd (_summarize_one_internal E "chunk" false initial_world)) = 3%nat.
Proof.
  cbv zeta.
  destruct (text_retries_exhausted
              (with_text_llm (fun _ _ _ => Raise (plain_exn "Exception" "429 Please retry in 5s."))
                             quiet)
              "chunk" false initial_world
              (fun _ => plain_exn "Exception" "429 Please retry in 5s.") eq_refl)
    as (Hr & Hc & _).
  - intros j Hj. split; vm_compute; reflexivity.
  - split; [exact Hr|exact Hc].
Defined.

(** The handlers of the summarizers sleep for the base wait (the hint of
    the error, or [60 * 2^attempt]) plus a jitter of 10 to 20 percent of it,
    provided the generator draws in [0, 1]; for an image with a hint, a
    buffer of 10 percent more.  The base is positive. *)
Theorem summarizer_wait_bounds (E : env) (with_buffer : bool) (attempt : nat) (e : exn)
        (w : world) :
  (0 <= random_unit E (w_draws w) <= 1)%Q ->
  exists d,
    w_slept (snd (rate_limit_wait E with_buffer attempt e w)) = d :: w_slept w
    /\ (0 < handler_base attempt e)%Q
    /\ match RateLimit.extract_wait_seconds_from_error e with
       | Some _ =>
           if with_buffer
           then ((12 # 10) * handler_base attempt e <= d
                 /\ d <= (13 # 10) * handler_base attempt e)%Q
           else ((11 # 10) * handler_base attempt e <= d
                 /\ d <= (12 # 10) * handler_base attempt e)%Q
       | None => ((11 # 10) * handler_base attempt e <= d
                  /\ d <= (12 # 10) * handler_base attempt e)%Q
       end.
Proof.
  intros [Hu0 Hu1]. rewrite rate_limit_wait_run. cbn [snd w_slept].
  eexists. split; [reflexivity|].
  assert (Hpow : (0 < 60 * 2 ^ Z.of_nat attempt)%Q).
  { rewrite <- (Qmult_0_r 60). apply Qmult_lt_l; [reflexivity|].
    apply Qpower_0_lt. reflexivity. }
  unfold handler_wait, handler_base, jitter_percent.
  set (u := random_unit E (w_draws w)) in *.
  destruct (RateLimit.extract_wait_seconds_from_error e) as [h|] eqn:Hh.
  - apply extract_in_range in Hh as [Hlo _].
    assert (Hpos : (0 < h)%Q) by (eapply Qlt_le_trans; [|exact Hlo]; reflexivity).
    destruct (Qeq_bool h 0) eqn:Hz.
    { apply Qeq_bool_iff in Hz. rewrite Hz in Hpos. discriminate Hpos. }
    split; [exact Hpos|]. destruct with_buffer; split; nra.
  - split; [exact Hpow|]. set (b := (60 * 2 ^ Z.of_nat attempt)%Q) in *. split; nra.
Qed.

Lemma summarizer_wait_bounds_witness :
  exists d,
    w_slept (snd (rate_limit_wait quiet true 0 (plain_exn "Exception" "429 Please retry in 5s.")
                                  initial_world)) = [d]
    /\ ((12 # 10) * 5 <= d /\ d <= (13 # 10) * 5)%Q.
Proof.
  destruct (summarizer_wait_bounds quiet true 0
              (plain_exn "Exception" "429 Please retry in 5s.") initial_world)
    as (d & Hd & _ & Hb).
  - split; discriminate.
  - exists d. split; [exact Hd|].
    change (RateLimit.extract_wait_seconds_from_error
              (plain_exn "Exception" "429 Please retry in 5s."))
      with (Some (5 # 1)%Q) in Hb.
    change (handler_base 0 (plain_exn "Exception" "429 Please retry in 5s.")) with 5%Q in Hb.
    exact Hb.
Defined.

(** When the provider answers for an element that is not blank, the summary
    is never empty: it has at least 10 characters, or it is the element
    itself (an element of at most 200 characters that stands in for an answer
    that was too short). *)
Theorem provider_answer_gives_summary (E : env) (element : string) (page_number : pyval)
        (w w' : world) (answer : string) :
  is_blank element = false ->
  _summarize_one_internal E (element_truncated element) (is_title_page element page_number) w
  = (Ok answer, w') ->
  exists s,
    _summarize_one E (PStr element) page_number w = (Ok s, w')
    /\ s <> ""
    /\ ((10 <= String.length s)%nat \/ s = element).
Proof.
  intros Hblank Hanswer. unfold _summarize_one. rewrite Hblank, bind_run, Hanswer.
  cbn [fst snd ret mret M_ret]. eexists. split; [reflexivity|].
  assert (Hne : element <> "").
  { intros ->. discriminate Hblank. }
  destruct (PyStr.is_empty (remove_prefixes (PyStr.strip answer))
            || (String.length (remove_prefixes (PyStr.strip answer)) <? 10)%nat) eqn:Hshort.
  - unfold fallback_text. destruct (200 <? String.length element)%nat eqn:Hlong.
    + apply Nat.ltb_lt in Hlong.
      assert (Hlen : String.length (PyStr.slice_to 200 element ++ "...") = 203%nat).
      { rewrite length_append, slice_to_length. change (String.length "...") with 3%nat. lia. }
      split; [|left; lia]. intros Heq. rewrite Heq in Hlen. discriminate Hlen.
    + split; [exact Hne|right; reflexivity].
  - apply orb_false_iff in Hshort as [_ Hlen]. apply Nat.ltb_ge in Hlen.
    split; [|left; exact Hlen]. intros Heq. rewrite Heq in Hlen. cbn in Hlen. lia.
Qed.

Lemma provider_answer_gives_summary_witness :
  exists s,
    _summarize_one (with_text_llm (fun _ _ _ => Ok "Summary: ok") quiet)
                   (PStr "first chunk of text") (PInt 2) initial_world
    = (Ok s, World 1 0 0 0 0 [] ∅ [] ∅ [])
    /\ s <> ""
    /\ ((10 <= String.length s)%nat \/ s = "first chunk of text").
Proof.
  apply (provider_answer_gives_summary (with_text_llm (fun _ _ _ => Ok "Summary: ok") quiet)
           "first chunk of text" (PInt 2) initial_world (World 1 0 0 0 0 [] ∅ [] ∅ [])
           "Summary: ok").
  - vm_compute. reflexivity.
  - vm_compute. reflexivity.
Defined.

(** The check of the batch raises exactly when there is a summary and
    either none is valid or more than nine in ten failed; otherwise it
    returns the summaries as they are.  For a batch of at most 10 summaries
    this means: it raises only when every summary failed. *)
Theorem breaker_trips_exactly (s : summaries) :
  ((exists e, check_failures s = Raise e)
   <-> (0 < total_summaries s)%nat
       /\ (valid_summaries_count s = 0%nat
           \/ (9 * total_summaries s < 10 * failed_count s)%nat))
  /\ ((forall e, check_failures s <> Raise e) -> check_failures s = Ok s)
  /\ ((total_summaries s <= 10)%nat ->
      (exists e, check_failures s = Raise e)
      <-> (0 < total_summaries s)%nat /\ failed_count s = total_summaries s).
Proof.
  pose proof (counts_add_up s) as Hsum.
  assert (Hrate : (0 < total_summaries s)%nat ->
                  (9 # 10 < failure_rate s)%Q
                  <-> (9 * total_summaries s < 10 * failed_count s)%nat).
  { intros Hpos. unfold failure_rate. apply Nat.ltb_lt in Hpos as Hb. rewrite Hb.
    assert (Hz : Z.pos (Pos.of_nat (total_summaries s)) = Z.of_nat (total_summaries s)).
    { rewrite <- (positive_nat_Z (Pos.of_nat (total_summaries s))), Nat2Pos.id by lia.
      reflexivity. }
    unfold Qlt. cbn [Qnum Qden]. rewrite Hz. lia. }
  assert (Hmain : (exists e, check_failures s = Raise e)
                  <-> (0 < total_summaries s)%nat
                      /\ (valid_summaries_count s = 0%nat
                          \/ (9 * total_summaries s < 10 * failed_count s)%nat)).
  { unfold check_failures.
    destruct (total_summaries s =? 0)%nat eqn:H0.
    - apply Nat.eqb_eq in H0. split; [intros [e He]; discriminate He|lia].
    - apply Nat.eqb_neq in H0. assert (Hpos : (0 < total_summaries s)%nat) by lia.
      specialize (Hrate Hpos). apply Nat.ltb_lt in Hpos as Hb. rewrite Hb, andb_true_r.
      destruct (valid_summaries_count s =? 0)%nat eqn:Hv.
      + apply Nat.eqb_eq in Hv. split; [intros _; split; [exact Hpos|left; exact Hv]|].
        intros _. eexists. reflexivity.
      + apply Nat.eqb_neq in Hv.
        destruct (Qlt_le_dec (9 # 10) (failure_rate s)) as [Hhigh|Hlow].
        * split; [intros _; split; [exact Hpos|right; apply Hrate; exact Hhigh]|].
          intros _. eexists. reflexivity.
        * split; [intros [e He]; discriminate He|]. intros [_ [Hz|Hr]]; [lia|].
          apply Hrate in Hr. exfalso. apply (Qlt_not_le _ _ Hr Hlow). }
  split; [exact Hmain|split].
  - intros Hno. unfold check_failures in *.
    destruct (total_summaries s =? 0)%nat; [reflexivity|].
    destruct (_ && _); [exfalso; eapply Hno; reflexivity|].
    destruct (Qlt_le_dec _ _); [exfalso; eapply Hno; reflexivity|reflexivity].
  - intros Hsmall. rewrite Hmain. split; intros [Hpos H]; (split; [exact Hpos|]); lia.
Qed.

Lemma breaker_trips_exactly_witness :
  exists e, check_failures (Summaries [""; "too short"] ["[ERROR] API key invalid"]) = Raise e.
Proof.
  apply (proj2 (proj2 (proj2 (breaker_trips_exactly
                                (Summaries [""; "too short"] ["[ERROR] API key invalid"])))
                      ltac:(vm_compute; lia))).
  vm_compute. split; [lia|reflexivity].
Defined.

(** With content to summarize, the values passed to the progress callback
    are those of the images, then those of the texts and tables, then 80:
    one value per chunk and a last one, which is 80.  The values of the texts
    and tables never exceed 80, those of the images never exceed the end of
    their window. *)
Theorem progress_reports_end_at_80 (E : env) (p : parents) (w : world) :
  (0 < length (images_to_summarize E p) + length (texts p ++ tables p))%nat ->
  exists reports1 reports2,
    snd (fst (build_summaries E p w)) = (reports1 ++ reports2 ++ [80])%list
    /\ length reports1 = length (images_to_summarize E p)
    /\ length reports2 = length (texts p ++ tables p)
    /\ Forall (fun r => r <= images_end_progress
                               (length (images_to_summarize E p))
                               (length (images_to_summarize E p)
                                + length (texts p ++ tables p))) reports1
    /\ Forall (fun r => r <= 80) reports2.
Proof.
  intros Hpos. rewrite (build_summaries_run E p w Hpos). cbn [fst snd].
  pose proof (summarize_all_run E p w) as Hall. cbv zeta in Hall. rewrite Hall.
  cbn [fst snd]. clear Hall.
  assert (Hmode : images_to_summarize E p <> [] -> use_ollama_embeddings E = true).
  { unfold images_to_summarize. destruct (use_ollama_embeddings E); congruence. }
  set (imgs := images_to_summarize E p) in *.
  set (items := (texts p ++ tables p)%list) in *.
  set (images_end := images_end_progress (length imgs) (length imgs + length items)).
  assert (Hbound : forall s e ppc n,
             Forall (fun r => r <= e) (map (Progress.reported s e ppc) (seq 0 n))).
  { intros s e ppc n. apply List.Forall_forall. intros r Hr.
    apply in_map_iff in Hr as (idx & <- & _). apply reported_le_end. }
  match goal with
  | |- context [(if (0 <? length imgs)%nat && use_ollama_embeddings E then ?a else ?b) w] =>
      set (r1 := (if (0 <? length imgs)%nat && use_ollama_embeddings E then a else b) w)
  end.
  match goal with
  | |- context [(if (0 <? length items)%nat then ?a else ?b) (snd r1)] =>
      set (r2 := (if (0 <? length items)%nat then a else b) (snd r1))
  end.
  exists (snd (fst r1)), (snd (fst r2)).
  assert (H1 : snd (fst r1) = map (Progress.reported PROGRESS_START images_end
                                     (Progress.progress_per_chunk PROGRESS_START images_end
                                                                  (length imgs)))
                                  (seq 0 (length imgs))).
  { subst r1. destruct imgs as [|i imgs']; [reflexivity|].
    rewrite (Hmode ltac:(discriminate)). cbn [length].
    change (0 <? S (length imgs'))%nat with true. cbn [andb].
    apply summarize_images_reports. }
  assert (H2 : snd (fst r2) = map (Progress.reported images_end PROGRESS_END
                                     (Progress.progress_per_chunk images_end PROGRESS_END
                                                                  (length items)))
                                  (seq 0 (length items))).
  { subst r2. destruct items as [|i items']; [reflexivity|].
    cbn [length]. change (0 <? S (length items'))%nat with true.
    apply summarize_texts_and_tables_reports. }
  rewrite H1, H2, !length_map, !length_seq. repeat split; apply Hbound.
Qed.

Lemma progress_reports_end_at_80_witness :
  exists reports1 reports2,
    snd (fst (build_summaries quiet two_texts initial_world))
    = (reports1 ++ reports2 ++ [80])%list
    /\ length reports1 = 0%nat /\ length reports2 = 2%nat.
Proof.
  destruct (progress_reports_end_at_80 quiet two_texts initial_world)
    as (r1 & r2 & H & H1 & H2 & _).
  - cbn. lia.
  - exists r1, r2. repeat split; assumption.
Defined.

End SummaryProperties.

(** ** What indexing writes and what retrieval returns *)

Module StoreFacts.
Import Vector Effects Notions StoreNotions IndexFacts RetrievalFacts SummaryFacts DetectionFacts.

Lemma append_assoc (a b c : string) : (a ++ b) ++ c = a ++ b ++ c.
Proof.
  induction a as [|x a IH]; [reflexivity|].
  change ((String x a ++ b) ++ c) with (String x ((a ++ b) ++ c)). now rewrite IH.
Qed.

Lemma append_inv_head (a x y : string) : a ++ x = a ++ y -> x = y.
Proof.
  induction a as [|c a IH]; [trivial|].
  change (String c a ++ x) with (String c (a ++ x)).
  change (String c a ++ y) with (String c (a ++ y)). intros [= H]. apply IH, H.
Qed.

Lemma append_inv_tail (t : string) (x : string) :
  forall y, x ++ t = y ++ t -> x = y.
Proof.
  induction x as [|c x IH]; intros [|d y] H.
  - reflexivity.
  - exfalso. apply (f_equal String.length) in H. rewrite !length_append in H.
    cbn [String.length] in H. lia.
  - exfalso. apply (f_equal String.length) in H. rewrite !length_append in H.
    cbn [String.length] in H. lia.
  - change (String c x ++ t) with (String c (x ++ t)) in H.
    change (String d y ++ t) with (String d (y ++ t)) in H.
    injection H as -> H. f_equal. apply IH, H.
Qed.

Lemma path_join_relative (a b : string) :
  PyStr.startswith b "/" = false -> path_join a b = path_prefix a ++ b.
Proof.
  intros Hb. unfold path_join, path_prefix. rewrite Hb.
  destruct (PyStr.is_empty a); [reflexivity|].
  destruct (String.eqb _ "/"); [reflexivity|]. now rewrite append_assoc.
Qed.

Lemma startswith_slash_json (doc : string) :
  PyStr.startswith (doc ++ ".json") "/" = PyStr.startswith doc "/".
Proof.
  destruct doc as [|c doc]; [reflexivity|].
  change (String c doc ++ ".json") with (String c (doc ++ ".json")).
  cbn [PyStr.startswith]. now rewrite !startswith_nil.
Qed.

(** Two documents whose identifiers do not start with a slash have
    different index files. *)
Lemma parents_index_path_inj (E : env) (doc doc' : string) :
  PyStr.startswith doc "/" = false ->
  PyStr.startswith doc' "/" = false ->
  _parents_index_path E doc = _parents_index_path E doc' -> doc = doc'.
Proof.
  intros Hd Hd'. unfold _parents_index_path.
  rewrite (path_join_relative _ (doc ++ ".json")), (path_join_relative _ (doc' ++ ".json"))
    by (rewrite startswith_slash_json; assumption).
  intros H. apply append_inv_head in H. apply append_inv_tail in H. exact H.
Qed.

Lemma children_of_length (E : env) (doc : string) (pairs : list (pydict * string)) :
  forall u, length (children_of E doc u pairs) = length pairs.
Proof. induction pairs as [|pr rest IH]; intros u; cbn; [reflexivity|]. now rewrite IH. Qed.

Lemma children_of_doc (E : env) (doc : string) (pairs : list (pydict * string)) :
  forall u, Forall (fun c => md_doc_id c = PStr doc) (children_of E doc u pairs).
Proof.
  induction pairs as [|pr rest IH]; intros u; cbn; constructor; [reflexivity|apply IH].
Qed.

Lemma pairs_length (p : parents) (s : summaries) :
  length (zip (texts p ++ tables p) (text_table_summaries s)
          ++ zip (images p) (image_summaries s))%list
  = indexed_count p s.
Proof. unfold indexed_count. now rewrite length_app, !length_zip. Qed.

Lemma of_other_documents_app (doc : string) (a b : list child_doc) :
  Forall (fun c => md_doc_id c = PStr doc) b ->
  of_other_documents doc (a ++ b) = of_other_documents doc a.
Proof.
  intros Hb. unfold of_other_documents. rewrite List.filter_app.
  replace (List.filter _ b) with (@nil child_doc); [apply app_nil_r|].
  induction Hb as [|c b Hc Hb IH]; [reflexivity|]. cbn. rewrite Hc. cbn.
  rewrite String.eqb_refl. exact IH.
Qed.

Section WithEnv.
Variable E : env.

(** [index_multivector] in one step. *)
Lemma index_multivector_eq (doc : string) (p : parents) (s : summaries) (w : world) :
  let pairs := (zip (texts p ++ tables p) (text_table_summaries s)
                ++ zip (images p) (image_summaries s))%list in
  let children := children_of E doc (w_uuids w) pairs in
  index_multivector E doc p s w
  = match vectorstore_ready E with
    | Some e => (Raise e, w)
    | None =>
        match children, add_documents_error E with
        | _ :: _, Some e => (Raise e, with_uuids (w_uuids w + length pairs) w)
        | _, _ =>
            (Ok tt,
             World (w_text_calls w) (w_image_calls w) (w_chat_calls w) (w_draws w)
                   (w_uuids w + length pairs) (w_slept w)
                   (<[_parents_index_path E doc :=
                        store_all E (w_uuids w) pairs
                                  (default ∅ (w_files w !! _parents_index_path E doc))]>
                      (w_files w))
                   (w_vectors w ++ children) (w_documents w) (w_messages w))
        end
    end.
Proof.
  cbv zeta. unfold index_multivector.
  destruct (vectorstore_ready E) as [e|]; [reflexivity|].
  run_bind. unfold _load_parents_index, load_json. run_bind.
  unfold read_file at 1. cbv beta iota.
  rewrite !index_pairs_run. cbn [w_uuids with_uuids app].
  rewrite store_all_app, children_of_app, length_app.
  destruct (children_of E doc (w_uuids w)
              (zip (texts p ++ tables p) (text_table_summaries s))
            ++ children_of E doc
                 (w_uuids w + length (zip (texts p ++ tables p) (text_table_summaries s)))
                 (zip (images p) (image_summaries s)))%list as [|c cs] eqn:Hc.
  - cbn. rewrite app_nil_r, Nat.add_assoc. now destruct (add_documents_error E).
  - destruct (add_documents_error E) as [e|].
    + unfold with_uuids. cbn. now rewrite Nat.add_assoc.
    + cbn. now rewrite Nat.add_assoc.
Qed.

Section Collect.
Variables (k : Z) (document_id : option string) (include_images : bool).
Variables (is_distance : bool) (normalization_factor : option Q) (max_score : Q).

Lemma collect_kept (results : list (child_doc * Q)) :
  forall (taken : Z) (w : world),
    Forall2 (kept E document_id include_images w)
            (fst (fst (collect E k document_id include_images is_distance
                               normalization_factor max_score results taken w)))
            (snd (fst (collect E k document_id include_images is_distance
                               normalization_factor max_score results taken w))).
Proof.
  induction results as [|[doc raw_score] rest IH]; intros taken w; [constructor|].
  cbn [collect].
  destruct (match document_id with
            | Some d => negb (PyStr.is_empty d) && negb (Py.eq_str (md_doc_id doc) d)
            | None => false
            end) eqn:Hwrong; [apply IH|].
  destruct (negb include_images && Py.eq_str (md_type doc) "image") eqn:Himage; [apply IH|].
  destruct (parent_key (md_parent_id doc)) as [parent_id|]; [|apply IH].
  destruct (doc_id_text (md_doc_id doc)) as [doc_id|] eqn:Hdoc; [|apply IH].
  rewrite bind_run, resolve_run. cbn [fst snd].
  destruct (default ∅ (w_files w !! _parents_index_path E doc_id) !! parent_id)
    as [parent|] eqn:Hparent; [|apply IH].
  destruct (decide (parent = ∅)) as [|Hne]; [apply IH|].
  assert (Hkept : forall score raw,
             kept E document_id include_images w (Source parent_id (md_type doc) (md_page_number doc) (md_source doc)
                            (page_content doc) score raw
                            (if Py.eq_str (md_type doc) "image"
                             then Some (Py.get parent "b64") else None)
                            (if Py.eq_str (md_type doc) "table"
                             then Some (Py.get parent "table_html") else None)
                            (if Py.eq_str (md_type doc) "image" then None
                             else Some (Py.get parent "text"))) parent).
  { intros score raw. repeat split.
    - exact Hne.
    - intros ->. cbn in *. exact Himage.
    - intros d -> Hd. rewrite Hd in Hwrong. cbn in Hwrong.
      apply negb_false_iff in Hwrong. unfold Py.eq_str in Hwrong.
      destruct (md_doc_id doc) as [|z|x]; try discriminate Hwrong.
      apply String.eqb_eq in Hwrong as ->. cbn in Hdoc. rewrite Hd in Hdoc.
      injection Hdoc as <-. rewrite resolve_run. exact Hparent. }
  destruct (k <=? taken + 1).
  - cbn. constructor; [apply Hkept|constructor].
  - rewrite bind_run. specialize (IH (taken + 1) w).
    destruct (collect E k document_id include_images is_distance normalization_factor
                      max_score rest (taken + 1) w) as [[sources ps] w'].
    cbn in *. constructor; [apply Hkept|exact IH].
Qed.

End Collect.

End WithEnv.

Lemma insert_desc_perm (x : source) (l : list source) : insert_desc x l ≡ₚ x :: l.
Proof.
  induction l as [|y l IH]; cbn; [reflexivity|].
  destruct (Qlt_le_dec (src_score x) (src_score y)); [|reflexivity].
  rewrite IH. apply Permutation_swap.
Qed.

Lemma insert_desc_with_score (q : Q) (x : source) (l : list source) :
  with_score q (insert_desc x l) = with_score q (x :: l).
Proof.
  unfold with_score. induction l as [|y l IH]; [reflexivity|]. cbn [insert_desc].
  destruct (Qlt_le_dec (src_score x) (src_score y)) as [Hlt|]; [|reflexivity].
  cbn [List.filter] in *. rewrite IH.
  destruct (Qeq_bool (src_score x) q) eqn:Hx; [|reflexivity].
  destruct (Qeq_bool (src_score y) q) eqn:Hy; [|reflexivity].
  exfalso. apply Qeq_bool_iff in Hx, Hy. rewrite Hx, Hy in Hlt.
  apply (Qlt_irrefl _ Hlt).
Qed.

(** Rounding to the nearest integer is monotone. *)
Lemma round_half_even_mono (x y : Q) :
  (x <= y)%Q -> round_half_even x <= round_half_even y.
Proof.
  intros Hxy. pose proof (Qfloor_resp_le x y Hxy) as Hf.
  pose proof (Qfloor_le x) as Hx1. pose proof (Qlt_floor x) as Hx2.
  pose proof (Qfloor_le y) as Hy1. pose proof (Qlt_floor y) as Hy2.
  unfold round_half_even.
  destruct (Z.eq_dec (Qfloor x) (Qfloor y)) as [Heq|Hneq].
  - rewrite <- Heq in *.
    destruct (Qcompare (x - (Qfloor x # 1)) (1 # 2)) eqn:Hcx;
      [apply Qeq_alt in Hcx|apply Qlt_alt in Hcx|apply Qgt_alt in Hcx];
      (destruct (Qcompare (y - (Qfloor x # 1)) (1 # 2)) eqn:Hcy;
       [apply Qeq_alt in Hcy|apply Qlt_alt in Hcy|apply Qgt_alt in Hcy]);
      try (destruct (Z.even (Qfloor x))); first [lia|exfalso; lra].
  - assert (Hlt : Qfloor x + 1 <= Qfloor y) by lia.
    destruct (Qcompare (x - (Qfloor x # 1)) (1 # 2));
      destruct (Qcompare (y - (Qfloor y # 1)) (1 # 2));
      try (destruct (Z.even (Qfloor x))); try (destruct (Z.even (Qfloor y))); lia.
Qed.

Lemma round4_mono (x y : Q) : (x <= y)%Q -> (round4 x <= round4 y)%Q.
Proof.
  intros Hxy. unfold round4, Qle. cbn [Qnum Qden].
  assert (H : round_half_even (x * 10000) <= round_half_even (y * 10000)).
  { apply round_half_even_mono. lra. }
  lia.
Qed.

Lemma pymax_mono (a x y : Q) : (x <= y)%Q -> (pymax a x <= pymax a y)%Q.
Proof. intros H. unfold pymax. destruct (Qlt_le_dec a x), (Qlt_le_dec a y); lra. Qed.

Lemma pymin_mono (a x y : Q) : (x <= y)%Q -> (pymin a x <= pymin a y)%Q.
Proof. intros H. unfold pymin. destruct (Qlt_le_dec x a), (Qlt_le_dec y a); lra. Qed.

End StoreFacts.

Section StoreProperties.
Import Vector Effects Notions StoreNotions IndexFacts RetrievalFacts SummaryFacts StoreFacts Examples.









(** What is returned respects the filters.  With [include_images] off no
    source is an image.  With a [document_id], every source is resolved in the
    index of that document, to one of the parents returned, and the text
    of a source that is not an image is the text of that parent. *)
Theorem retrieval_respects_filters (E : env) (query : string) (k : Z)
        (document_id : option string) (include_images : bool) (w w' : world)
        (sources : list source) (parents_resolved : list pydict) :
  retrieve_with_sources E query k document_id include_images w
  = (Ok (sources, parents_resolved), w') ->
  Forall (fun s =>
            (include_images = false -> Py.eq_str (src_type s) "image" = false)
            /\ exists parent,
                In parent parents_resolved
                /\ (forall d, document_id = Some d -> PyStr.is_empty d = false ->
                              fst (resolve E d (src_parent_id s) w) = Some parent)
                /\ src_text s = (if Py.eq_str (src_type s) "image" then None
                                 else Some (Py.get parent "text")))
         sources.
Proof.
  unfold retrieve_with_sources.
  destruct (vectorstore_ready E) as [e|]; [discriminate|].
  rewrite bind_run.
  match goal with
  | |- context [collect E k document_id include_images ?d ?nf ?ms ?rs 0 w] =>
      pose proof (collect_kept E k document_id include_images d nf ms rs 0 w) as Hkept;
      destruct (collect E k document_id include_images d nf ms rs 0 w) as [[srcs ps] w1]
  end.
  cbn [fst snd ret mret M_ret] in *. intros [= <- <- <-].
  apply sort_desc_Forall.
  induction Hkept as [|s parent srcs ps (Hne & Himg & Hdoc & Htext) _ IH]; constructor.
  - split; [exact Himg|]. exists parent. split; [left; reflexivity|]. split; assumption.
  - eapply List.Forall_impl; [|exact IH].
    intros s0 (H0 & parent0 & Hin & H1). split; [exact H0|].
    exists parent0. split; [right; exact Hin|exact H1].
Qed.

Lemma retrieval_respects_filters_witness :
  Forall (fun s =>
            (true = false -> Py.eq_str (src_type s) "image" = false)
            /\ exists parent,
                In parent [text_item "second" 2; text_item "first" 1]
                /\ (forall d, Some "doc-1" = Some d -> PyStr.is_empty d = false ->
                              fst (resolve (with_hits [hit "p2" (8 # 10); hit "gone" (3 # 10);
                                                       hit "p1" (4 # 10)] quiet)
                                           d (src_parent_id s) indexed) = Some parent)
                /\ src_text s = (if Py.eq_str (src_type s) "image" then None
                                 else Some (Py.get parent "text")))
         [ Source "p1" (PStr "text") (PInt 1) (PStr "paper.pdf") "a summary"
                  (8000 # 10000) (4000 # 10000) None None (Some (PStr "first"));
           Source "p2" (PStr "text") (PInt 1) (PStr "paper.pdf") "a summary"
                  (6000 # 10000) (8000 # 10000) None None (Some (PStr "second")) ].
Proof.
  apply (retrieval_respects_filters
           (with_hits [hit "p2" (8 # 10); hit "gone" (3 # 10); hit "p1" (4 # 10)] quiet)
           "what is attention?" 2 (Some "doc-1") true indexed indexed).
  vm_compute. reflexivity.
Defined.

(** Sorting the sources neither drops nor invents one, and it is stable:
    the sources of any given score keep the order they were retrieved in. *)
Theorem sort_keeps_sources (l : list source) :
  sort_desc l ≡ₚ l /\ forall q, with_score q (sort_desc l) = with_score q l.
Proof.
  unfold sort_desc. induction l as [|x l [IHp IHs]]; [split; reflexivity|].
  cbn [foldr]. split.
  - rewrite insert_desc_perm. now rewrite IHp.
  - intros q. rewrite insert_desc_with_score. unfold with_score in *. cbn [List.filter].
    now rewrite IHs.
Qed.

(** In distance mode a closer hit never gets a lower score: with the
    normalization factor that [retrieve_with_sources] computes from the
    largest distance, the rounded score does not increase with the
    distance. *)
Theorem closer_hit_scores_no_lower (max_score a b : Q) :
  (a <= b)%Q ->
  (round4 (similarity_score true (Some (pymax 2 (max_score * (11 # 10)))) max_score b)
   <= round4 (similarity_score true (Some (pymax 2 (max_score * (11 # 10)))) max_score a))%Q.
Proof.
  intros Hab. set (nf := pymax 2 (max_score * (11 # 10))).
  assert (Hnf : (2 <= nf)%Q).
  { subst nf. unfold pymax. destruct (Qlt_le_dec 2 (max_score * (11 # 10))); lra. }
  unfold similarity_score.
  assert (Hz : Qeq_bool nf 0 = false).
  { destruct (Qeq_bool nf 0) eqn:Hz; [|reflexivity].
    apply Qeq_bool_iff in Hz. lra. }
  rewrite Hz. cbn [negb andb].
  apply round4_mono, pymax_mono, pymin_mono, pymax_mono.
  assert (Hdiv : (a / nf <= b / nf)%Q).
  { unfold Qdiv. apply Qmult_le_compat_r; [exact Hab|].
    apply Qinv_le_0_compat. lra. }
  lra.
Qed.

Lemma closer_hit_scores_no_lower_witness :
  (round4 (similarity_score true (Some (pymax 2 ((8 # 10) * (11 # 10)))) (8 # 10) (8 # 10))
   <= round4 (similarity_score true (Some (pymax 2 ((8 # 10) * (11 # 10)))) (8 # 10) (4 # 10)))%Q.
Proof. apply closer_hit_scores_no_lower. discriminate. Defined.

End StoreProperties.

(** ** What a stream yields and saves *)

Module StreamFacts.
Import Chat Effects Notions BudgetNotions StreamNotions SummaryFacts.

Section WithEnv.
Variable E : env.

Lemma streamed_cons (from count : nat) :
  streamed E from (S count)
  = (contents (fst (chat_astream E from)) ++ streamed E (S from) count)%list.
Proof. reflexivity. Qed.

(** One round of the loop that ends on a rate limit with retries left. *)
Lemma stream_attempts_retry (n retry_count : nat) (response_buffer : list string) (w : world)
      (chunks : list string) (e : exn) :
  chat_astream E (w_chat_calls w) = (chunks, Some e) ->
  RateLimit.is_rate_limit_error e = true ->
  (retry_count < max_retries)%nat ->
  let total_wait := (stream_base retry_count e
                     + stream_base retry_count e * jitter_percent (random_unit E (w_draws w)))%Q in
  let w1 := World (w_text_calls w) (w_image_calls w) (S (w_chat_calls w)) (S (w_draws w))
                  (w_uuids w) (total_wait :: w_slept w) (w_files w) (w_vectors w)
                  (w_documents w) (w_messages w) in
  let r := stream_attempts E n (S retry_count) (response_buffer ++ contents chunks) w1 in
  stream_attempts E (S n) retry_count response_buffer w
  = ((map Chunk (contents chunks)
      ++ RateLimitNotice (int_of_Q total_wait) (Z.of_nat retry_count + 1)
                         (Z.of_nat max_retries + 1) :: fst (fst r))%list,
     snd (fst r), snd r).
Proof.
  intros Hstream Hrl Hlt. cbv zeta. cbn [stream_attempts].
  run_bind. unfold open_stream, uniform, sleep. cbv beta iota. rewrite Hstream.
  apply Nat.ltb_lt in Hlt. rewrite Hrl, Hlt. cbn [andb]. cbv beta iota zeta.
  cbn [w_text_calls w_image_calls w_chat_calls w_draws w_uuids w_slept w_files w_vectors
       w_documents w_messages].
  unfold stream_base, jitter_percent, contents.
  match goal with
  | |- context [stream_attempts E n (S retry_count) ?b ?w1] =>
      destruct (stream_attempts E n (S retry_count) b w1) as [[ys buf] w2]
  end.
  reflexivity.
Qed.

(** One round of the loop that ends the run. *)
Lemma stream_attempts_stop (n retry_count : nat) (response_buffer : list string) (w : world)
      (chunks : list string) (failure : option exn) :
  chat_astream E (w_chat_calls w) = (chunks, failure) ->
  match failure with
  | Some e => RateLimit.is_rate_limit_error e && (retry_count <? max_retries)%nat = false
  | None => True
  end ->
  stream_attempts E (S n) retry_count response_buffer w
  = ((map Chunk (contents chunks) ++ map Chunk (error_tail failure))%list,
     (response_buffer ++ contents chunks ++ error_tail failure)%list,
     World (w_text_calls w) (w_image_calls w) (S (w_chat_calls w)) (w_draws w)
           (w_uuids w) (w_slept w) (w_files w) (w_vectors w)
           (w_documents w) (w_messages w)).
Proof.
  intros Hstream Hstop. cbn [stream_attempts].
  rewrite bind_run. unfold open_stream. cbn [fst snd]. rewrite Hstream.
  destruct failure as [e|].
  - rewrite Hstop. cbn [ret mret M_ret error_tail map]. now rewrite <- app_assoc.
  - cbn [ret mret M_ret error_tail map]. now rewrite !app_nil_r.
Qed.

(** The whole loop: [S m] streams are opened, with a sleep and a notice
    between two of them; the buffer gets the contents of all of them, and
    the error of the last one if it failed. *)
Lemma stream_attempts_run (n : nat) :
  forall (retry_count : nat) (response_buffer : list string) (w : world),
    (n + retry_count = S max_retries)%nat ->
    (retry_count <= max_retries)%nat ->
    exists (m : nat) (later : list Q),
      (m < n)%nat
      /\ length later = m
      /\ stream_attempts E n retry_count response_buffer w
         = (fst (fst (stream_attempts E n retry_count response_buffer w)),
            (response_buffer ++ streamed E (w_chat_calls w) (S m)
             ++ error_tail (snd (chat_astream E (w_chat_calls w + m))))%list,
            World (w_text_calls w) (w_image_calls w) (w_chat_calls w + S m)
                  (w_draws w + m) (w_uuids w) (later ++ w_slept w)%list (w_files w)
                  (w_vectors w) (w_documents w) (w_messages w))
      /\ length (List.filter is_notice
                   (fst (fst (stream_attempts E n retry_count response_buffer w)))) = m
      /\ ~ In EndMarker (fst (fst (stream_attempts E n retry_count response_buffer w))).
Proof.
  induction n as [|n IH]; intros retry_count response_buffer w Hn Hrc; [lia|].
  destruct (chat_astream E (w_chat_calls w)) as [chunks failure] eqn:Hstream.
  assert (Hchunks : forall l : list string, ~ In EndMarker (map Chunk l)).
  { intros l Hin. apply in_map_iff in Hin as (c & Hc & _). discriminate Hc. }
  assert (Hnotices : forall l : list string, List.filter is_notice (map Chunk l) = []).
  { induction l as [|c l IHl]; [reflexivity|exact IHl]. }
  assert (Hstop : match failure with
                  | Some e => RateLimit.is_rate_limit_error e
                              && (retry_count <? max_retries)%nat = false
                  | None => True
                  end ->
                  exists (m : nat) (later : list Q),
                    (m < S n)%nat
                    /\ length later = m
                    /\ stream_attempts E (S n) retry_count response_buffer w
                       = (fst (fst (stream_attempts E (S n) retry_count response_buffer w)),
                          (response_buffer ++ streamed E (w_chat_calls w) (S m)
                           ++ error_tail (snd (chat_astream E (w_chat_calls w + m))))%list,
                          World (w_text_calls w) (w_image_calls w) (w_chat_calls w + S m)
                                (w_draws w + m) (w_uuids w) (later ++ w_slept w)%list
                                (w_files w) (w_vectors w) (w_documents w) (w_messages w))
                    /\ length (List.filter is_notice
                                 (fst (fst (stream_attempts E (S n) retry_count
                                                            response_buffer w)))) = m
                    /\ ~ In EndMarker (fst (fst (stream_attempts E (S n) retry_count
                                                                 response_buffer w)))).
  { intros Hcase. exists 0%nat, []. split; [lia|]. split; [reflexivity|].
    rewrite (stream_attempts_stop n retry_count response_buffer w chunks failure Hstream Hcase).
    cbn [fst snd]. rewrite !Nat.add_0_r, Hstream. cbn [snd app].
    rewrite streamed_cons, Hstream. cbn [fst streamed flat_map seq].
    rewrite app_nil_r, Nat.add_1_r. split; [reflexivity|]. split.
    - now rewrite List.filter_app, !Hnotices.
    - intros Hin. apply in_app_or in Hin as [Hin|Hin]; apply (Hchunks _ Hin). }
  destruct failure as [e|]; [|apply Hstop; exact I].
  destruct (RateLimit.is_rate_limit_error e && (retry_count <? max_retries)%nat) eqn:Hretry;
    [|apply Hstop; reflexivity].
  clear Hstop. apply andb_prop in Hretry as [Hrl Hlt]. apply Nat.ltb_lt in Hlt.
  pose proof (stream_attempts_retry n retry_count response_buffer w chunks e Hstream Hrl Hlt)
    as Hstep.
  cbv zeta in Hstep. rewrite Hstep. cbn [fst snd].
  match type of Hstep with
  | context [stream_attempts E n (S retry_count) ?b ?w1] =>
      destruct (IH (S retry_count) b w1 ltac:(lia) ltac:(lia))
        as (m & later & Hm & Hlater & Hrun & Hcount & Hend);
      destruct (stream_attempts E n (S retry_count) b w1) as [[ys buf] w2]
  end.
  clear Hstep. cbn [fst snd w_chat_calls w_draws w_slept w_text_calls w_image_calls
                    w_uuids w_files w_vectors w_documents w_messages] in *.
  injection Hrun as Hbuf Hw2. subst buf w2.
  eexists (S m), (later ++ [_])%list. split; [lia|].
  split; [rewrite length_app; cbn; lia|]. split; [|split].
  - f_equal; [f_equal|].
    + rewrite (streamed_cons (w_chat_calls w) (S m)), Hstream. cbn [fst].
      replace (w_chat_calls w + S m)%nat with (S (w_chat_calls w + m)) by lia.
      now rewrite <- !app_assoc.
    + f_equal; [lia|lia|]. now rewrite <- app_assoc.
  - rewrite List.filter_app, Hnotices. cbn. now rewrite Hcount.
  - intros Hin. apply in_app_or in Hin as [Hin|[Hin|Hin]];
      [apply (Hchunks _ Hin)|discriminate Hin|apply (Hend Hin)].
Qed.

End WithEnv.

End StreamFacts.

Module GeneratorFacts.
Import Chat Effects Notions BudgetNotions StreamNotions SummaryFacts StreamFacts.

(** The generator, from what its loop returns. *)
Lemma event_generator_run (E : env) (sessionId : string) (w : world) :
  let r := stream_attempts E (S max_retries) 0 [] w in
  event_generator E sessionId w
  = ((fst (fst r) ++ [EndMarker])%list,
     World (w_text_calls (snd r)) (w_image_calls (snd r)) (w_chat_calls (snd r))
           (w_draws (snd r)) (w_uuids (snd r)) (w_slept (snd r)) (w_files (snd r))
           (w_vectors (snd r)) (w_documents (snd r))
           (w_messages (snd r) ++ saved sessionId (snd (fst r)))%list).
Proof.
  cbv zeta. unfold event_generator. rewrite bind_run.
  destruct (stream_attempts E (S max_retries) 0 [] w) as [[ys buf] w1]. cbn [fst snd].
  rewrite bind_run. unfold saved. destruct buf as [|b buf].
  - cbn. rewrite app_nil_r. now destruct w1.
  - destruct (PyStr.startswith (PyStr.join "" (b :: buf)) "[ERROR:"); cbn.
    + rewrite app_nil_r. now destruct w1.
    + reflexivity.
Qed.

End GeneratorFacts.

Section StreamProperties.
Import Chat Effects Notions BudgetNotions StreamNotions SummaryFacts StreamFacts GeneratorFacts RetryFacts
       Examples.

(** Every run of the generator yields the end marker exactly once, as its
    last event.  It opens between one and four streams, and between two
    streams it sleeps once and yields one rate-limit notice. *)
Theorem stream_opens_at_most_four (E : env) (sessionId : string) (w : world) :
  exists (ys : list sse) (m : nat),
    fst (event_generator E sessionId w) = (ys ++ [EndMarker])%list
    /\ ~ In EndMarker ys
    /\ (m <= 3)%nat
    /\ w_chat_calls (snd (event_generator E sessionId w)) = (w_chat_calls w + S m)%nat
    /\ length (w_slept (snd (event_generator E sessionId w))) = (length (w_slept w) + m)%nat
    /\ length (List.filter is_notice ys) = m.
Proof.
  pose proof (event_generator_run E sessionId w) as Hrun. cbv zeta in Hrun. rewrite Hrun.
  destruct (stream_attempts_run E (S max_retries) 0 [] w ltac:(lia) ltac:(lia))
    as (m & later & Hm & Hlater & Hloop & Hcount & Hend).
  rewrite Hloop. cbn [fst snd w_chat_calls w_slept].
  exists (fst (fst (stream_attempts E (S max_retries) 0 [] w))), m.
  unfold max_retries in Hm. repeat split; try assumption; try lia.
  rewrite length_app. lia.
Qed.

(** What a run saves.  The response buffer holds the contents of every
    stream the run opened, failed attempts included, then the error text if
    the last stream failed; the run appends one assistant message with the
    joined buffer, unless the buffer is empty or its text starts with
    "[ERROR:".  Documents, index files and vectors are not touched. *)
Theorem stream_saves_what_was_streamed (E : env) (sessionId : string) (w : world) :
  exists m,
    (m <= 3)%nat
    /\ w_chat_calls (snd (event_generator E sessionId w)) = (w_chat_calls w + S m)%nat
    /\ w_messages (snd (event_generator E sessionId w))
       = (w_messages w
          ++ saved sessionId
               (streamed E (w_chat_calls w) (S m)
                ++ error_tail (snd (chat_astream E (w_chat_calls w + m)))))%list
    /\ w_documents (snd (event_generator E sessionId w)) = w_documents w
    /\ w_files (snd (event_generator E sessionId w)) = w_files w
    /\ w_vectors (snd (event_generator E sessionId w)) = w_vectors w.
Proof.
  pose proof (event_generator_run E sessionId w) as Hrun. cbv zeta in Hrun. rewrite Hrun.
  destruct (stream_attempts_run E (S max_retries) 0 [] w ltac:(lia) ltac:(lia))
    as (m & later & Hm & Hlater & Hloop & Hcount & Hend).
  rewrite Hloop. cbn [fst snd w_chat_calls w_messages w_documents w_files w_vectors app].
  exists m. unfold max_retries in Hm. repeat split. lia.
Qed.

(** When the first stream of a run is refused for the rate, the run sleeps
    for the hint of the error, or for 60 seconds without one, plus a jitter
    of 10 to 20 percent (the generator drawing in [0, 1]), and tells the
    client the whole seconds of that wait in a notice numbered 1 of 4. *)
Theorem stream_wait_bounds (E : env) (sessionId : string) (w : world)
        (chunks : list string) (e : exn) :
  chat_astream E (w_chat_calls w) = (chunks, Some e) ->
  RateLimit.is_rate_limit_error e = true ->
  (0 <= random_unit E (w_draws w) <= 1)%Q ->
  exists (d : Q) (later : list Q),
    w_slept (snd (event_generator E sessionId w)) = (later ++ d :: w_slept w)%list
    /\ (0 < stream_base 0 e)%Q
    /\ ((11 # 10) * stream_base 0 e <= d /\ d <= (12 # 10) * stream_base 0 e)%Q
    /\ In (RateLimitNotice (int_of_Q d) 1 4) (fst (event_generator E sessionId w)).
Proof.
  intros Hstream Hrl [Hu0 Hu1].
  pose proof (event_generator_run E sessionId w) as Hrun. cbv zeta in Hrun. rewrite Hrun.
  clear Hrun. cbn [fst snd w_slept].
  pose proof (stream_attempts_retry E max_retries 0 [] w chunks e Hstream Hrl
                ltac:(unfold max_retries; lia)) as Hstep.
  cbv zeta in Hstep. rewrite Hstep. clear Hstep. cbn [fst snd].
  match goal with
  | |- context [stream_attempts E max_retries 1 ?b ?w1] =>
      destruct (stream_attempts_run E max_retries 1 b w1 ltac:(reflexivity)
                                    ltac:(unfold max_retries; lia))
        as (m & later & _ & _ & Hloop & _ & _);
      rewrite Hloop
  end.
  cbn [fst snd w_slept].
  eexists _, later. split; [reflexivity|].
  assert (Hpos : (0 < stream_base 0 e)%Q).
  { unfold stream_base.
    destruct (RateLimit.extract_wait_seconds_from_error e) as [h|] eqn:Hh.
    - apply extract_in_range in Hh as [Hlo _]. lra.
    - reflexivity. }
  split; [exact Hpos|]. unfold jitter_percent.
  set (b := stream_base 0 e) in *. set (u := random_unit E (w_draws w)) in *.
  split; [split; nra|].
  apply in_or_app. left. apply in_or_app. right. left. reflexivity.
Qed.

Lemma stream_wait_bounds_witness :
  let E := with_chat (fun n => match n with
                               | O => (["Hi"], Some (plain_exn "Exception" "429 retry in 10s"))
                               | _ => ([" there"], None)
                               end) quiet in
  exists (d : Q) (later : list Q),
    w_slept (snd (event_generator E "s1" initial_world)) = (later ++ [d])%list
    /\ ((11 # 10) * stream_base 0 (plain_exn "Exception" "429 retry in 10s") <= d
        /\ d <= (12 # 10) * stream_base 0 (plain_exn "Exception" "429 retry in 10s"))%Q.
Proof.
  cbv zeta.
  destruct (stream_wait_bounds
              (with_chat (fun n => match n with
                                   | O => (["Hi"], Some (plain_exn "Exception" "429 retry in 10s"))
                                   | _ => ([" there"], None)
                                   end) quiet)
              "s1" initial_world ["Hi"] (plain_exn "Exception" "429 retry in 10s"))
    as (d & later & Hs & _ & Hb & _).
  - reflexivity.
  - vm_compute. reflexivity.
  - split; discriminate.
  - exists d, later. split; [exact Hs|exact Hb].
Defined.

End StreamProperties.

(** ** The conversation history *)

Module SessionFacts.
Import Sessions Rag Effects SessionNotions.

Lemma firstn_app_enough {A : Type} (n : nat) (l extra : list A) :
  (n <= length l)%nat -> firstn n (l ++ extra) = firstn n l.
Proof.
  intros H. rewrite firstn_app. replace (n - length l)%nat with 0%nat by lia.
  cbn. apply app_nil_r.
Qed.

Lemma filter_negb_in_session (s s' : string) (l : list message) :
  s' <> s ->
  List.filter (in_session s') (List.filter (fun msg => negb (in_session s msg)) l)
  = List.filter (in_session s') l.
Proof.
  intros Hne. induction l as [|msg l IH]; [reflexivity|]. cbn [List.filter].
  destruct (in_session s msg) eqn:Hs; cbn [negb].
  - destruct (in_session s' msg) eqn:Hs'; [|exact IH].
    unfold in_session in *. apply String.eqb_eq in Hs, Hs'. congruence.
  - cbn [List.filter]. now rewrite IH.
Qed.

Lemma filter_in_session_deleted (s : string) (l : list message) :
  List.filter (in_session s) (List.filter (fun msg => negb (in_session s msg)) l) = [].
Proof.
  induction l as [|msg l IH]; [reflexivity|]. cbn [List.filter].
  destruct (in_session s msg) eqn:Hs; cbn [negb]; [exact IH|].
  cbn [List.filter]. now rewrite Hs.
Qed.

End SessionFacts.

Section SessionProperties.
Import Sessions Rag Effects SessionNotions SessionFacts Examples.

(** The history of a chat is cut at the oldest 20 messages of the session.
    Once a session has 20 messages, the messages that follow never reach the
    history, nor the prompt built from it; and as the prompt keeps the last
    10 entries of the history, its lines are those of the eleventh to the
    twentieth message of the session. *)
Theorem history_keeps_oldest_twenty (session_id : string) (w : world) (newer : list message) :
  (20 <= length (List.filter (in_session session_id) (w_messages w)))%nat ->
  fst (_load_conversation_history session_id 20
         (with_messages (w_messages w ++ newer) w))
  = fst (_load_conversation_history session_id 20 w)
  /\ (forall question parents include_images max_chars,
         build_prompt question parents
                      (fst (_load_conversation_history session_id 20
                              (with_messages (w_messages w ++ newer) w)))
                      include_images max_chars
         = build_prompt question parents
                        (fst (_load_conversation_history session_id 20 w))
                        include_images max_chars)
  /\ conv_parts (fst (_load_conversation_history session_id 20 w))
     = conv_parts (map entry (firstn 10 (skipn 10 (List.filter (in_session session_id)
                                                               (w_messages w))))).
Proof.
  intros Hlen.
  assert (Hsame : fst (_load_conversation_history session_id 20
                         (with_messages (w_messages w ++ newer) w))
                  = fst (_load_conversation_history session_id 20 w)).
  { unfold _load_conversation_history, get_messages_by_session.
    run_bind. cbn [fst snd w_messages with_messages].
    now rewrite List.filter_app, firstn_app_enough. }
  split; [exact Hsame|]. split; [intros; now rewrite Hsame|].
  unfold _load_conversation_history, get_messages_by_session.
  run_bind. cbn [fst snd]. unfold conv_parts. f_equal.
  set (rows := List.filter (in_session session_id) (w_messages w)) in *.
  unfold last_ten.
  rewrite !length_map, !length_firstn, length_skipn, Nat.min_l by exact Hlen.
  change (20 - 10)%nat with 10%nat.
  replace (Nat.min 10 (length rows - 10) - 10)%nat with 0%nat by lia.
  rewrite skipn_map, skipn_firstn_comm. reflexivity.
Qed.

Lemma history_keeps_oldest_twenty_witness :
  let turn := [Message "s1" "user" "a question"; Message "s1" "assistant" "an answer"] in
  let w := with_messages (concat (repeat turn 10)) initial_world in
  fst (_load_conversation_history "s1" 20
         (with_messages (w_messages w ++ [Message "s1" "user" "the latest question"]) w))
  = fst (_load_conversation_history "s1" 20 w).
Proof.
  cbv zeta.
  apply (proj1 (history_keeps_oldest_twenty "s1"
                  (with_messages
                     (concat (repeat [Message "s1" "user" "a question";
                                      Message "s1" "assistant" "an answer"] 10))
                     initial_world)
                  [Message "s1" "user" "the latest question"]
                  ltac:(vm_compute; lia))).
Defined.

(** Deleting a session removes its messages and no other: the session
    reads back empty, every other session reads back as before, and the
    result tells whether there was a message to delete, so that a second
    deletion finds nothing. *)
Theorem delete_session_removes_only_its_session (session_id : string) (w : world) :
  let w' := snd (delete_session session_id w) in
  (forall limit, fst (get_messages_by_session session_id limit w') = [])
  /\ (forall other limit,
         other <> session_id ->
         fst (get_messages_by_session other limit w')
         = fst (get_messages_by_session other limit w))
  /\ (fst (delete_session session_id w) = true
      <-> fst (get_messages_by_session session_id None w) <> [])
  /\ fst (delete_session session_id w') = false.
Proof.
  cbv zeta. unfold delete_session, get_messages_by_session.
  cbn [fst snd w_messages]. repeat split.
  - intros limit. rewrite filter_in_session_deleted. now destruct limit as [[|n]|].
  - intros other limit Hne. now rewrite (filter_negb_in_session session_id other _ Hne).
  - intros H Hnil. rewrite Hnil in H. discriminate H.
  - intros H. destruct (List.filter (in_session session_id) (w_messages w)); [congruence|].
    reflexivity.
  - now rewrite filter_in_session_deleted.
Qed.

Lemma delete_session_removes_only_its_session_witness :
  let w := with_messages [Message "s1" "user" "a question"; Message "s2" "user" "another";
                          Message "s1" "assistant" "an answer"] initial_world in
  fst (get_messages_by_session "s2" None (snd (delete_session "s1" w)))
  = fst (get_messages_by_session "s2" None w)
  /\ fst (delete_session "s1" w) = true.
Proof.
  cbv zeta.
  destruct (delete_session_removes_only_its_session "s1"
              (with_messages [Message "s1" "user" "a question"; Message "s2" "user" "another";
                              Message "s1" "assistant" "an answer"] initial_world))
    as (_ & Hother & Hresult & _).
  split.
  - apply Hother. discriminate.
  - apply Hresult. vm_compute. discriminate.
Defined.

End SessionProperties.

(** ** The removal of a document *)

Module RemovalFacts.
Import Effects Vector Removal Notions StoreNotions IndexFacts StoreFacts SummaryFacts.

(** [remove_document] in one step. *)
Lemma remove_document_eq (E : env) (F : faults) (doc : string) (w : world) :
  let files := if os_remove_fails F then w_files w
               else delete (_parents_index_path E doc) (w_files w) in
  let vectors := if vectorstore_delete_fails F then w_vectors w
                 else of_other_documents doc (w_vectors w) in
  remove_document E F doc w
  = match vectorstore_ready E with
    | Some e =>
        (Raise e, World (w_text_calls w) (w_image_calls w) (w_chat_calls w) (w_draws w)
                        (w_uuids w) (w_slept w) files (w_vectors w) (w_documents w)
                        (w_messages w))
    | None =>
        (match w_documents w !! doc with Some _ => Ok tt | None => Raise not_found end,
         World (w_text_calls w) (w_image_calls w) (w_chat_calls w) (w_draws w)
               (w_uuids w) (w_slept w) files vectors (delete doc (w_documents w))
               (w_messages w))
    end.
Proof.
  cbv zeta. unfold remove_document, remove_if_exists, delete_vectors_for_document,
    _parents_index_path.
  set (path := path_join (path_join (data_dir E) "parents_index") (doc ++ ".json")).
  run_bind. unfold read_file. cbv beta iota.
  assert (Hfiles : (if os_remove_fails F then w_files w else delete path (w_files w))
                   = match w_files w !! path with
                     | Some _ => if os_remove_fails F then w_files w
                                 else delete path (w_files w)
                     | None => w_files w
                     end).
  { destruct (w_files w !! path) eqn:Hp; [reflexivity|].
    destruct (os_remove_fails F); [reflexivity|]. now apply delete_id. }
  rewrite Hfiles. clear Hfiles.
  destruct (w_files w !! path) as [content|];
    destruct (os_remove_fails F); destruct (vectorstore_ready E) as [e|];
    try (destruct w; reflexivity);
    destruct (vectorstore_delete_fails F); unfold delete_document; cbn;
    destruct (w_documents w !! doc) eqn:Hd; cbn;
    try reflexivity; rewrite (delete_id _ _ Hd); destruct w; reflexivity.
Qed.

Lemma of_other_documents_idem (doc : string) (l : list child_doc) :
  of_other_documents doc (of_other_documents doc l) = of_other_documents doc l.
Proof.
  unfold of_other_documents. induction l as [|c l IH]; [reflexivity|].
  cbn [List.filter]. destruct (negb (Py.eq_str (md_doc_id c) doc)) eqn:Hc;
    cbn [List.filter]; rewrite ?Hc, IH; reflexivity.
Qed.

End RemovalFacts.

Section RemovalProperties.
Import Effects Vector Removal Notions StoreNotions IndexFacts StoreFacts SummaryFacts RemovalFacts
       Examples.





End RemovalProperties.

(** ** The rows an upload touches *)

Module UploadFacts.
Import Summary Vector Upload Effects Notions BudgetNotions FrameNotions SummaryFacts StoreFacts
       PipelineFacts.

Lemma touches_only_trans (doc : string) (w1 w2 w3 : world) :
  touches_only doc w1 w2 -> touches_only doc w2 w3 -> touches_only doc w1 w3.
Proof.
  intros [H1 H2] [H3 H4]. split; [|congruence].
  intros other Hne. rewrite (H3 other Hne). apply (H1 other Hne).
Qed.

Lemma confined_ret (doc : string) {A : Type} (a : A) : confined doc (ret a).
Proof. intros w. split; reflexivity. Qed.

Lemma confined_bind (doc : string) {A B : Type} (m : M A) (f : A -> M B) :
  confined doc m -> (forall a, confined doc (f a)) -> confined doc (m ≫= f).
Proof.
  intros Hm Hf w. unfold mbind, M_bind. specialize (Hm w).
  destruct (m w) as [a w1]. cbn [snd] in Hm.
  exact (touches_only_trans doc _ _ _ Hm (Hf a w1)).
Qed.

Lemma confined_update (doc status : string) (progress : Z) :
  confined doc (update_document_status doc status progress).
Proof.
  intros w. unfold update_document_status.
  destruct (w_documents w !! doc); [|split; reflexivity].
  split; [|reflexivity]. intros other Hne. cbn. now apply lookup_insert_ne.
Qed.

Lemma confined_spends (doc : string) {A : Type} (t i : nat) (m : M A) :
  spends t i m -> confined doc m.
Proof.
  intros H w. destruct (H w) as (_ & _ & _ & _ & _ & _ & Hd & Hm).
  split; [|exact Hm]. intros other _. now rewrite Hd.
Qed.

Lemma confined_index (E : env) (doc : string) (p : parents) (s : summaries) :
  confined doc (index_multivector E doc p s).
Proof.
  intros w. pose proof (index_multivector_eq E doc p s w) as Heq. cbv zeta in Heq.
  rewrite Heq. destruct (vectorstore_ready E); [split; reflexivity|].
  destruct (children_of E doc (w_uuids w) _); [split; reflexivity|].
  destruct (add_documents_error E); split; reflexivity.
Qed.

Lemma confined_mark_failed (doc : string) : confined doc (mark_failed doc).
Proof.
  unfold mark_failed. apply confined_bind; [apply confined_update|intros _; apply confined_ret].
Qed.

Lemma confined_report_progress (doc : string) (reports : list Z) :
  confined doc (report_progress doc reports).
Proof.
  induction reports as [|r rest IH]; cbn [report_progress]; [apply confined_ret|].
  apply confined_bind; [apply confined_update|intros _; exact IH].
Qed.

Lemma confined_process_upload (E : env) (doc : string) :
  confined doc (process_upload_background E doc).
Proof.
  unfold process_upload_background.
  apply confined_bind; [apply confined_update|intros _].
  destruct (process_pdf E) as [p|e].
  - apply confined_bind; [apply confined_update|intros _].
    apply confined_bind; [apply (confined_spends doc _ _ _ (spends_build_summaries E p))|].
    intros [r reports].
    apply confined_bind; [apply confined_report_progress|intros _].
    destruct r as [s|e].
    + apply confined_bind; [apply confined_update|intros _].
      destruct (persist_summaries_error E).
      * apply confined_bind; [apply confined_mark_failed|intros _; apply confined_ret].
      * apply confined_bind; [apply confined_update|intros _].
        apply confined_bind; [apply confined_index|intros [u|e]].
        -- apply confined_bind; [apply confined_update|intros _; apply confined_ret].
        -- apply confined_bind; [apply confined_mark_failed|intros _; apply confined_ret].
    + apply confined_bind; [apply confined_mark_failed|intros _; apply confined_ret].
  - apply confined_bind; [apply confined_mark_failed|intros _; apply confined_ret].
Qed.

End UploadFacts.

Section UploadProperties.
Import Summary Vector Upload Effects Notions BudgetNotions FrameNotions SummaryFacts StoreFacts
       PipelineFacts UploadFacts Examples.

(** The background task of an upload writes no row but that of its
    document, and no message.  If the row is missing (the document was
    removed meanwhile), the task runs all the same and creates no row.  And
    when the parsing fails, the task ends there: no call of a provider, no
    index file, no vector. *)
Theorem upload_touches_only_its_row (E : env) (doc : string) (w : world) :
  (forall other, other <> doc ->
                 w_documents (snd (process_upload_background E doc w)) !! other
                 = w_documents w !! other)
  /\ w_messages (snd (process_upload_background E doc w)) = w_messages w
  /\ (w_documents w !! doc = None ->
      w_documents (snd (process_upload_background E doc w)) = w_documents w)
  /\ (forall e, process_pdf E = Raise e ->
                fst (process_upload_background E doc w) = FailedParsing e
                /\ w_text_calls (snd (process_upload_background E doc w)) = w_text_calls w
                /\ w_image_calls (snd (process_upload_background E doc w)) = w_image_calls w
                /\ w_files (snd (process_upload_background E doc w)) = w_files w
                /\ w_vectors (snd (process_upload_background E doc w)) = w_vectors w).
Proof.
  destruct (confined_process_upload E doc w) as [Hrows Hmsgs].
  split; [exact Hrows|]. split; [exact Hmsgs|]. split.
  - intros Hnone. apply map_eq. intros other.
    destruct (decide (other = doc)) as [->|Hne]; [|apply Hrows, Hne].
    rewrite (process_upload_ends_on_exit E doc w), Hnone. reflexivity.
  - intros e Hpdf. unfold process_upload_background, mark_failed. rewrite Hpdf.
    rewrite !bind_run. cbn [fst snd ret mret M_ret].
    unfold update_document_status.
    destruct (w_documents w !! doc) as [d|] eqn:Hd; cbn [fst snd w_documents].
    + rewrite lookup_insert_eq. repeat split.
    + rewrite Hd. repeat split.
Qed.

Lemma upload_touches_only_its_row_witness :
  let E := Env true "/srv/data" None (fun _ _ _ => Ok "") None (fun _ _ => Ok "")
               (fun _ => ([], None)) (Raise (plain_exn "ValueError" "not a PDF file")) None
               (fun _ => 0%Q) (fun n => "child-" ++ pretty n) None None (fun _ _ => []) in
  fst (process_upload_background E "doc-1" (uploaded "doc-1"))
  = FailedParsing (plain_exn "ValueError" "not a PDF file")
  /\ w_documents (snd (process_upload_background E "doc-1" (uploaded "doc-1"))) !! "doc-2"
     = None.
Proof.
  cbv zeta.
  destruct (upload_touches_only_its_row
              (Env true "/srv/data" None (fun _ _ _ => Ok "") None (fun _ _ => Ok "")
                   (fun _ => ([], None)) (Raise (plain_exn "ValueError" "not a PDF file")) None
                   (fun _ => 0%Q) (fun n => "child-" ++ pretty n) None None (fun _ _ => []))
              "doc-1" (uploaded "doc-1"))
    as (Hrows & _ & _ & Hparse).
  split.
  - apply (Hparse (plain_exn "ValueError" "not a PDF file")). reflexivity.
  - rewrite (Hrows "doc-2"); [reflexivity|discriminate].
Defined.

End UploadProperties.

(** ** The answer without streaming *)

Module AnswerFacts.
Import Effects Rag Answer RateLimit TraceNotions WrapperFacts SummaryFacts.

(** The wrapper reads the wrapped function only through its outcomes. *)
Lemma retry_loop_ext {T : Type} (f g : nat -> outcome T) (max_retries : Z) (dw bm : Q)
      (n : nat) :
  (forall a, f a = g a) ->
  forall attempt last_error,
    retry_loop f max_retries dw bm n attempt last_error
    = retry_loop g max_retries dw bm n attempt last_error.
Proof.
  intros Hfg. induction n as [|n IH]; intros attempt last_error; [reflexivity|].
  cbn [retry_loop]. rewrite Hfg. destruct (g attempt) as [v|e]; [reflexivity|].
  destruct (is_rate_limit_error e); [|reflexivity].
  destruct (Z.of_nat attempt <? max_retries); [|reflexivity]. now rewrite IH.
Qed.

Lemma build_prompt_without_images (question : string) (parents : list pydict)
      (history : list (string * string)) (max_chars : nat) (p : prompt) :
  build_prompt question parents history false max_chars = Ok p -> image_urls p = [].
Proof.
  unfold build_prompt. destruct (context_of parents ""); [|discriminate].
  intros [= <-]. reflexivity.
Qed.

End AnswerFacts.

Section AnswerProperties.
Import Effects Rag Answer RateLimit TraceNotions BudgetNotions WrapperFacts SummaryFacts AnswerFacts
       RetrievalFacts Examples.



End AnswerProperties.
